(** * Student grade management: record aggregation, analytics and store

    A shallow embedding of [src/grade_management.py]: the data model
    ([SubjectInfo], [StudentInfo], [AcademicRecord], [GradeLevel]), the
    analytics engine ([calculate_statistics], [generate_insights],
    [predict_performance]), the SQLite-backed store ([save_record],
    [load_record_by_id], [get_student_info], [get_student_records]) and
    the console dialogs ([input_text], [input_number], [menu],
    [input_grades]), which read from a list of typed lines.

    Number model.  Python's [float] is modelled by exact rationals [Q]
    (Python's [statistics] module itself computes means and variances in
    exact rational arithmetic); [round(x, 2)] is the round-half-to-even
    rounding to two decimals that Python documents.  The statements made
    in this model are comparisons, orderings, bounds and case splits,
    which the rounding of IEEE doubles preserves.  Where the value of an
    average itself is at stake, the part "Double precision" models every
    operation as the correctly rounded double ([rnd64]).  The square root
    used by [statistics.stdev] is a parameter of the development: no
    result below depends on its values.

    Exceptions are modelled by the [result] type; Python dictionaries by
    [gmap string pyval].  In the dialogs a typed score is a [pyfloat]: a
    rational, an infinity or nan, as [float()] can return them. *)

From Stdlib Require Import QArith Qround Qabs Qminmax Qpower ZArith Ascii String Sorted Permutation Lia Lqa.
From stdpp Require Import base option list strings gmap.

Open Scope string_scope.

(** ** Python run-time: exceptions, values, arithmetic *)

Inductive exn : Type :=
| ZeroDivisionError
| TypeError
| ValueError
| StatisticsError
| DatabaseError.

Inductive result (A : Type) : Type :=
| Ok (a : A)
| Raise (e : exn).
Arguments Ok {A} a.
Arguments Raise {A} e.

#[global] Instance result_ret : MRet result := fun _ a => Ok a.
#[global] Instance result_bind : MBind result := fun _ _ f m =>
  match m with Ok a => f a | Raise e => Raise e end.
#[global] Instance result_fmap : FMap result := fun _ _ f m =>
  match m with Ok a => Ok (f a) | Raise e => Raise e end.

(** Dynamically typed values stored in the dictionaries of the analytics
    engine: [None], numbers ([int] and [float] alike), strings and lists
    of strings. *)
Inductive pyval : Type :=
| PyNone
| PyNum (q : Q)
| PyStr (s : string)
| PyStrList (l : list string).

(** [d.get(key, default)] *)
Definition dict_get (key : string) (default : pyval) (d : gmap string pyval) : pyval :=
  match d !! key with
  | Some v => v
  | None => default
  end.

Definition Qlt_bool (a b : Q) : bool := negb (Qle_bool b a).

(** [a / b] on numbers. *)
Definition py_div (a b : Q) : result Q :=
  if Qeq_bool b 0 then Raise ZeroDivisionError else Ok (a / b)%Q.

(** Using a dynamically typed value as a number: anything else makes the
    arithmetic or the ordering comparison raise [TypeError]. *)
Definition py_num (v : pyval) : result Q :=
  match v with
  | PyNum q => Ok q
  | _ => Raise TypeError
  end.

(** [v >= bound], [v > bound] and [v < bound] for a numeric literal [bound]. *)
Definition py_ge (v : pyval) (bound : Q) : result bool :=
  q ← py_num v; Ok (Qle_bool bound q).
Definition py_gt (v : pyval) (bound : Q) : result bool :=
  q ← py_num v; Ok (Qlt_bool bound q).
Definition py_lt (v : pyval) (bound : Q) : result bool :=
  q ← py_num v; Ok (Qlt_bool q bound).

(** [v == bound]: equality never raises; a non-number differs from a number. *)
Definition py_eq_num (v : pyval) (bound : Q) : bool :=
  match v with
  | PyNum q => Qeq_bool q bound
  | _ => false
  end.

(** [sum(xs)]: left fold starting from [0]. *)
Definition py_sum (xs : list Q) : Q := fold_left Qplus xs 0%Q.

(** [len(xs)] as a number. *)
Definition py_len {A} (xs : list A) : Q := inject_Z (Z.of_nat (length xs)).

(** Rounding to the nearest integer, ties to even. *)
Definition round_half_even (q : Q) : Z :=
  let f := Qfloor q in
  match Qcompare (q - inject_Z f) (1 # 2) with
  | Lt => f
  | Gt => (f + 1)%Z
  | Eq => if Z.even f then f else (f + 1)%Z
  end.

(** [round(x, 2)] *)
Definition round2 (x : Q) : Q := (inject_Z (round_half_even (x * 100)) / 100)%Q.

(** [min(a, b)] on numbers returns its first argument unless the second is
    strictly smaller. *)
Definition py_min2 (a b : Q) : Q := if Qlt_bool b a then b else a.

(** [min(xs, key=key)] and [max(xs, key=key)]: one pass, the running
    extreme is replaced only by a strictly better element. *)
Fixpoint min_from {A} (key : A → Q) (best : A) (xs : list A) : A :=
  match xs with
  | [] => best
  | x :: xs' => if Qlt_bool (key x) (key best) then min_from key x xs' else min_from key best xs'
  end.

Fixpoint max_from {A} (key : A → Q) (best : A) (xs : list A) : A :=
  match xs with
  | [] => best
  | x :: xs' => if Qlt_bool (key best) (key x) then max_from key x xs' else max_from key best xs'
  end.

Definition py_min {A} (key : A → Q) (xs : list A) : result A :=
  match xs with
  | [] => Raise ValueError
  | x :: xs' => Ok (min_from key x xs')
  end.

Definition py_max {A} (key : A → Q) (xs : list A) : result A :=
  match xs with
  | [] => Raise ValueError
  | x :: xs' => Ok (max_from key x xs')
  end.

(** [sorted(xs, key=key)]: a stable ascending sort that compares keys with
    [<] only.  An element is placed before the first later element that is
    not strictly smaller. *)
Fixpoint insert_sorted {A} (key : A → Q) (x : A) (xs : list A) : list A :=
  match xs with
  | [] => [x]
  | y :: xs' => if Qlt_bool (key y) (key x) then y :: insert_sorted key x xs' else x :: y :: xs'
  end.

Definition py_sorted {A} (key : A → Q) (xs : list A) : list A :=
  foldr (insert_sorted key) [] xs.

(** ** Configuration: icons and grade levels *)

Module Icons.
Definition WARNING : string := "⚠".
Definition STAR : string := "⭐".
Definition TROPHY : string := "🏆".
Definition FIRE : string := "🔥".
Definition ROCKET : string := "🚀".
Definition TARGET : string := "🎯".
Definition LIGHT : string := "💡".
End Icons.

Inductive GradeLevel : Type :=
| OUTSTANDING
| EXCELLENT
| GOOD
| AVERAGE
| WEAK
| POOR.

Definition label (g : GradeLevel) : string :=
  match g with
  | OUTSTANDING => "Xuất sắc"
  | EXCELLENT => "Giỏi"
  | GOOD => "Khá"
  | AVERAGE => "Trung bình"
  | WEAK => "Yếu"
  | POOR => "Kém"
  end.

Definition min_score (g : GradeLevel) : Q :=
  match g with
  | OUTSTANDING => 9
  | EXCELLENT => 8
  | GOOD => 65 # 10
  | AVERAGE => 5
  | WEAK => 35 # 10
  | POOR => 0
  end.

(** Iteration order of the enumeration: definition order. *)
Definition GradeLevel_members : list GradeLevel :=
  [OUTSTANDING; EXCELLENT; GOOD; AVERAGE; WEAK; POOR].

(** The loop shared by [SubjectInfo.grade_level] and
    [AcademicRecord.grade_level]: first level whose threshold is met,
    [POOR] when the loop falls through. *)
Definition level_of (x : Q) : GradeLevel :=
  match List.find (fun level => Qle_bool (min_score level) x) GradeLevel_members with
  | Some level => level
  | None => POOR
  end.

(** ** Data model *)

Record SubjectInfo : Type := {
  name : string;
  score : Q;
  weight : Z;
  category : option string;
  notes : option string
}.

(** [SubjectInfo.__post_init__] *)
Definition SubjectInfo_post_init (s : SubjectInfo) : result SubjectInfo :=
  if negb (Qle_bool 0 (score s) && Qle_bool (score s) 10) then Raise ValueError
  else if negb (bool_decide (weight s ∈ [1; 2; 3]%Z)) then Raise ValueError
  else Ok s.

Definition weighted_score (s : SubjectInfo) : Q := (score s * inject_Z (weight s))%Q.

Definition subject_grade_level (s : SubjectInfo) : GradeLevel := level_of (score s).

Record StudentInfo : Type := {
  student_id : string;
  full_name : string;
  class_name : string;
  academic_year : string;
  date_of_birth : option string;
  gender : option string;
  email : option string;
  phone : option string
}.

(** [re.match(r'^[A-Z0-9]{6,10}$', s)]: six to ten upper-case letters or
    digits; [$] also matches just before a final newline. *)
Definition is_id_char (a : ascii) : bool :=
  let n := nat_of_ascii a in
  ((65 <=? n) && (n <=? 90) || (48 <=? n) && (n <=? 57))%nat.

Definition newline : ascii := ascii_of_nat 10.

Definition strip_final_newline (cs : list ascii) : list ascii :=
  match reverse cs with
  | c :: rest => if bool_decide (c = newline) then reverse rest else cs
  | [] => cs
  end.

Definition student_id_matches (s : string) : bool :=
  let core := strip_final_newline (list_ascii_of_string s) in
  forallb is_id_char core && ((6 <=? length core) && (length core <=? 10))%nat.

(** [StudentInfo.__post_init__] *)
Definition StudentInfo_post_init (s : StudentInfo) : result StudentInfo :=
  if negb (student_id_matches (student_id s)) then Raise ValueError else Ok s.

Record AcademicRecord : Type := {
  student : StudentInfo;
  semester : string;
  exam_type : string;
  subjects : list SubjectInfo;
  created_at : string;
  record_id : string
}.

(** [AcademicRecord.simple_gpa] *)
Definition simple_gpa (r : AcademicRecord) : result Q :=
  match subjects r with
  | [] => Ok 0%Q
  | _ => m ← py_div (py_sum (map score (subjects r))) (py_len (subjects r));
         Ok (round2 m)
  end.

(** [AcademicRecord.weighted_gpa] *)
Definition weighted_gpa (r : AcademicRecord) : result Q :=
  match subjects r with
  | [] => Ok 0%Q
  | _ =>
    let total_weighted := py_sum (map weighted_score (subjects r)) in
    let total_weights := py_sum (map (fun s => inject_Z (weight s)) (subjects r)) in
    m ← py_div total_weighted total_weights;
    Ok (round2 m)
  end.

(** [AcademicRecord.grade_level] *)
Definition grade_level (r : AcademicRecord) : result GradeLevel :=
  gpa ← weighted_gpa r;
  Ok (level_of gpa).

(** ** Analytics engine *)

(** An f-string, kept as its parts: literal text, an interpolated value
    ([{v}]) and a number formatted with [{q:.0f}]. *)
Inductive fpart : Type :=
| Lit (s : string)
| Interp (v : pyval)
| Fixed0 (q : Q).

Definition fstring : Type := list fpart.

(** [xs.append(x)] *)
Definition list_append {A} (xs : list A) (x : A) : list A := (xs ++ [x])%list.

(** [sum(1 for s in scores if p(s))] *)
Definition count_if (p : Q → bool) (scores : list Q) : Q :=
  py_sum (map (fun _ => 1%Q) (List.filter p scores)).

Section Analytics.

(** [math.sqrt] as used by [statistics.stdev]. *)
Variable py_sqrt : Q → Q.

(** [statistics.mean] *)
Definition statistics_mean (data : list Q) : result Q :=
  match data with
  | [] => Raise StatisticsError
  | _ => py_div (py_sum data) (py_len data)
  end.

(** [statistics.median]: middle element of the sorted data, or the mean
    of the two middle elements. *)
Definition statistics_median (data : list Q) : result Q :=
  let data' := py_sorted id data in
  let n := length data' in
  if (n =? 0)%nat then Raise StatisticsError
  else if (n mod 2 =? 1)%nat then Ok (nth (n / 2) data' 0%Q)
  else
    let i := (n / 2)%nat in
    Ok ((nth (i - 1) data' 0 + nth i data' 0) / 2)%Q.

(** [statistics.variance]: sample variance, at least two data points. *)
Definition statistics_variance (data : list Q) : result Q :=
  if (length data <? 2)%nat then Raise StatisticsError
  else
    m ← statistics_mean data;
    py_div (py_sum (map (fun x => (x - m) * (x - m))%Q data)) (py_len data - 1)%Q.

(** [statistics.stdev] *)
Definition statistics_stdev (data : list Q) : result Q :=
  v ← statistics_variance data;
  Ok (py_sqrt v).

(** [AdvancedAnalytics.calculate_statistics] *)
Definition calculate_statistics (subjs : list SubjectInfo) : result (gmap string pyval) :=
  match subjs with
  | [] => Ok ∅
  | _ =>
    let scores := map score subjs in
    let n := length scores in
    mean ← statistics_mean scores;
    median ← statistics_median scores;
    variance ← (if (1 <? n)%nat then statistics_variance scores else Ok 0%Q);
    std_dev ← (if (1 <? n)%nat then statistics_stdev scores else Ok 0%Q);
    lo ← py_min id scores;
    hi ← py_max id scores;
    min_subject ← py_min score subjs;
    max_subject ← py_max score subjs;
    excellence ← py_div (count_if (fun s => Qle_bool 8 s) scores) (py_len scores);
    pass ← py_div (count_if (fun s => Qle_bool 5 s) scores) (py_len scores);
    spread ← (if (1 <? n)%nat then
                m ← statistics_mean scores;
                if Qlt_bool 0 m then
                  sd ← statistics_stdev scores;
                  m' ← statistics_mean scores;
                  q ← py_div sd m';
                  Ok (q * 100)%Q
                else Ok 0%Q
              else Ok 0%Q);
    Ok (list_to_map [
      ("count", PyNum (py_len scores));
      ("mean", PyNum mean);
      ("median", PyNum median);
      ("variance", PyNum variance);
      ("std_dev", PyNum std_dev);
      ("min", PyNum lo);
      ("max", PyNum hi);
      ("range", PyNum (hi - lo)%Q);
      ("min_subject", PyStr (name min_subject));
      ("max_subject", PyStr (name max_subject));
      ("excellent_count", PyNum (count_if (fun s => Qle_bool 9 s) scores));
      ("good_count", PyNum (count_if (fun s => Qle_bool 8 s && Qlt_bool s 9) scores));
      ("average_count", PyNum (count_if (fun s => Qle_bool 5 s && Qlt_bool s 8) scores));
      ("poor_count", PyNum (count_if (fun s => Qlt_bool s 5) scores));
      ("excellence_rate", PyNum (excellence * 100)%Q);
      ("pass_rate", PyNum (pass * 100)%Q);
      ("consistency_score", PyNum (100 - spread)%Q)
    ])
  end.

(** The remarks of [generate_insights], rule by rule. *)
Definition remark_outstanding : fstring :=
  [Lit Icons.TROPHY; Lit " Xuất sắc! Thuộc top học sinh giỏi nhất!"].
Definition remark_good : fstring :=
  [Lit Icons.FIRE; Lit " Kết quả tốt! Cố gắng thêm để đạt xuất sắc."].
Definition remark_fair : fstring :=
  [Lit Icons.TARGET; Lit " Khá ổn. Tập trung cải thiện môn yếu."].
Definition remark_needs_improvement : fstring :=
  [Lit Icons.WARNING; Lit " Cần cải thiện. Đừng nản chí!"].
Definition remark_even : fstring :=
  [Lit Icons.STAR; Lit " Điểm rất đồng đều - học tập ổn định."].
Definition remark_uneven : fstring :=
  [Lit Icons.LIGHT; Lit " Điểm chênh lệch - cân bằng thời gian học."].
Definition remark_perfect (subject : pyval) : fstring :=
  [Lit "🥇 Điểm tuyệt đối ở "; Interp subject; Lit "!"].
Definition remark_weak (subject : pyval) : fstring :=
  [Lit Icons.WARNING; Lit " Ưu tiên "; Interp subject; Lit "."].
Definition remark_excellence (rate : Q) : fstring :=
  [Lit Icons.ROCKET; Lit " "; Fixed0 rate; Lit "% môn đạt giỏi!"].

(** [AdvancedAnalytics.generate_insights] *)
Definition generate_insights (stats : gmap string pyval) (record : AcademicRecord)
  : result (list fstring) :=
  let insights : list fstring := [] in
  gpa ← weighted_gpa record;
  (* GPA analysis *)
  let insights :=
    if Qle_bool 9 gpa then list_append insights remark_outstanding
    else if Qle_bool 8 gpa then list_append insights remark_good
    else if Qle_bool (65 # 10) gpa then list_append insights remark_fair
    else list_append insights remark_needs_improvement in
  (* Consistency *)
  let consistency := dict_get "consistency_score" (PyNum 0) stats in
  even ← py_ge consistency 90;
  insights ← (if even : bool then Ok (list_append insights remark_even)
              else
                uneven ← py_lt consistency 70;
                Ok (if uneven : bool then list_append insights remark_uneven else insights));
  (* Perfect score *)
  let insights :=
    if py_eq_num (dict_get "max" PyNone stats) 10
    then list_append insights (remark_perfect (dict_get "max_subject" PyNone stats))
    else insights in
  (* Weak subjects *)
  weak ← py_lt (dict_get "min" PyNone stats) 5;
  let insights :=
    if weak : bool then list_append insights (remark_weak (dict_get "min_subject" PyNone stats))
    else insights in
  (* Excellence rate *)
  let excellence := dict_get "excellence_rate" (PyNum 0) stats in
  high ← py_ge excellence 70;
  insights ← (if high : bool then
                rate ← py_num excellence;
                Ok (list_append insights (remark_excellence rate))
              else Ok insights);
  Ok insights.

(** [AdvancedAnalytics.predict_performance] *)
Definition predict_performance (record : AcademicRecord) : result (gmap string pyval) :=
  stats ← calculate_statistics (subjects record);
  current_gpa ← weighted_gpa record;
  let consistency := dict_get "consistency_score" (PyNum 0) stats in
  c ← py_num consistency;
  ratio ← py_div c 100;
  let improvement := ((10 - current_gpa) * ratio * (3 # 10))%Q in
  let predicted := py_min2 10 (current_gpa + improvement)%Q in
  high ← py_gt consistency 80;
  confidence ← (if high : bool then Ok "Cao"
                else
                  medium ← py_gt consistency 60;
                  Ok (if medium : bool then "Trung bình" else "Thấp"));
  Ok (list_to_map [
    ("current_gpa", PyNum current_gpa);
    ("predicted_next", PyNum (round2 predicted));
    ("improvement_potential", PyNum (round2 improvement));
    ("confidence", PyStr confidence);
    ("recommendation", PyStr (if Qle_bool 8 current_gpa then "Duy trì" else "Cải thiện"));
    ("focus_areas", PyStrList (map name (take 3 (py_sorted score (subjects record)))))
  ]).

End Analytics.

(** ** Database manager *)

(** Rows of the three tables created by [initialize_database]. *)
Record students_row : Type := {
  st_student_id : string;
  st_full_name : string;
  st_class_name : string;
  st_academic_year : string;
  st_date_of_birth : option string;
  st_gender : option string;
  st_email : option string;
  st_phone : option string;
  st_created_at : string
}.

Record subjects_row : Type := {
  sj_id : Z;
  sj_student_id : string;
  sj_record_id : string;
  sj_subject_name : string;
  sj_score : Q;
  sj_weight : Z;
  sj_category : option string;
  sj_notes : option string
}.

Record records_row : Type := {
  ar_record_id : string;
  ar_student_id : string;
  ar_semester : string;
  ar_exam_type : string;
  ar_simple_gpa : Q;
  ar_weighted_gpa : Q;
  ar_grade_level : string;
  ar_total_subjects : Z;
  ar_created_at : string
}.

(** [students] and [academic_records] have a text primary key;
    [subjects] is kept in insertion order with its [AUTOINCREMENT]
    counter. *)
Record Database : Type := {
  students_tbl : gmap string students_row;
  subjects_tbl : list subjects_row;
  subjects_seq : Z;
  academic_records_tbl : gmap string records_row
}.

Definition empty_database : Database :=
  {| students_tbl := ∅; subjects_tbl := []; subjects_seq := 0;
     academic_records_tbl := ∅ |}.

(** A [sqlite3] connection: the durable content and the content as seen
    through the connection, which includes the writes of the transaction
    that is still open. *)
Record Connection : Type := {
  committed : Database;
  working : Database
}.

Definition initialize_database : Connection :=
  {| committed := empty_database; working := empty_database |}.

(** [INSERT OR REPLACE INTO students VALUES (...)] *)
Definition replace_student (row : students_row) (db : Database) : Database :=
  {| students_tbl := <[st_student_id row := row]> (students_tbl db);
     subjects_tbl := subjects_tbl db;
     subjects_seq := subjects_seq db;
     academic_records_tbl := academic_records_tbl db |}.

(** [INSERT INTO subjects (student_id, record_id, ...) VALUES (...)] *)
Definition insert_subject (sid rid : string) (s : SubjectInfo) (db : Database) : Database :=
  let row := {| sj_id := (subjects_seq db + 1)%Z;
                sj_student_id := sid;
                sj_record_id := rid;
                sj_subject_name := name s;
                sj_score := score s;
                sj_weight := weight s;
                sj_category := category s;
                sj_notes := notes s |} in
  {| students_tbl := students_tbl db;
     subjects_tbl := (subjects_tbl db ++ [row])%list;
     subjects_seq := (subjects_seq db + 1)%Z;
     academic_records_tbl := academic_records_tbl db |}.

(** [INSERT OR REPLACE INTO academic_records VALUES (...)] *)
Definition replace_record (row : records_row) (db : Database) : Database :=
  {| students_tbl := students_tbl db;
     subjects_tbl := subjects_tbl db;
     subjects_seq := subjects_seq db;
     academic_records_tbl := <[ar_record_id row := row]> (academic_records_tbl db) |}.

(** Code that runs against the connection: it may raise, and what it
    wrote before raising stays in the connection. *)
Definition DB (A : Type) : Type := Connection → result A * Connection.

Definition db_ret {A} (a : A) : DB A := fun c => (Ok a, c).

Definition db_bind {A B} (m : DB A) (f : A → DB B) : DB B := fun c =>
  match m c with
  | (Ok a, c') => f a c'
  | (Raise e, c') => (Raise e, c')
  end.

Definition db_lift {A} (r : result A) : DB A := fun c => (r, c).

Notation "x ←ᵈ m ; k" := (db_bind m (fun x => k))
  (at level 100, m at next level, right associativity, only parsing).
Notation "m ;;ᵈ k" := (db_bind m (fun _ => k))
  (at level 100, right associativity, only parsing).

(** [cursor.execute(stmt)].  The statements of one call are numbered in
    execution order; [fault] names the statement at which [sqlite3]
    raises ([None]: no statement fails).  A failing statement changes
    nothing itself. *)
Definition execute (fault : option nat) (k : nat) (stmt : Database → Database) : DB unit :=
  fun c =>
    if bool_decide (fault = Some k) then (Raise DatabaseError, c)
    else (Ok (), {| committed := committed c; working := stmt (working c) |}).

(** [connection.commit()] *)
Definition commit (fault : option nat) (k : nat) : DB unit :=
  fun c =>
    if bool_decide (fault = Some k) then (Raise DatabaseError, c)
    else (Ok (), {| committed := working c; working := working c |}).

(** The [for subject in record.subjects] loop of [save_record]. *)
Fixpoint insert_subjects (fault : option nat) (k : nat) (record : AcademicRecord)
    (subjs : list SubjectInfo) : DB unit :=
  match subjs with
  | [] => db_ret ()
  | subject :: rest =>
    execute fault k (insert_subject (student_id (student record)) (record_id record) subject) ;;ᵈ
    insert_subjects fault (S k) record rest
  end.

Definition student_row_of (record : AcademicRecord) : students_row :=
  {| st_student_id := student_id (student record);
     st_full_name := full_name (student record);
     st_class_name := class_name (student record);
     st_academic_year := academic_year (student record);
     st_date_of_birth := date_of_birth (student record);
     st_gender := gender (student record);
     st_email := email (student record);
     st_phone := phone (student record);
     st_created_at := created_at record |}.

(** The body of the [try] block of [save_record]. *)
Definition save_record_try (fault : option nat) (record : AcademicRecord) : DB unit :=
  let n := length (subjects record) in
  execute fault 0 (replace_student (student_row_of record)) ;;ᵈ
  insert_subjects fault 1 record (subjects record) ;;ᵈ
  sg ←ᵈ db_lift (simple_gpa record) ;
  wg ←ᵈ db_lift (weighted_gpa record) ;
  gl ←ᵈ db_lift (grade_level record) ;
  execute fault (1 + n) (replace_record
    {| ar_record_id := record_id record;
       ar_student_id := student_id (student record);
       ar_semester := semester record;
       ar_exam_type := exam_type record;
       ar_simple_gpa := sg;
       ar_weighted_gpa := wg;
       ar_grade_level := label gl;
       ar_total_subjects := Z.of_nat n;
       ar_created_at := created_at record |}) ;;ᵈ
  commit fault (2 + n).

(** [DatabaseManager.save_record]: [True] when the [try] block completes,
    [False] from the [except] clause. *)
Definition save_record (fault : option nat) (record : AcademicRecord) (c : Connection)
  : bool * Connection :=
  match save_record_try fault record c with
  | (Ok _, c') => (true, c')
  | (Raise _, c') => (false, c')
  end.

(** Building the objects of a loaded record runs their [__post_init__]. *)
Fixpoint build_subjects (rows : list subjects_row) : result (list SubjectInfo) :=
  match rows with
  | [] => Ok []
  | row :: rest =>
    s ← SubjectInfo_post_init
          {| name := sj_subject_name row; score := sj_score row; weight := sj_weight row;
             category := sj_category row; notes := sj_notes row |};
    ss ← build_subjects rest;
    Ok (s :: ss)
  end.

(** The body of the [try] block of [load_record_by_id]; the queries read
    through the connection and are taken not to fail. *)
Definition load_record_try (c : Connection) (rid : string) : result (option AcademicRecord) :=
  let db := working c in
  match academic_records_tbl db !! rid with
  | None => Ok None
  | Some ar =>
    match students_tbl db !! ar_student_id ar with
    | None => Ok None
    | Some row =>
      st ← StudentInfo_post_init
             {| student_id := st_student_id row; full_name := st_full_name row;
                class_name := st_class_name row; academic_year := st_academic_year row;
                date_of_birth := st_date_of_birth row; gender := st_gender row;
                email := st_email row; phone := st_phone row |};
      subjs ← build_subjects
                (List.filter (fun sj => bool_decide (sj_record_id sj = rid)) (subjects_tbl db));
      Ok (Some {| student := st; semester := ar_semester ar; exam_type := ar_exam_type ar;
                  subjects := subjs; created_at := ar_created_at ar; record_id := rid |})
    end
  end.

(** [GradeManagementSystem.load_record_by_id] *)
Definition load_record_by_id (c : Connection) (rid : string) : option AcademicRecord :=
  match load_record_try c rid with
  | Ok r => r
  | Raise _ => None
  end.

(** ** Sample data: the scenarios of the specification *)

Definition sample_student : StudentInfo :=
  {| student_id := "HS2024001"; full_name := "Nguyen Van A"; class_name := "10A1";
     academic_year := "2024-2025"; date_of_birth := None; gender := None;
     email := None; phone := None |}.

Definition subject (n : string) (s : Q) (w : Z) : SubjectInfo :=
  {| name := n; score := s; weight := w; category := None; notes := None |}.

Definition sample_record (rid : string) (subjs : list SubjectInfo) : AcademicRecord :=
  {| student := sample_student; semester := "Học kỳ I"; exam_type := "Cuối kỳ";
     subjects := subjs; created_at := "2024-12-20T08:30:00.000000"; record_id := rid |}.

(** subjects = [("Math",10,2),("Lit",8,2),("Eng",7,2)] *)
Definition three_subjects : list SubjectInfo :=
  [subject "Math" 10 2; subject "Lit" 8 2; subject "Eng" 7 2].

(** subjects = [("Art",4,1)] *)
Definition art_only : list SubjectInfo := [subject "Art" 4 1].

(** Four subjects with ties at both ends of the scale. *)
Definition tied_subjects : list SubjectInfo :=
  [subject "Hoa" 6 1; subject "Ly" 9 1; subject "Su" 6 1; subject "Dia" 9 1].

(** A square root for running the examples: truncated to three decimals. *)
Definition sqrt_thousandths (q : Q) : Q :=
  (inject_Z (Z.sqrt (Qfloor (q * 1000000))) / 1000)%Q.

(** Decidable form of [__post_init__] accepting every subject of a list. *)
Definition all_accepted (subjs : list SubjectInfo) : bool :=
  forallb (fun s => match SubjectInfo_post_init s with Ok _ => true | Raise _ => false end) subjs.

(** ** Queries and presentation helpers *)

(** [GradeManagementSystem.get_student_info]: the row of the student, as a
    validated [StudentInfo]; [None] when there is no row or when anything
    raises. *)
Definition get_student_info (c : Connection) (sid : string) : option StudentInfo :=
  match students_tbl (working c) !! sid with
  | None => None
  | Some row =>
    match StudentInfo_post_init
            {| student_id := st_student_id row; full_name := st_full_name row;
               class_name := st_class_name row; academic_year := st_academic_year row;
               date_of_birth := st_date_of_birth row; gender := st_gender row;
               email := st_email row; phone := st_phone row |} with
    | Ok s => Some s
    | Raise _ => None
    end
  end.

(** [ORDER BY created_at DESC]: text is compared byte by byte; a row is
    placed before the first row that is not newer. *)
Fixpoint insert_newest_first (row : records_row) (rows : list records_row) : list records_row :=
  match rows with
  | [] => [row]
  | r0 :: rest =>
    if String.leb (ar_created_at r0) (ar_created_at row) then row :: r0 :: rest
    else r0 :: insert_newest_first row rest
  end.

(** [DatabaseManager.get_student_records]: the summary rows of a student,
    newest first.  SQL leaves the order of rows with equal [created_at]
    open; here it follows the enumeration of the table. *)
Definition get_student_records (c : Connection) (sid : string) : list records_row :=
  foldr insert_newest_first []
    (List.filter (fun row => bool_decide (ar_student_id row = sid))
       (map snd (map_to_list (academic_records_tbl (working c))))).

(** [a] is listed before [b] under [ORDER BY created_at DESC]. *)
Definition newer_or_equal (a b : records_row) : Prop :=
  String.leb (ar_created_at b) (ar_created_at a) = true.

(** The colour of a score cell in [ReportExporter.export_html]. *)
Definition score_color (s : SubjectInfo) : string :=
  if Qle_bool 9 (score s) then "#9c27b0"
  else if Qle_bool 8 (score s) then "#4caf50"
  else if Qle_bool 5 (score s) then "#ff9800"
  else "#f44336".

(** Row ids of [subjects] are handed out in increasing order and never
    exceed the [AUTOINCREMENT] counter. *)
Definition subject_ids_increasing (db : Database) : Prop :=
  StronglySorted Z.lt (map sj_id (subjects_tbl db)) ∧
  Forall (fun row => (sj_id row <= subjects_seq db)%Z) (subjects_tbl db).

(** The summary row written by [save_record] for a record. *)
Definition summary_of (r : AcademicRecord) (row : records_row) : Prop :=
  ar_record_id row = record_id r ∧ ar_student_id row = student_id (student r) ∧
  ar_semester row = semester r ∧ ar_exam_type row = exam_type r ∧
  simple_gpa r = Ok (ar_simple_gpa row) ∧ weighted_gpa r = Ok (ar_weighted_gpa row) ∧
  (∃ lvl, grade_level r = Ok lvl ∧ ar_grade_level row = label lvl) ∧
  ar_total_subjects row = Z.of_nat (length (subjects r)) ∧
  ar_created_at row = created_at r.

(** A second student, for properties that involve two students. *)
Definition other_student : StudentInfo :=
  {| student_id := "HS2024002"; full_name := "Tran Thi B"; class_name := "10A2";
     academic_year := "2024-2025"; date_of_birth := None; gender := None;
     email := None; phone := None |}.

Definition other_record (rid : string) (subjs : list SubjectInfo) : AcademicRecord :=
  {| student := other_student; semester := "Học kỳ II"; exam_type := "Giữa kỳ";
     subjects := subjs; created_at := "2025-03-14T09:05:00.000000"; record_id := rid |}.

(** The stores that arise from a new database by calls of [save_record],
    whatever records are saved and whichever statements fail. *)
Inductive reachable : Connection → Prop :=
| reachable_init : reachable initialize_database
| reachable_save (fault : option nat) (r : AcademicRecord) (c : Connection) :
    reachable c → reachable (snd (save_record fault r c)).

(** Rows sit under their own key, every summary row and every subject row
    refers to a stored student, and subject row ids increase. *)
Definition store_consistent (db : Database) : Prop :=
  (∀ sid row, students_tbl db !! sid = Some row → st_student_id row = sid) ∧
  (∀ rid row, academic_records_tbl db !! rid = Some row →
     ar_record_id row = rid ∧ is_Some (students_tbl db !! ar_student_id row)) ∧
  Forall (fun row => is_Some (students_tbl db !! sj_student_id row)) (subjects_tbl db) ∧
  subject_ids_increasing db.

(** ** Interactive input *)

(** What [input()] delivers: a line typed by the user, or Ctrl-C
    ([KeyboardInterrupt]).  Once the list is used up, [input()] raises
    [EOFError]. *)
Inductive keyboard : Type :=
| Line (s : string)
| Interrupt.

(** How a dialog ends: it returns (leaving the input not yet read), the
    input runs out ([EOFError], which the dialogs do not catch), an
    exception of a constructor propagates, [set.remove] misses its key
    ([KeyError]), [int] is given an infinity ([OverflowError]), or the
    bound on the number of rounds is used up. *)
Inductive outcome (A : Type) : Type :=
| Returned (a : A) (rest : list keyboard)
| EndOfInput
| Propagated (e : exn)
| MissingKey
| Overflow
| OutOfFuel.
Arguments Returned {A} a rest.
Arguments EndOfInput {A}.
Arguments Propagated {A} e.
Arguments MissingKey {A}.
Arguments Overflow {A}.
Arguments OutOfFuel {A}.

(** The values of [float(text)]: a number, an infinity, or nan. *)
Inductive pyfloat : Type :=
| Finite (q : Q)
| PosInf
| NegInf
| NaN.

(** Truth value of a float: only zero is false. *)
Definition py_truthy (num : pyfloat) : bool :=
  match num with
  | Finite q => negb (Qeq_bool q 0)
  | _ => true
  end.

(** [num < bound] and [num > bound]; every comparison with nan is false. *)
Definition float_lt (num : pyfloat) (bound : Q) : bool :=
  match num with
  | Finite q => Qlt_bool q bound
  | NegInf => true
  | PosInf | NaN => false
  end.

Definition float_gt (num : pyfloat) (bound : Q) : bool :=
  match num with
  | Finite q => Qlt_bool bound q
  | PosInf => true
  | NegInf | NaN => false
  end.

(** [SubjectInfo(name=..., score=..., weight=..., category=...)] with a
    score that comes from [float()]: [__post_init__] rejects whatever is
    not in [0, 10], nan and the infinities included. *)
Definition new_subject (n : string) (score : pyfloat) (w : Z) (cat : option string)
  : result SubjectInfo :=
  match score with
  | Finite q =>
    SubjectInfo_post_init
      {| name := n; score := q; weight := w; category := cat; notes := None |}
  | _ => Raise ValueError
  end.

(** [GradeManagementSystem.SUBJECT_WEIGHTS] *)
Definition SUBJECT_WEIGHTS : gmap string Z :=
  list_to_map [
    ("Toán", 2%Z); ("Văn", 2%Z); ("Anh", 2%Z);
    ("Lý", 1%Z); ("Hóa", 1%Z); ("Sinh", 1%Z);
    ("Sử", 1%Z); ("Địa", 1%Z); ("GDCD", 1%Z);
    ("Tin", 1%Z); ("Công nghệ", 1%Z);
    ("Âm nhạc", 1%Z); ("Mỹ thuật", 1%Z);
    ("Thể dục", 1%Z); ("GDQP", 1%Z)
  ].

(** [GradeManagementSystem.SUBJECT_CATEGORIES], in insertion order. *)
Definition SUBJECT_CATEGORIES : list (string * list string) :=
  [ ("Khoa học Tự nhiên", ["Toán"; "Lý"; "Hóa"; "Sinh"; "Tin"; "Công nghệ"]);
    ("Khoa học Xã hội", ["Văn"; "Sử"; "Địa"; "GDCD"]);
    ("Ngoại ngữ", ["Anh"; "Pháp"; "Trung"; "Nhật"; "Hàn"]);
    ("Nghệ thuật", ["Âm nhạc"; "Mỹ thuật"]);
    ("Thể chất", ["Thể dục"; "GDQP"]) ].

(** The category loop of [input_grades]: the first category that lists
    the subject. *)
Definition category_of (subject_name : string) : option string :=
  fst <$> List.find (fun entry => bool_decide (subject_name ∈ snd entry)) SUBJECT_CATEGORIES.

Section Interaction.

(** [str.strip], [str.lower], [str.title] and [float] of the Python
    library. *)
Variables py_strip py_lower py_title : string → string.
Variable py_float : string → option pyfloat.

(** [UserInterface.input_text]: the stripped line, asked again while the
    validator rejects it; [None] on Ctrl-C. *)
Fixpoint input_text (validator : option (string → bool)) (keys : list keyboard)
  : outcome (option string) :=
  match keys with
  | [] => EndOfInput
  | Interrupt :: rest => Returned None rest
  | Line s :: rest =>
    let value := py_strip s in
    match validator with
    | Some is_valid =>
      if is_valid value then Returned (Some value) rest else input_text validator rest
    | None => Returned (Some value) rest
    end
  end.

(** [UserInterface.input_number]: asks again while the line is not a
    number ([float] raises [ValueError]) or lies below [min_val] or above
    [max_val]; [None] on Ctrl-C. *)
Fixpoint input_number (min_val max_val : option Q) (keys : list keyboard)
  : outcome (option pyfloat) :=
  match keys with
  | [] => EndOfInput
  | Interrupt :: rest => Returned None rest
  | Line s :: rest =>
    match py_float s with
    | None => input_number min_val max_val rest
    | Some num =>
      if (match min_val with Some m => float_lt num m | None => false end)
      then input_number min_val max_val rest
      else if (match max_val with Some m => float_gt num m | None => false end)
      then input_number min_val max_val rest
      else Returned (Some num) rest
    end
  end.

(** [UserInterface.menu]: the choice is read between 0 and the number of
    options; [int(choice) if choice and choice > 0 else None], where [int]
    cuts off the fractional part. *)
Definition menu (options : list string) (keys : list keyboard) : outcome (option Z) :=
  match input_number (Some 0%Q) (Some (py_len options)) keys with
  | Returned None rest => Returned None rest
  | Returned (Some choice) rest =>
    if py_truthy choice && float_gt choice 0 then
      match choice with
      | Finite q => Returned (Some (Z.quot (Qnum q) (Z.pos (Qden q)))) rest
      | NaN => Propagated ValueError
      | PosInf | NegInf => Overflow
      end
    else Returned None rest
  | EndOfInput => EndOfInput
  | Propagated e => Propagated e
  | MissingKey => MissingKey
  | Overflow => Overflow
  | OutOfFuel => OutOfFuel
  end.

(** The [while len(subjects) < num_subjects] loop of [input_grades]; each
    round reads at least one line, [fuel] bounds the number of rounds. *)
Fixpoint input_grades_loop (fuel num_subjects : nat) (subjs : list SubjectInfo)
    (subject_names : gset string) (keys : list keyboard) : outcome (list SubjectInfo) :=
  match fuel with
  | O => OutOfFuel
  | S fuel' =>
    if (length subjs <? num_subjects)%nat then
      match input_text None keys with
      | Returned None rest =>
        input_grades_loop fuel' num_subjects subjs subject_names rest
      | Returned (Some subject_name) rest =>
        if bool_decide (subject_name = "") then
          input_grades_loop fuel' num_subjects subjs subject_names rest
        else if bool_decide (py_lower subject_name = "help") then
          input_grades_loop fuel' num_subjects subjs subject_names rest
        else if bool_decide (py_lower subject_name = "list") then
          input_grades_loop fuel' num_subjects subjs subject_names rest
        else if bool_decide (py_lower subject_name = "undo") then
          match reverse subjs with
          | [] => input_grades_loop fuel' num_subjects subjs subject_names rest
          | removed :: earlier =>
            if bool_decide (name removed ∈ subject_names) then
              input_grades_loop fuel' num_subjects (reverse earlier)
                (subject_names ∖ {[name removed]}) rest
            else MissingKey
          end
        else
          let subject_name := py_title (py_strip subject_name) in
          if bool_decide (subject_name ∈ subject_names) then
            input_grades_loop fuel' num_subjects subjs subject_names rest
          else
            match input_number (Some 0%Q) (Some 10%Q) rest with
            | Returned None rest' =>
              input_grades_loop fuel' num_subjects subjs subject_names rest'
            | Returned (Some score) rest' =>
              let weight := default 1%Z (SUBJECT_WEIGHTS !! subject_name) in
              let category := category_of subject_name in
              match new_subject subject_name score weight category with
              | Ok s =>
                input_grades_loop fuel' num_subjects (subjs ++ [s])%list
                  (subject_names ∪ {[subject_name]}) rest'
              | Raise e => Propagated e
              end
            | EndOfInput => EndOfInput
            | Propagated e => Propagated e
            | MissingKey => MissingKey
            | Overflow => Overflow
            | OutOfFuel => OutOfFuel
            end
      | EndOfInput => EndOfInput
      | Propagated e => Propagated e
      | MissingKey => MissingKey
      | Overflow => Overflow
      | OutOfFuel => OutOfFuel
      end
    else Returned subjs keys
  end.

(** [GradeManagementSystem.input_grades] *)
Definition input_grades (num_subjects : nat) (keys : list keyboard)
  : outcome (list SubjectInfo) :=
  input_grades_loop (S (length keys)) num_subjects [] ∅ keys.

(** The name under which a typed subject name is kept. *)
Definition kept_name (typed : string) : string := py_title (py_strip (py_strip typed)).

(** A typed name and a typed score that the dialog takes as an entry:
    the name is neither empty nor a command, the score reads as the
    number [q] between 0 and 10. *)
Definition acceptable (e : string * string * Q) : Prop :=
  py_strip e.1.1 ≠ "" ∧
  py_lower (py_strip e.1.1) ≠ "help" ∧
  py_lower (py_strip e.1.1) ≠ "list" ∧
  py_lower (py_strip e.1.1) ≠ "undo" ∧
  py_float e.1.2 = Some (Finite e.2) ∧
  (0 <= e.2)%Q ∧ (e.2 <= 10)%Q.

End Interaction.

(** The lines typed for a list of entries, a name and a score each. *)
Definition typed_lines (entries : list (string * string * Q)) : list keyboard :=
  flat_map (fun e => [Line e.1.1; Line e.1.2]) entries.

(** The entry the dialog stores for a name and a score. *)
Definition entered_subject (subject_name : string) (q : Q) : SubjectInfo :=
  {| name := subject_name; score := q;
     weight := default 1%Z (SUBJECT_WEIGHTS !! subject_name);
     category := category_of subject_name; notes := None |}.

(** A reader of plain decimals such as [8], [7.5] or [10.0], and of
    [nan], for running the examples. *)
Definition digit_of (a : ascii) : option Z :=
  let n := nat_of_ascii a in
  if ((48 <=? n) && (n <=? 57))%nat then Some (Z.of_nat (n - 48)) else None.

Fixpoint read_digits (acc : Z) (count : nat) (cs : list ascii) : option (Z * nat * list ascii) :=
  match cs with
  | [] => Some (acc, count, [])
  | a :: rest =>
    match digit_of a with
    | Some d => read_digits (acc * 10 + d) (S count) rest
    | None => Some (acc, count, cs)
    end
  end.

Definition read_decimal (s : string) : option pyfloat :=
  if bool_decide (s = "nan") then Some NaN
  else
    match read_digits 0 0 (list_ascii_of_string s) with
    | Some (whole, S _, []) => Some (Finite (inject_Z whole))
    | Some (whole, S _, dot :: frac) =>
      if bool_decide (dot = "."%char) then
        match read_digits 0 0 frac with
        | Some (f, S k, []) => Some (Finite (inject_Z whole + inject_Z f / inject_Z (10 ^ Z.of_nat (S k))))
        | _ => None
        end
      else None
    | _ => None
    end.

(** ** Double precision *)

(** Python's [float] is an IEEE 754 double.  In this part a finite double
    is represented by its value, a rational, and every operation returns
    the double nearest to the exact result.  [rnd64 q] is that double,
    ties going to the even mantissa: 53 significant bits from 2^-1022
    upwards, multiples of 2^-1074 below.  Overflow is not represented: no
    quantity computed here comes near 2^1024. *)

(** For positive [q], the exponent [e] with [2^e <= q < 2^(e+1)]. *)
Definition binade (q : Q) : Z :=
  let e := (Z.log2 (Qnum q) - Z.log2 (Z.pos (Qden q)))%Z in
  if Qle_bool (2 ^ e) q then e else (e - 1)%Z.

(** The exponent of the last mantissa bit of the doubles around [q]. *)
Definition ulp_exponent (q : Q) : Z := Z.max (binade (Qabs q) - 52) (-1074).

Definition rnd64 (q : Q) : Q :=
  (inject_Z (round_half_even (q / 2 ^ ulp_exponent q)) * 2 ^ ulp_exponent q)%Q.

(** [q] is the value of a double. *)
Definition is_double (q : Q) : Prop := (rnd64 q == q)%Q.

(** [float(n)] for an integer, and [a + b], [a * b], [a / b] on doubles. *)
Definition float_of_int (n : Z) : Q := rnd64 (inject_Z n).
Definition float_add (a b : Q) : Q := rnd64 (a + b).
Definition float_mul (a b : Q) : Q := rnd64 (a * b).
Definition float_div (a b : Q) : result Q :=
  if Qeq_bool b 0 then Raise ZeroDivisionError else Ok (rnd64 (a / b)).

(** [sum(xs)] of doubles, as CPython up to 3.11 adds them: from the left,
    starting from 0, one rounding per addition. *)
Definition float_sum (xs : list Q) : Q := fold_left float_add xs 0%Q.

(** [round(x, 2)] of a double: the value of [x] is rounded to hundredths,
    ties to even, and the double nearest to that decimal is returned. *)
Definition float_round2 (x : Q) : Q := rnd64 (round2 x).

(** [AcademicRecord.simple_gpa] in double precision. *)
Definition float_simple_gpa (r : AcademicRecord) : result Q :=
  match subjects r with
  | [] => Ok 0%Q
  | _ => m ← float_div (float_sum (map score (subjects r)))
                       (float_of_int (Z.of_nat (length (subjects r))));
         Ok (float_round2 m)
  end.

(** [SubjectInfo.weighted_score] in double precision. *)
Definition float_weighted_score (s : SubjectInfo) : Q :=
  float_mul (score s) (float_of_int (weight s)).

(** [AcademicRecord.weighted_gpa] in double precision; the weights are
    integers and their sum is exact. *)
Definition float_weighted_gpa (r : AcademicRecord) : result Q :=
  match subjects r with
  | [] => Ok 0%Q
  | _ =>
    let total_weighted := float_sum (map float_weighted_score (subjects r)) in
    let total_weights := fold_left Z.add (map weight (subjects r)) 0%Z in
    m ← float_div total_weighted (float_of_int total_weights);
    Ok (float_round2 m)
  end.

(** [AcademicRecord.grade_level] in double precision. *)
Definition float_grade_level (r : AcademicRecord) : result GradeLevel :=
  gpa ← float_weighted_gpa r;
  Ok (level_of gpa).

(** How far the exact mean may lie from the hundredth reported for [n]
    subjects, beyond the half hundredth of the rounding to two decimals. *)
Definition rounding_slack (n : nat) : Q := (inject_Z (Z.of_nat (S n)) * (1 # 2 ^ 46))%Q.

(** Half the spacing of the doubles just below 1, and half the spacing of
    the smallest doubles. *)
Definition unit_roundoff : Q := 1 # 2 ^ 53.
Definition tiniest : Q := 1 # 2 ^ 1075.

(** [n] as a number. *)
Definition qn (n : nat) : Q := inject_Z (Z.of_nat n).

(** [x] is not so close to the middle between two hundredths that the
    rounding errors of a mean over [n] subjects could move it across. *)
Definition clear_of_ties (x : Q) (n : nat) : Prop :=
  (Qabs (x * 100 - inject_Z (round_half_even (x * 100)))
   < (1 # 2) - 100 * rounding_slack n)%Q.

(** Scores typed as 6.0 and 7.05: the mean of the two doubles lies just
    below 6.525. *)
Definition near_tie_subjects : list SubjectInfo :=
  [subject "Toán" 6 1; subject "Văn" (rnd64 (705 # 100)) 1].

(** Scores typed as 0.39, 2.74, 2.05 and 7.7: the weighted mean of the
    doubles lies just above 3.495. *)
Definition boundary_subjects : list SubjectInfo :=
  [subject "Toán" (rnd64 (39 # 100)) 2; subject "Văn" (rnd64 (274 # 100)) 1;
   subject "Anh" (rnd64 (205 # 100)) 1; subject "Lý" (rnd64 (77 # 10)) 2].

(** Scores typed as 8.5, 7.25 and 6.1. *)
Definition typed_subjects : list SubjectInfo :=
  [subject "Toán" (rnd64 (85 # 10)) 2; subject "Văn" (rnd64 (725 # 100)) 2;
   subject "Lý" (rnd64 (61 # 10)) 1].

(** ** Vocabulary of the specification *)

(** What [SubjectInfo.__post_init__] accepts. *)
Definition valid_subject (s : SubjectInfo) : Prop :=
  (0 <= score s)%Q ∧ (score s <= 10)%Q ∧ (weight s = 1 ∨ weight s = 2 ∨ weight s = 3)%Z.

(** A record built from validated parts. *)
Definition valid_record (r : AcademicRecord) : Prop :=
  student_id_matches (student_id (student r)) = true ∧ Forall valid_subject (subjects r).

Definition Qsum (xs : list Q) : Q := foldr Qplus 0%Q xs.

(** The arithmetic mean of the scores, weights ignored. *)
Definition arithmetic_mean (scores : list Q) : Q :=
  (Qsum scores / inject_Z (Z.of_nat (length scores)))%Q.

(** [(Σ s·w) / (Σ w)] over the (score, weight) pairs. *)
Definition weighted_mean (entries : list (Q * Z)) : Q :=
  (Qsum (map (fun e => fst e * inject_Z (snd e)) entries)
   / Qsum (map (fun e => inject_Z (snd e)) entries))%Q.

(** Sample variance: squared deviations from the mean over [N - 1]. *)
Definition sample_variance (scores : list Q) : Q :=
  let m := arithmetic_mean scores in
  (Qsum (map (fun x => (x - m) * (x - m)) scores)
   / (inject_Z (Z.of_nat (length scores)) - 1))%Q.

(** [improvement = (10 − current_gpa) × (consistency_score / 100) × 0.3] *)
Definition projected_improvement (current_gpa consistency_score : Q) : Q :=
  ((10 - current_gpa) * (consistency_score / 100) * (3 # 10))%Q.

(** [predicted_next = min(10.0, current_gpa + improvement)], before rounding. *)
Definition projected_next (current_gpa consistency_score : Q) : Q :=
  Qmin 10 (current_gpa + projected_improvement current_gpa consistency_score).

(** [y] is [x] rounded to two decimal places: a multiple of [1/100] at
    distance at most [1/200] from [x]. *)
Definition rounded_2dp (x y : Q) : Prop :=
  (∃ k : Z, y == inject_Z k / 100)%Q ∧ (Qabs (y - x) <= 1 # 200)%Q.

(** [x] is the first entry of [l] with the lowest (highest) score. *)
Definition first_lowest (l : list SubjectInfo) (x : SubjectInfo) : Prop :=
  ∃ l1 l2, l = (l1 ++ x :: l2)%list ∧
    Forall (fun y => (score x < score y)%Q) l1 ∧
    Forall (fun y => (score x <= score y)%Q) l2.

Definition first_highest (l : list SubjectInfo) (x : SubjectInfo) : Prop :=
  ∃ l1 l2, l = (l1 ++ x :: l2)%list ∧
    Forall (fun y => (score y < score x)%Q) l1 ∧
    Forall (fun y => (score y <= score x)%Q) l2.

(** Ordering of entries by a numeric key. *)
Definition le_by {A} (key : A → Q) (a b : A) : Prop := (key a <= key b)%Q.

(** [l'] is [l] sorted by ascending score, entries of equal score kept in
    their order in [l]. *)
Definition stable_sorted_by_score (l l' : list SubjectInfo) : Prop :=
  Permutation l' l ∧
  StronglySorted (le_by score) l' ∧
  ∀ q : Q, List.filter (fun s => Qeq_bool (score s) q) l'
         = List.filter (fun s => Qeq_bool (score s) q) l.

(** What the subject loop of [save_record] does to a database when no
    statement fails. *)
Definition insert_all (sid rid : string) (subjs : list SubjectInfo) (db : Database) : Database :=
  fold_left (fun d s => insert_subject sid rid s d) subjs db.

(** A [subjects] row that carries the fields of a subject entry. *)
Definition row_of_subject (rid : string) (s : SubjectInfo) (row : subjects_row) : Prop :=
  sj_record_id row = rid ∧ sj_subject_name row = name s ∧ sj_score row = score s ∧
  sj_weight row = weight s ∧ sj_category row = category s ∧ sj_notes row = notes s.

(** The remarks of [generate_insights] when every rule can be evaluated:
    rule 1 on the weighted GPA [g], rule 2 on the consistency score [c],
    rule 3 on the highest-scoring entry [hi], rule 4 on the lowest-scoring
    entry [lo], rule 5 on the excellence rate [e]. *)
Definition insights_by_rule (g c e : Q) (lo hi : SubjectInfo) : list fstring :=
  ([if Qle_bool 9 g then remark_outstanding
    else if Qle_bool 8 g then remark_good
    else if Qle_bool (65 # 10) g then remark_fair
    else remark_needs_improvement]
   ++ (if Qle_bool 90 c then [remark_even]
       else if Qlt_bool c 70 then [remark_uneven] else [])
   ++ (if Qeq_bool (score hi) 10 then [remark_perfect (PyStr (name hi))] else [])
   ++ (if Qlt_bool (score lo) 5 then [remark_weak (PyStr (name lo))] else [])
   ++ (if Qle_bool 70 e then [remark_excellence e] else []))%list.

(** What the loop of [input_grades] maintains: the set of names is the
    set of the names entered so far, these are pairwise distinct, every
    entry is validated and carries the weight and the category of the
    tables, and no more than [num_subjects] are held. *)
Definition grades_invariant (num_subjects : nat) (subjs : list SubjectInfo)
    (subject_names : gset string) : Prop :=
  subject_names = list_to_set (map name subjs) ∧
  NoDup (map name subjs) ∧
  Forall valid_subject subjs ∧
  Forall (fun s => s = entered_subject (name s) (score s)) subjs ∧
  (length subjs <= num_subjects)%nat.

(** ** Arithmetic of the run-time model *)

(** Linear arithmetic over [Q] once the divisions by [100] are written as
    multiplications. *)
Ltac lra_hundredths :=
  unfold Qdiv in *; change (/ 100)%Q with (1 # 100)%Q in *; lra.

Lemma Qlt_bool_true (a b : Q) : Qlt_bool a b = true ↔ (a < b)%Q.
Proof.
  unfold Qlt_bool. rewrite negb_true_iff. split.
  - intros H. apply Qnot_le_lt. intros Hle. apply Qle_bool_iff in Hle. congruence.
  - intros H. destruct (Qle_bool b a) eqn:E; [|done].
    apply Qle_bool_iff in E. exfalso. apply (Qlt_not_le _ _ H E).
Qed.

Lemma Qlt_bool_false (a b : Q) : Qlt_bool a b = false ↔ (b <= a)%Q.
Proof.
  unfold Qlt_bool. rewrite negb_false_iff. apply Qle_bool_iff.
Qed.

Lemma Qle_bool_false (a b : Q) : Qle_bool a b = false ↔ (b < a)%Q.
Proof.
  rewrite <- Qlt_bool_true. unfold Qlt_bool. destruct (Qle_bool a b); simpl; split; congruence.
Qed.

Lemma fold_left_Qplus (xs : list Q) (a : Q) : (fold_left Qplus xs a == a + Qsum xs)%Q.
Proof.
  revert a. induction xs as [|x xs IH]; intros a; simpl.
  - lra.
  - rewrite IH. lra.
Qed.

Lemma py_sum_Qsum (xs : list Q) : (py_sum xs == Qsum xs)%Q.
Proof. unfold py_sum. rewrite fold_left_Qplus. lra. Qed.

Lemma py_len_pos {A} (xs : list A) : xs ≠ [] → (0 < py_len xs)%Q.
Proof.
  intros H. destruct xs as [|x xs]; [done|].
  unfold py_len. rewrite length_cons.
  change 0%Q with (inject_Z 0). rewrite <- Zlt_Qlt. lia.
Qed.

Lemma py_div_ok (a b : Q) : ¬ (b == 0)%Q → py_div a b = Ok (a / b)%Q.
Proof.
  intros H. unfold py_div. destruct (Qeq_bool b 0) eqn:E; [|done].
  apply Qeq_bool_iff in E. contradiction.
Qed.

(** *** Rounding *)

Lemma round_half_even_floor (q : Q) :
  round_half_even q = Qfloor q ∨ round_half_even q = (Qfloor q + 1)%Z.
Proof.
  unfold round_half_even.
  destruct (Qcompare _ _); [destruct (Z.even _)|..]; auto.
Qed.

Lemma floor_bounds (q : Q) :
  (inject_Z (Qfloor q) <= q)%Q ∧ (q < inject_Z (Qfloor q) + 1)%Q.
Proof.
  split; [apply Qfloor_le|].
  pose proof (Qlt_floor q) as H. rewrite inject_Z_plus in H. exact H.
Qed.

Lemma round_half_even_near (q : Q) : (Qabs (inject_Z (round_half_even q) - q) <= 1 # 2)%Q.
Proof.
  destruct (floor_bounds q) as [H1 H2].
  unfold round_half_even.
  destruct (Qcompare_spec (q - inject_Z (Qfloor q)) (1 # 2)) as [E|E|E];
    [destruct (Z.even _)|..];
    apply Qabs_Qle_condition; rewrite ?inject_Z_plus;
    change (inject_Z 1) with 1%Q; split; lra.
Qed.

Lemma round_half_even_mono (x y : Q) :
  (x <= y)%Q → (round_half_even x <= round_half_even y)%Z.
Proof.
  intros Hxy.
  pose proof (Qfloor_resp_le _ _ Hxy) as Hf.
  destruct (Z.eq_dec (Qfloor x) (Qfloor y)) as [Heq|Hne].
  - destruct (floor_bounds x) as [Hx1 Hx2], (floor_bounds y) as [Hy1 Hy2].
    unfold round_half_even. rewrite <- Heq in *.
    destruct (Qcompare_spec (x - inject_Z (Qfloor x)) (1 # 2)) as [Ex|Ex|Ex];
      destruct (Qcompare_spec (y - inject_Z (Qfloor x)) (1 # 2)) as [Ey|Ey|Ey];
      try destruct (Z.even _); try lia; exfalso; lra.
  - destruct (round_half_even_floor x) as [-> | ->],
             (round_half_even_floor y) as [-> | ->]; lia.
Qed.

Lemma round_half_even_comp (x y : Q) : (x == y)%Q → round_half_even x = round_half_even y.
Proof.
  intros H. apply Z.le_antisymm; apply round_half_even_mono; rewrite H; apply Qle_refl.
Qed.

Lemma round_half_even_inject (k : Z) : round_half_even (inject_Z k) = k.
Proof.
  unfold round_half_even. rewrite Qfloor_Z.
  destruct (Qcompare_spec (inject_Z k - inject_Z k) (1 # 2)) as [E|E|E];
    [exfalso; lra | done | exfalso; lra].
Qed.

Lemma round2_comp (x y : Q) : (x == y)%Q → round2 x = round2 y.
Proof.
  intros H. unfold round2. f_equal. f_equal.
  apply round_half_even_comp. rewrite H. reflexivity.
Qed.

Lemma round2_mono (x y : Q) : (x <= y)%Q → (round2 x <= round2 y)%Q.
Proof.
  intros H. unfold round2.
  assert (round_half_even (x * 100) <= round_half_even (y * 100))%Z as Hz
    by (apply round_half_even_mono; lra).
  rewrite Zle_Qle in Hz. lra_hundredths.
Qed.

Lemma round2_hundredth (k : Z) : round2 (inject_Z k / 100) = (inject_Z k / 100)%Q.
Proof.
  unfold round2. f_equal. f_equal.
  rewrite <- (round_half_even_inject k) at 2.
  apply round_half_even_comp. field.
Qed.

Lemma round2_rounded (x : Q) : rounded_2dp x (round2 x).
Proof.
  split.
  - exists (round_half_even (x * 100)). reflexivity.
  - pose proof (round_half_even_near (x * 100)) as H.
    apply Qabs_Qle_condition in H. destruct H as [H1 H2].
    unfold round2. apply Qabs_Qle_condition. split; lra_hundredths.
Qed.

(** *** Validation *)

Lemma post_init_valid (s : SubjectInfo) : SubjectInfo_post_init s = Ok s ↔ valid_subject s.
Proof.
  unfold SubjectInfo_post_init, valid_subject.
  destruct (Qle_bool 0 (score s)) eqn:E1; simpl.
  - destruct (Qle_bool (score s) 10) eqn:E2; simpl.
    + apply Qle_bool_iff in E1, E2.
      destruct (bool_decide (weight s ∈ [1; 2; 3]%Z)) eqn:E3; simpl.
      * apply bool_decide_eq_true in E3. rewrite !elem_of_cons, elem_of_nil in E3.
        split; [intros _|done]. repeat split; try done. tauto.
      * apply bool_decide_eq_false in E3. rewrite !elem_of_cons, elem_of_nil in E3.
        split; [done|]. intros (_ & _ & H). tauto.
    + apply Qle_bool_false in E2. split; [done|]. intros (_ & H & _). exfalso. lra.
  - apply Qle_bool_false in E1. split; [done|]. intros (H & _). exfalso. lra.
Qed.

Lemma post_init_ok_inv (s s' : SubjectInfo) : SubjectInfo_post_init s = Ok s' → s' = s.
Proof.
  unfold SubjectInfo_post_init. repeat case_match; congruence.
Qed.

Lemma all_accepted_valid (subjs : list SubjectInfo) :
  all_accepted subjs = true → Forall valid_subject subjs.
Proof.
  unfold all_accepted. rewrite forallb_forall, List.Forall_forall.
  intros H s Hs. specialize (H s Hs).
  destruct (SubjectInfo_post_init s) as [s'|] eqn:E; [|done].
  apply post_init_valid. rewrite E. f_equal. by apply post_init_ok_inv in E.
Qed.

(** *** Sums over valid subjects *)

Lemma weight_ge_1 (s : SubjectInfo) : valid_subject s → (1 <= inject_Z (weight s))%Q.
Proof.
  intros (_ & _ & [-> | [-> | ->]]); discriminate.
Qed.

Lemma total_weights_pos (subjs : list SubjectInfo) :
  subjs ≠ [] → Forall valid_subject subjs →
  (0 < Qsum (map (fun s => inject_Z (weight s)) subjs))%Q.
Proof.
  intros Hne Hv.
  assert (inject_Z (Z.of_nat (length subjs)) <= Qsum (map (fun s => inject_Z (weight s)) subjs))%Q
    as Hle.
  { clear Hne. induction Hv as [|s l Hs _ IH]; simpl; [discriminate|].
    apply weight_ge_1 in Hs. rewrite Nat2Z.inj_succ. unfold Z.succ. rewrite inject_Z_plus.
    change (inject_Z 1) with 1%Q. lra. }
  pose proof (py_len_pos subjs Hne) as Hpos. unfold py_len in Hpos. lra.
Qed.

(** ** The grade point averages *)

(** C4.  A record with no subject entries has [simple_gpa = 0.0] and
    [weighted_gpa = 0.0], both computed without raising, and its grade
    level is [POOR]. *)
Theorem empty_record_gpa_zero_poor (r : AcademicRecord) :
  subjects r = [] →
  simple_gpa r = Ok 0%Q ∧ weighted_gpa r = Ok 0%Q ∧ grade_level r = Ok POOR.
Proof.
  intros H. unfold grade_level, simple_gpa, weighted_gpa. rewrite H. by repeat split.
Qed.

Lemma empty_record_gpa_zero_poor_witness :
  simple_gpa (sample_record "a3f09c1b77e2" []) = Ok 0%Q ∧
  weighted_gpa (sample_record "a3f09c1b77e2" []) = Ok 0%Q ∧
  grade_level (sample_record "a3f09c1b77e2" []) = Ok POOR.
Proof.
  apply (empty_record_gpa_zero_poor (sample_record "a3f09c1b77e2" [])). reflexivity.
Defined.

Lemma simple_gpa_nonempty (r : AcademicRecord) :
  subjects r ≠ [] →
  simple_gpa r = Ok (round2 (py_sum (map score (subjects r)) / py_len (subjects r))).
Proof.
  intros Hne. unfold simple_gpa.
  destruct (subjects r) as [|s l] eqn:E; [done|].
  rewrite py_div_ok; [done|].
  pose proof (py_len_pos (s :: l) Hne). lra.
Qed.

Lemma weighted_gpa_nonempty (r : AcademicRecord) :
  subjects r ≠ [] → Forall valid_subject (subjects r) →
  weighted_gpa r = Ok (round2 (py_sum (map weighted_score (subjects r))
                               / py_sum (map (fun s => inject_Z (weight s)) (subjects r)))).
Proof.
  intros Hne Hv. unfold weighted_gpa.
  destruct (subjects r) as [|s l] eqn:E; [done|].
  rewrite py_div_ok; [done|].
  pose proof (total_weights_pos (s :: l) Hne Hv) as H.
  rewrite py_sum_Qsum. lra.
Qed.

(** ** Sorting and extremes *)

Lemma insert_sorted_perm {A} (key : A → Q) (x : A) (xs : list A) :
  Permutation (insert_sorted key x xs) (x :: xs).
Proof.
  induction xs as [|y xs IH]; simpl; [done|].
  destruct (Qlt_bool (key y) (key x)); [|done].
  rewrite IH. apply perm_swap.
Qed.

Lemma py_sorted_perm {A} (key : A → Q) (xs : list A) : Permutation (py_sorted key xs) xs.
Proof.
  induction xs as [|x xs IH]; simpl; [done|].
  rewrite insert_sorted_perm. by constructor.
Qed.

Lemma py_sorted_length {A} (key : A → Q) (xs : list A) :
  length (py_sorted key xs) = length xs.
Proof. apply Permutation_length, py_sorted_perm. Qed.

Lemma py_min_cons {A} (key : A → Q) (x : A) (xs : list A) :
  py_min key (x :: xs) = Ok (min_from key x xs).
Proof. reflexivity. Qed.

Lemma py_max_cons {A} (key : A → Q) (x : A) (xs : list A) :
  py_max key (x :: xs) = Ok (max_from key x xs).
Proof. reflexivity. Qed.

Lemma min_from_map {A} (key : A → Q) (x : A) (xs : list A) :
  min_from id (key x) (map key xs) = key (min_from key x xs).
Proof.
  revert x. induction xs as [|y xs IH]; intros x; simpl; [done|].
  unfold id at 1 2. destruct (Qlt_bool (key y) (key x)); apply IH.
Qed.

Lemma max_from_map {A} (key : A → Q) (x : A) (xs : list A) :
  max_from id (key x) (map key xs) = key (max_from key x xs).
Proof.
  revert x. induction xs as [|y xs IH]; intros x; simpl; [done|].
  unfold id at 1 2. destruct (Qlt_bool (key x) (key y)); apply IH.
Qed.

(** The running minimum: everything before it is strictly larger,
    everything after it at least as large. *)
Lemma min_from_first {A} (key : A → Q) (xs pre mid : list A) (best : A) :
  Forall (fun y => (key best < key y)%Q) pre →
  Forall (fun y => (key best <= key y)%Q) mid →
  ∃ l1 l2, (pre ++ best :: mid ++ xs = l1 ++ min_from key best xs :: l2)%list ∧
    Forall (fun y => (key (min_from key best xs) < key y)%Q) l1 ∧
    Forall (fun y => (key (min_from key best xs) <= key y)%Q) l2.
Proof.
  revert pre mid best. induction xs as [|x xs IH]; intros pre mid best Hpre Hmid; simpl.
  - exists pre, mid. by rewrite app_nil_r.
  - destruct (Qlt_bool (key x) (key best)) eqn:E.
    + apply Qlt_bool_true in E.
      destruct (IH (pre ++ best :: mid)%list [] x) as (l1 & l2 & Heq & H1 & H2).
      * rewrite Forall_app, Forall_cons. repeat split; [|done|].
        -- eapply Forall_impl; [exact Hpre|]. intros y Hy. simpl in Hy. lra.
        -- eapply Forall_impl; [exact Hmid|]. intros y Hy. simpl in Hy. lra.
      * constructor.
      * exists l1, l2. split; [|done]. rewrite <- Heq. simpl. by rewrite <- !app_assoc.
    + apply Qlt_bool_false in E.
      destruct (IH pre (mid ++ [x])%list best) as (l1 & l2 & Heq & H1 & H2); [done| |].
      * rewrite Forall_app, Forall_singleton. done.
      * exists l1, l2. split; [|done]. rewrite <- Heq. by rewrite <- !app_assoc.
Qed.

Lemma max_from_first {A} (key : A → Q) (xs pre mid : list A) (best : A) :
  Forall (fun y => (key y < key best)%Q) pre →
  Forall (fun y => (key y <= key best)%Q) mid →
  ∃ l1 l2, (pre ++ best :: mid ++ xs = l1 ++ max_from key best xs :: l2)%list ∧
    Forall (fun y => (key y < key (max_from key best xs))%Q) l1 ∧
    Forall (fun y => (key y <= key (max_from key best xs))%Q) l2.
Proof.
  revert pre mid best. induction xs as [|x xs IH]; intros pre mid best Hpre Hmid; simpl.
  - exists pre, mid. by rewrite app_nil_r.
  - destruct (Qlt_bool (key best) (key x)) eqn:E.
    + apply Qlt_bool_true in E.
      destruct (IH (pre ++ best :: mid)%list [] x) as (l1 & l2 & Heq & H1 & H2).
      * rewrite Forall_app, Forall_cons. repeat split; [|done|].
        -- eapply Forall_impl; [exact Hpre|]. intros y Hy. simpl in Hy. lra.
        -- eapply Forall_impl; [exact Hmid|]. intros y Hy. simpl in Hy. lra.
      * constructor.
      * exists l1, l2. split; [|done]. rewrite <- Heq. simpl. by rewrite <- !app_assoc.
    + apply Qlt_bool_false in E.
      destruct (IH pre (mid ++ [x])%list best) as (l1 & l2 & Heq & H1 & H2); [done| |].
      * rewrite Forall_app, Forall_singleton. done.
      * exists l1, l2. split; [|done]. rewrite <- Heq. by rewrite <- !app_assoc.
Qed.

Lemma py_min_first_lowest (s0 : SubjectInfo) (rest : list SubjectInfo) :
  first_lowest (s0 :: rest) (min_from score s0 rest).
Proof.
  destruct (min_from_first score rest [] [] s0) as (l1 & l2 & Heq & H1 & H2); [done..|].
  by exists l1, l2.
Qed.

Lemma py_max_first_highest (s0 : SubjectInfo) (rest : list SubjectInfo) :
  first_highest (s0 :: rest) (max_from score s0 rest).
Proof.
  destruct (max_from_first score rest [] [] s0) as (l1 & l2 & Heq & H1 & H2); [done..|].
  by exists l1, l2.
Qed.

(** ** The statistics engine *)

Lemma Qsum_map_ext {A} (f g : A → Q) (xs : list A) :
  (∀ x, f x == g x)%Q → (Qsum (map f xs) == Qsum (map g xs))%Q.
Proof.
  intros H. induction xs as [|x xs IH]; simpl; [reflexivity|]. by rewrite H, IH.
Qed.

Lemma py_min_map {A} (key : A → Q) (x : A) (xs : list A) :
  py_min id (map key (x :: xs)) = Ok (key (min_from key x xs)).
Proof. simpl. by rewrite min_from_map. Qed.

Lemma py_max_map {A} (key : A → Q) (x : A) (xs : list A) :
  py_max id (map key (x :: xs)) = Ok (key (max_from key x xs)).
Proof. simpl. by rewrite max_from_map. Qed.

Section StatisticsFacts.

Variable py_sqrt : Q → Q.

Lemma statistics_mean_ok (data : list Q) :
  data ≠ [] → statistics_mean data = Ok (py_sum data / py_len data)%Q.
Proof.
  intros Hne. unfold statistics_mean. destruct data as [|x xs]; [done|].
  apply py_div_ok. pose proof (py_len_pos (x :: xs) Hne). lra.
Qed.

Lemma mean_is_arithmetic_mean (data : list Q) :
  (py_sum data / py_len data == arithmetic_mean data)%Q.
Proof. unfold arithmetic_mean, py_len. by rewrite py_sum_Qsum. Qed.

Lemma statistics_median_ok (data : list Q) :
  data ≠ [] → ∃ m, statistics_median data = Ok m.
Proof.
  intros Hne. unfold statistics_median. rewrite py_sorted_length.
  destruct data as [|x xs]; [done|]. simpl length.
  change (S (length xs) =? 0)%nat with false. cbv iota.
  destruct (_ =? 1)%nat; eauto.
Qed.

Lemma statistics_variance_ok (data : list Q) :
  (1 < length data)%nat →
  ∃ v, statistics_variance data = Ok v ∧ (v == sample_variance data)%Q.
Proof.
  intros Hlen. unfold statistics_variance.
  destruct (length data <? 2)%nat eqn:E; [apply Nat.ltb_lt in E; lia|].
  assert (data ≠ []) as Hne by (intros ->; simpl in Hlen; lia).
  rewrite statistics_mean_ok by done. unfold mbind, result_bind.
  assert (1 < py_len data)%Q as Hn.
  { unfold py_len. change 1%Q with (inject_Z 1). rewrite <- Zlt_Qlt. lia. }
  rewrite py_div_ok by lra. eexists. split; [done|].
  unfold sample_variance. cbv zeta.
  rewrite py_sum_Qsum. fold (py_len data).
  apply Qdiv_comp; [|reflexivity].
  apply Qsum_map_ext. intros x. by rewrite mean_is_arithmetic_mean.
Qed.

Lemma statistics_stdev_ok (data : list Q) (v : Q) :
  statistics_variance data = Ok v → statistics_stdev py_sqrt data = Ok (py_sqrt v).
Proof. intros H. unfold statistics_stdev. by rewrite H. Qed.

(** The dictionary returned for a non-empty subject list. *)
Lemma calculate_statistics_nonempty (subjs : list SubjectInfo) :
  subjs ≠ [] →
  ∃ (stats : gmap string pyval) (mean variance std_dev spread : Q) (lo hi : SubjectInfo),
    calculate_statistics py_sqrt subjs = Ok stats ∧
    stats !! "mean" = Some (PyNum mean) ∧
    (mean == arithmetic_mean (map score subjs))%Q ∧
    stats !! "variance" = Some (PyNum variance) ∧
    stats !! "std_dev" = Some (PyNum std_dev) ∧
    stats !! "consistency_score" = Some (PyNum (100 - spread)%Q) ∧
    (length subjs = 1%nat → variance = 0%Q ∧ std_dev = 0%Q ∧ spread = 0%Q) ∧
    ((1 < length subjs)%nat →
       (variance == sample_variance (map score subjs))%Q ∧ std_dev = py_sqrt variance ∧
       ((0 < mean)%Q → spread = (std_dev / mean * 100)%Q) ∧
       ((mean <= 0)%Q → spread = 0%Q)) ∧
    stats !! "min_subject" = Some (PyStr (name lo)) ∧
    stats !! "min" = Some (PyNum (score lo)) ∧
    first_lowest subjs lo ∧
    stats !! "max_subject" = Some (PyStr (name hi)) ∧
    stats !! "max" = Some (PyNum (score hi)) ∧
    first_highest subjs hi.
Proof.
  intros Hne. destruct subjs as [|s0 rest]; [done|].
  assert (map score (s0 :: rest) ≠ []) as Hne' by done.
  pose proof (py_len_pos _ Hne') as Hlen.
  destruct (statistics_median_ok _ Hne') as [median Hmed].
  unfold calculate_statistics.
  rewrite !statistics_mean_ok, Hmed by done.
  rewrite !py_div_ok by lra.
  rewrite py_min_map, py_max_map, py_min_cons, py_max_cons.
  pose proof (py_min_first_lowest s0 rest) as Hlo.
  pose proof (py_max_first_highest s0 rest) as Hhi.
  pose proof (mean_is_arithmetic_mean (map score (s0 :: rest))) as Hmean.
  destruct (1 <? length (map score (s0 :: rest)))%nat eqn:En.
  - apply Nat.ltb_lt in En.
    destruct (statistics_variance_ok _ En) as (v & Hv & Hvs).
    rewrite (statistics_stdev_ok _ _ Hv), Hv.
    unfold mbind, result_bind.
    destruct (Qlt_bool 0 _) eqn:Em.
    + apply Qlt_bool_true in Em. rewrite py_div_ok by lra.
      do 7 eexists. split; [reflexivity|].
      rewrite length_map in En.
      repeat split; try done; try (intros; lia); intros; exfalso; lra.
    + apply Qlt_bool_false in Em.
      do 7 eexists. split; [reflexivity|].
      rewrite length_map in En.
      repeat split; try done; try (intros; lia); intros; exfalso; lra.
  - apply Nat.ltb_ge in En. unfold mbind, result_bind.
    do 7 eexists. split; [reflexivity|].
    rewrite length_map in En.
    repeat split; try done; intros; lia.
Qed.

End StatisticsFacts.

Lemma Qsum_nonneg (xs : list Q) : Forall (fun x => (0 <= x)%Q) xs → (0 <= Qsum xs)%Q.
Proof.
  induction 1 as [|x xs Hx _ IH]; simpl; [discriminate|lra].
Qed.

Lemma arithmetic_mean_nonneg (subjs : list SubjectInfo) :
  Forall valid_subject subjs → (0 <= arithmetic_mean (map score subjs))%Q.
Proof.
  intros Hv. unfold arithmetic_mean.
  assert (0 <= Qsum (map score subjs))%Q as Hs.
  { apply Qsum_nonneg. rewrite Forall_map. eapply Forall_impl; [exact Hv|]. by intros s (H & _). }
  destruct subjs as [|s l]; [discriminate|].
  pose proof (py_len_pos (map score (s :: l))) as Hlen. unfold py_len in Hlen.
  apply Qle_shift_div_l; [by apply Hlen|]. lra.
Qed.



(** For validated scores the three cases of the consistency score cover
    every non-empty subject list. *)
Lemma consistency_cases_exhaustive (subjs : list SubjectInfo) :
  subjs ≠ [] → Forall valid_subject subjs →
  length subjs = 1%nat ∨ (arithmetic_mean (map score subjs) == 0)%Q
  ∨ ((1 < length subjs)%nat ∧ (0 < arithmetic_mean (map score subjs))%Q).
Proof.
  intros Hne Hv. pose proof (arithmetic_mean_nonneg subjs Hv) as Hm.
  destruct subjs as [|s [|s' l]]; [done|by left|right].
  destruct (Qeq_dec (arithmetic_mean (map score (s :: s' :: l))) 0) as [E|E]; [by left|right].
  split; [simpl; lia|]. apply Qle_lteq in Hm. destruct Hm as [Hm|Hm]; [done|].
  exfalso. apply E. by symmetry.
Qed.

(** C8.  For a non-empty subject list, [min_subject] ([max_subject]) is the
    name of the entry with the minimum (maximum) score, and among entries
    tied at that score it is the first one in input order. *)
Theorem extreme_subjects_first_occurrence (py_sqrt : Q → Q) (subjs : list SubjectInfo) :
  subjs ≠ [] →
  ∃ (stats : gmap string pyval) (lo hi : SubjectInfo),
    calculate_statistics py_sqrt subjs = Ok stats ∧
    stats !! "min_subject" = Some (PyStr (name lo)) ∧
    stats !! "min" = Some (PyNum (score lo)) ∧
    first_lowest subjs lo ∧
    stats !! "max_subject" = Some (PyStr (name hi)) ∧
    stats !! "max" = Some (PyNum (score hi)) ∧
    first_highest subjs hi.
Proof.
  intros Hne.
  destruct (calculate_statistics_nonempty py_sqrt subjs Hne)
    as (stats & mean & variance & std_dev & spread & lo & hi & Hcalc & _ & _ & _
        & _ & _ & _ & _ & H).
  by exists stats, lo, hi.
Qed.

Lemma extreme_subjects_first_occurrence_witness :
  ∃ (stats : gmap string pyval) (lo hi : SubjectInfo),
    calculate_statistics sqrt_thousandths tied_subjects = Ok stats ∧
    stats !! "min_subject" = Some (PyStr (name lo)) ∧
    stats !! "min" = Some (PyNum (score lo)) ∧
    first_lowest tied_subjects lo ∧
    stats !! "max_subject" = Some (PyStr (name hi)) ∧
    stats !! "max" = Some (PyNum (score hi)) ∧
    first_highest tied_subjects hi.
Proof.
  apply (extreme_subjects_first_occurrence sqrt_thousandths tied_subjects). discriminate.
Defined.

Example tied_extremes :
  (stats ← calculate_statistics sqrt_thousandths tied_subjects;
   Ok (stats !! "min_subject", stats !! "max_subject"))
  = Ok (Some (PyStr "Hoa"), Some (PyStr "Ly")).
Proof. reflexivity. Qed.

(** ** Stable sorting *)

Section SortedFacts.

Context {A : Type} (key : A → Q).

Lemma insert_sorted_sorted (x : A) (xs : list A) :
  StronglySorted (le_by key) xs → StronglySorted (le_by key) (insert_sorted key x xs).
Proof.
  induction 1 as [|y xs Hs IH Hy]; simpl.
  - repeat constructor.
  - destruct (Qlt_bool (key y) (key x)) eqn:E.
    + apply Qlt_bool_true in E. constructor; [done|].
      rewrite (insert_sorted_perm key x xs). constructor; [|done].
      unfold le_by. lra.
    + apply Qlt_bool_false in E. constructor; [by constructor|].
      constructor; [done|].
      eapply Forall_impl; [exact Hy|]. unfold le_by. intros z Hz. simpl in Hz. lra.
Qed.

Lemma py_sorted_sorted (xs : list A) : StronglySorted (le_by key) (py_sorted key xs).
Proof.
  induction xs as [|x xs IH]; simpl; [constructor|]. by apply insert_sorted_sorted.
Qed.

(** Insertion only passes over strictly smaller keys, so entries of one
    key value keep their order. *)
Lemma insert_sorted_stable (q : Q) (x : A) (xs : list A) :
  List.filter (fun a => Qeq_bool (key a) q) (insert_sorted key x xs)
  = List.filter (fun a => Qeq_bool (key a) q) (x :: xs).
Proof.
  induction xs as [|y xs IH]; [done|].
  simpl insert_sorted. destruct (Qlt_bool (key y) (key x)) eqn:E; [|done].
  apply Qlt_bool_true in E.
  simpl in *. rewrite IH.
  destruct (Qeq_bool (key x) q) eqn:Ex, (Qeq_bool (key y) q) eqn:Ey; try done.
  apply Qeq_bool_iff in Ex, Ey. exfalso. lra.
Qed.

Lemma py_sorted_stable (q : Q) (xs : list A) :
  List.filter (fun a => Qeq_bool (key a) q) (py_sorted key xs)
  = List.filter (fun a => Qeq_bool (key a) q) xs.
Proof.
  induction xs as [|x xs IH]; [done|].
  simpl py_sorted. rewrite insert_sorted_stable. simpl. by rewrite IH.
Qed.

Lemma sorted_take_below_drop (n : nat) (xs : list A) (a b : A) :
  StronglySorted (le_by key) xs → a ∈ take n xs → b ∈ drop n xs → (key a <= key b)%Q.
Proof.
  intros Hs. revert n. induction Hs as [|y xs Hs IH Hy]; intros n Ha Hb.
  - rewrite take_nil in Ha. by apply elem_of_nil in Ha.
  - destruct n as [|n]; simpl in *; [by apply elem_of_nil in Ha|].
    apply elem_of_cons in Ha as [-> | Ha]; [|by eapply IH].
    rewrite List.Forall_forall in Hy. apply Hy.
    apply list_elem_of_In. by apply (subseteq_drop n xs).
Qed.

End SortedFacts.

Lemma py_sorted_by_score (subjs : list SubjectInfo) :
  stable_sorted_by_score subjs (py_sorted score subjs).
Proof.
  split_and!.
  - apply py_sorted_perm.
  - apply (py_sorted_sorted score).
  - intros q. apply (py_sorted_stable score).
Qed.

(** ** The performance projector *)

Section ProjectorFacts.

Variable py_sqrt : Q → Q.

Lemma calculate_statistics_total (subjs : list SubjectInfo) :
  ∃ (stats : gmap string pyval) (c : Q),
    calculate_statistics py_sqrt subjs = Ok stats ∧
    dict_get "consistency_score" (PyNum 0) stats = PyNum c ∧
    (subjs = [] → stats = ∅ ∧ c = 0%Q).
Proof.
  destruct subjs as [|s l].
  - by exists ∅, 0%Q.
  - destruct (calculate_statistics_nonempty py_sqrt (s :: l))
      as (stats & mean & variance & std_dev & spread & lo & hi & Hcalc & _ & _ & _
          & _ & Hcons & _); [done|].
    exists stats, (100 - spread)%Q. unfold dict_get. by rewrite Hcons.
Qed.

Lemma round2_idem (x : Q) : round2 (round2 x) = round2 x.
Proof. unfold round2 at 2 3. apply round2_hundredth. Qed.

Lemma weighted_gpa_total (r : AcademicRecord) :
  Forall valid_subject (subjects r) →
  ∃ g : Q, weighted_gpa r = Ok g ∧ (round2 g == g)%Q.
Proof.
  intros Hv. destruct (subjects r) as [|s l] eqn:E.
  - exists 0%Q. unfold weighted_gpa. rewrite E. split; [done|].
    by vm_compute.
  - rewrite <- E in *. rewrite weighted_gpa_nonempty by (done || by rewrite E).
    eexists. split; [done|]. by rewrite round2_idem.
Qed.

Lemma py_min2_Qmin (a b : Q) : (py_min2 a b == Qmin a b)%Q.
Proof.
  unfold py_min2. destruct (Qlt_bool b a) eqn:E.
  - apply Qlt_bool_true in E. symmetry. apply Q.min_r. lra.
  - apply Qlt_bool_false in E. symmetry. by apply Q.min_l.
Qed.

(** The dictionary returned by [predict_performance]. *)
Lemma predict_performance_ok (r : AcademicRecord) (stats : gmap string pyval) (g c : Q) :
  calculate_statistics py_sqrt (subjects r) = Ok stats →
  weighted_gpa r = Ok g →
  dict_get "consistency_score" (PyNum 0) stats = PyNum c →
  ∃ d : gmap string pyval,
    predict_performance py_sqrt r = Ok d ∧
    d !! "current_gpa" = Some (PyNum g) ∧
    d !! "improvement_potential" = Some (PyNum (round2 ((10 - g) * (c / 100) * (3 # 10)))) ∧
    d !! "predicted_next"
      = Some (PyNum (round2 (Qmin 10 (g + (10 - g) * (c / 100) * (3 # 10))))) ∧
    d !! "confidence"
      = Some (PyStr (if Qlt_bool 80 c then "Cao"
                     else if Qlt_bool 60 c then "Trung bình" else "Thấp")) ∧
    d !! "recommendation"
      = Some (PyStr (if Qle_bool 8 g then "Duy trì" else "Cải thiện")) ∧
    d !! "focus_areas"
      = Some (PyStrList (map name (take 3 (py_sorted score (subjects r))))).
Proof.
  intros Hstats Hg Hc. unfold predict_performance.
  rewrite Hstats, Hg. unfold mbind, result_bind. rewrite Hc.
  unfold py_num, py_gt, py_num, mbind, result_bind.
  rewrite py_div_ok by discriminate.
  rewrite <- (round2_comp _ _ (py_min2_Qmin 10 _)).
  destruct (Qlt_bool 80 c); [|destruct (Qlt_bool 60 c)];
    (eexists; split; [reflexivity|]); by split_and!.
Qed.

End ProjectorFacts.

Lemma projected_improvement_nonneg (g c : Q) :
  (g <= 10)%Q → (0 <= c)%Q → (0 <= projected_improvement g c)%Q.
Proof.
  intros Hg Hc. unfold projected_improvement.
  apply Qmult_le_0_compat; [|discriminate].
  apply Qmult_le_0_compat; [lra|]. lra_hundredths.
Qed.

Lemma projected_next_le_10 (g c : Q) : (projected_next g c <= 10)%Q.
Proof. unfold projected_next. apply Q.le_min_l. Qed.

Lemma round2_le_10 (x : Q) : (x <= 10)%Q → (round2 x <= 10)%Q.
Proof.
  intros H. apply round2_mono in H.
  assert (round2 10 == 10)%Q as E by by vm_compute. lra.
Qed.

(** C6.  The projector reports [improvement_potential] and
    [predicted_next] for
    [improvement = (10 − current_gpa) × (consistency_score / 100) × 0.3]
    and [predicted_next = min(10.0, current_gpa + improvement)], each
    rounded to two decimals and so less than a hundredth away from the
    formula; the reported prediction never exceeds 10, and when
    [current_gpa] is in [0,10] and [consistency_score] in [0,100] the
    reported improvement is non-negative and the reported prediction is at
    least [current_gpa].  (Which of the two neighbouring hundredths is
    reported depends on the rounding of the double-precision products and
    is left open.) *)
Theorem predicted_next_within_bounds (py_sqrt : Q → Q) (r : AcademicRecord) :
  Forall valid_subject (subjects r) →
  ∃ (d stats : gmap string pyval) (g c p x : Q),
    predict_performance py_sqrt r = Ok d ∧
    weighted_gpa r = Ok g ∧
    calculate_statistics py_sqrt (subjects r) = Ok stats ∧
    dict_get "consistency_score" (PyNum 0) stats = PyNum c ∧
    d !! "current_gpa" = Some (PyNum g) ∧
    d !! "improvement_potential" = Some (PyNum p) ∧
    d !! "predicted_next" = Some (PyNum x) ∧
    (Qabs (p - projected_improvement g c) < 1 # 100)%Q ∧
    (Qabs (x - projected_next g c) < 1 # 100)%Q ∧
    (x <= 10)%Q ∧
    ((0 <= g)%Q → (g <= 10)%Q → (0 <= c)%Q → (c <= 100)%Q →
       (0 <= p)%Q ∧ (g <= x)%Q).
Proof.
  intros Hv.
  destruct (calculate_statistics_total py_sqrt (subjects r)) as (stats & c & Hstats & Hc & _).
  destruct (weighted_gpa_total r Hv) as (g & Hg & Hround).
  destruct (predict_performance_ok py_sqrt r stats g c Hstats Hg Hc)
    as (d & Hd & Hcur & Himp & Hnext & _).
  exists d, stats, g, c, (round2 (projected_improvement g c)), (round2 (projected_next g c)).
  destruct (round2_rounded (projected_improvement g c)) as [_ Hp].
  destruct (round2_rounded (projected_next g c)) as [_ Hx].
  split_and!; try done.
  - apply (Qle_lt_trans _ _ _ Hp). reflexivity.
  - apply (Qle_lt_trans _ _ _ Hx). reflexivity.
  - apply round2_le_10, projected_next_le_10.
  - intros Hg0 Hg10 Hc0 Hc100.
    pose proof (projected_improvement_nonneg g c Hg10 Hc0) as Hnn.
    assert (g <= projected_next g c)%Q as Hle.
    { unfold projected_next. apply Q.min_glb; lra. }
    split.
    + apply round2_mono in Hnn.
      assert (round2 0 == 0)%Q as E by by vm_compute. lra.
    + rewrite <- Hround at 1. by apply round2_mono.
Qed.

Lemma predicted_next_within_bounds_witness :
  ∃ (d stats : gmap string pyval) (g c p x : Q),
    predict_performance sqrt_thousandths (sample_record "a3f09c1b77e2" three_subjects) = Ok d ∧
    weighted_gpa (sample_record "a3f09c1b77e2" three_subjects) = Ok g ∧
    calculate_statistics sqrt_thousandths three_subjects = Ok stats ∧
    dict_get "consistency_score" (PyNum 0) stats = PyNum c ∧
    d !! "current_gpa" = Some (PyNum g) ∧
    d !! "improvement_potential" = Some (PyNum p) ∧
    d !! "predicted_next" = Some (PyNum x) ∧
    (Qabs (p - projected_improvement g c) < 1 # 100)%Q ∧
    (Qabs (x - projected_next g c) < 1 # 100)%Q ∧
    (x <= 10)%Q ∧
    ((0 <= g)%Q → (g <= 10)%Q → (0 <= c)%Q → (c <= 100)%Q →
       (0 <= p)%Q ∧ (g <= x)%Q).
Proof.
  apply (predicted_next_within_bounds sqrt_thousandths
           (sample_record "a3f09c1b77e2" three_subjects)).
  apply all_accepted_valid. reflexivity.
Defined.

(** The scenario Math 10, Lit 8, Eng 7 (all weight 2): the consistency
    score lies in [0,100] and the projection stays between the current
    GPA and 10. *)
Example three_subjects_projection :
  (d ← predict_performance sqrt_thousandths (sample_record "a3f09c1b77e2" three_subjects);
   Ok (d !! "current_gpa", d !! "predicted_next", d !! "improvement_potential",
       d !! "confidence", d !! "focus_areas"))
  = Ok (Some (PyNum (833 # 100)), Some (PyNum (874 # 100)), Some (PyNum (41 # 100)),
        Some (PyStr "Cao"), Some (PyStrList ["Eng"; "Lit"; "Math"])).
Proof. reflexivity. Qed.

(** C7.  [focus_areas] holds the names of the first [min(3, N)] entries of
    the subject list sorted by ascending score with ties kept in input
    order: the lowest-scoring subjects, all of them when fewer than three
    exist. *)
Theorem focus_areas_lowest_three (py_sqrt : Q → Q) (r : AcademicRecord) :
  Forall valid_subject (subjects r) →
  ∃ (d : gmap string pyval) (sorted : list SubjectInfo),
    predict_performance py_sqrt r = Ok d ∧
    stable_sorted_by_score (subjects r) sorted ∧
    d !! "focus_areas" = Some (PyStrList (map name (take 3 sorted))) ∧
    length (map name (take 3 sorted)) = Nat.min 3 (length (subjects r)) ∧
    ((length (subjects r) < 3)%nat → take 3 sorted = sorted) ∧
    (∀ a b, a ∈ take 3 sorted → b ∈ drop 3 sorted → (score a <= score b)%Q).
Proof.
  intros Hv.
  destruct (calculate_statistics_total py_sqrt (subjects r)) as (stats & c & Hstats & Hc & _).
  destruct (weighted_gpa_total r Hv) as (g & Hg & _).
  destruct (predict_performance_ok py_sqrt r stats g c Hstats Hg Hc)
    as (d & Hd & _ & _ & _ & _ & _ & Hfocus).
  pose proof (py_sorted_by_score (subjects r)) as Hsorted.
  exists d, (py_sorted score (subjects r)). split_and!; try done.
  - by rewrite length_map, length_take, py_sorted_length.
  - intros Hlen. apply take_ge. rewrite py_sorted_length. lia.
  - intros a b Ha Hb. destruct Hsorted as (_ & Hs & _).
    by apply (sorted_take_below_drop score 3 _ a b Hs).
Qed.

Lemma focus_areas_lowest_three_witness :
  ∃ (d : gmap string pyval) (sorted : list SubjectInfo),
    predict_performance sqrt_thousandths (sample_record "a3f09c1b77e2" tied_subjects) = Ok d ∧
    stable_sorted_by_score tied_subjects sorted ∧
    d !! "focus_areas" = Some (PyStrList (map name (take 3 sorted))) ∧
    length (map name (take 3 sorted)) = Nat.min 3 (length tied_subjects) ∧
    ((length tied_subjects < 3)%nat → take 3 sorted = sorted) ∧
    (∀ a b, a ∈ take 3 sorted → b ∈ drop 3 sorted → (score a <= score b)%Q).
Proof.
  apply (focus_areas_lowest_three sqrt_thousandths
           (sample_record "a3f09c1b77e2" tied_subjects)).
  apply all_accepted_valid. reflexivity.
Defined.

(** Ties at 6 and at 9: input order decides inside each tie. *)
Example tied_focus_areas :
  (d ← predict_performance sqrt_thousandths (sample_record "a3f09c1b77e2" tied_subjects);
   Ok (d !! "focus_areas"))
  = Ok (Some (PyStrList ["Hoa"; "Su"; "Ly"])).
Proof. reflexivity. Qed.

(** C10.  For a record with no subject entries [predict_performance]
    returns, with [current_gpa], [improvement_potential] and
    [predicted_next] all 0, confidence 'Thấp', recommendation 'Cải thiện'
    and no focus areas. *)
Theorem predict_performance_empty_record (py_sqrt : Q → Q) (r : AcademicRecord) :
  subjects r = [] →
  ∃ (d : gmap string pyval) (improvement predicted : Q),
    predict_performance py_sqrt r = Ok d ∧
    d !! "current_gpa" = Some (PyNum 0) ∧
    d !! "improvement_potential" = Some (PyNum improvement) ∧ (improvement == 0)%Q ∧
    d !! "predicted_next" = Some (PyNum predicted) ∧ (predicted == 0)%Q ∧
    d !! "confidence" = Some (PyStr "Thấp") ∧
    d !! "recommendation" = Some (PyStr "Cải thiện") ∧
    d !! "focus_areas" = Some (PyStrList []).
Proof.
  intros H. unfold predict_performance, weighted_gpa. rewrite H.
  do 3 eexists. split; [reflexivity|]. by split_and!.
Qed.

Lemma predict_performance_empty_record_witness :
  ∃ (d : gmap string pyval) (improvement predicted : Q),
    predict_performance sqrt_thousandths (sample_record "a3f09c1b77e2" []) = Ok d ∧
    d !! "current_gpa" = Some (PyNum 0) ∧
    d !! "improvement_potential" = Some (PyNum improvement) ∧ (improvement == 0)%Q ∧
    d !! "predicted_next" = Some (PyNum predicted) ∧ (predicted == 0)%Q ∧
    d !! "confidence" = Some (PyStr "Thấp") ∧
    d !! "recommendation" = Some (PyStr "Cải thiện") ∧
    d !! "focus_areas" = Some (PyStrList []).
Proof.
  apply (predict_performance_empty_record sqrt_thousandths (sample_record "a3f09c1b77e2" [])).
  reflexivity.
Defined.

(** ** The insight generator *)

(** C1 (the code departs from it).  For a record with no subject entries
    the statistics are the empty dictionary, and [generate_insights] on
    them raises [TypeError]: [stats.get('min')] is [None], which rule 4
    compares with [5.0].  No list of remarks is returned. *)
Theorem generate_insights_empty_raises (py_sqrt : Q → Q) (r : AcademicRecord) :
  subjects r = [] →
  calculate_statistics py_sqrt (subjects r) = Ok ∅ ∧
  generate_insights ∅ r = Raise TypeError.
Proof.
  intros H. unfold generate_insights, weighted_gpa. by rewrite H.
Qed.

Lemma generate_insights_empty_raises_witness :
  calculate_statistics sqrt_thousandths (subjects (sample_record "a3f09c1b77e2" [])) = Ok ∅ ∧
  generate_insights ∅ (sample_record "a3f09c1b77e2" []) = Raise TypeError.
Proof.
  apply (generate_insights_empty_raises sqrt_thousandths (sample_record "a3f09c1b77e2" [])).
  reflexivity.
Defined.

(** The scenarios of the specification with at least one subject. *)
Example three_subjects_insights :
  (stats ← calculate_statistics sqrt_thousandths three_subjects;
   generate_insights stats (sample_record "a3f09c1b77e2" three_subjects))
  = Ok [remark_good; remark_perfect (PyStr "Math")].
Proof. reflexivity. Qed.

Example art_only_insights :
  (stats ← calculate_statistics sqrt_thousandths art_only;
   generate_insights stats (sample_record "a3f09c1b77e2" art_only))
  = Ok [remark_needs_improvement; remark_even; remark_weak (PyStr "Art")].
Proof. reflexivity. Qed.

(** Rule 2 reads [consistency_score] with default 0: on statistics that
    lack it the "uneven" remark is produced (shown on a dictionary that
    only defines [min], so that rule 4 does not raise). *)
Example insights_default_consistency :
  generate_insights {[ "min" := PyNum 5 ]} (sample_record "a3f09c1b77e2" [])
  = Ok [remark_needs_improvement; remark_uneven].
Proof. reflexivity. Qed.

(** ** The record store *)

Lemma execute_ok_inv (fault : option nat) (k : nat) (stmt : Database → Database)
    (c c' : Connection) (u : unit) :
  execute fault k stmt c = (Ok u, c') →
  c' = {| committed := committed c; working := stmt (working c) |}.
Proof. unfold execute. case_bool_decide; congruence. Qed.

Lemma execute_raise_inv (fault : option nat) (k : nat) (stmt : Database → Database)
    (c c' : Connection) (e : exn) :
  execute fault k stmt c = (Raise e, c') → c' = c.
Proof. unfold execute. case_bool_decide; congruence. Qed.

Lemma insert_subjects_ok_inv (fault : option nat) (r : AcademicRecord)
    (subjs : list SubjectInfo) (k : nat) (c c' : Connection) (u : unit) :
  insert_subjects fault k r subjs c = (Ok u, c') →
  committed c' = committed c ∧
  working c' = insert_all (student_id (student r)) (record_id r) subjs (working c).
Proof.
  revert k c. induction subjs as [|s l IH]; intros k c H; simpl in H.
  - unfold db_ret in H. by simplify_eq.
  - unfold db_bind in H.
    destruct (execute _ _ _ c) as [[u1|e] c1] eqn:E; [|done].
    apply execute_ok_inv in E. subst c1.
    apply IH in H. by destruct H as [-> ->].
Qed.

Lemma insert_subjects_committed (fault : option nat) (r : AcademicRecord)
    (subjs : list SubjectInfo) (k : nat) (c c' : Connection) (res : result unit) :
  insert_subjects fault k r subjs c = (res, c') → committed c' = committed c.
Proof.
  revert k c. induction subjs as [|s l IH]; intros k c H; simpl in H.
  - unfold db_ret in H. by simplify_eq.
  - unfold db_bind in H.
    destruct (execute _ _ _ c) as [[u1|e] c1] eqn:E.
    + apply execute_ok_inv in E. subst c1. by apply IH in H.
    + apply execute_raise_inv in E. by simplify_eq.
Qed.

Lemma insert_all_spec (sid rid : string) (subjs : list SubjectInfo) (db : Database) :
  students_tbl (insert_all sid rid subjs db) = students_tbl db ∧
  academic_records_tbl (insert_all sid rid subjs db) = academic_records_tbl db ∧
  ∃ rows, subjects_tbl (insert_all sid rid subjs db) = (subjects_tbl db ++ rows)%list ∧
          Forall2 (row_of_subject rid) subjs rows.
Proof.
  revert db. induction subjs as [|s l IH]; intros db; simpl.
  - split_and!; [done..|]. exists []. by rewrite app_nil_r.
  - destruct (IH (insert_subject sid rid s db)) as (Hst & Har & rows & Hrows & Hall).
    split_and!; [done..|].
    eexists (_ :: rows). split.
    + rewrite Hrows. simpl. by rewrite <- app_assoc.
    + by constructor.
Qed.

(** A successful [save_record]: the three writes are applied in order and
    committed together. *)
Lemma save_record_ok_inv (fault : option nat) (r : AcademicRecord) (c c' : Connection) :
  save_record fault r c = (true, c') →
  ∃ (sg wg : Q) (gl : GradeLevel),
    simple_gpa r = Ok sg ∧ weighted_gpa r = Ok wg ∧ grade_level r = Ok gl ∧
    committed c' = working c' ∧
    working c' =
      replace_record
        {| ar_record_id := record_id r;
           ar_student_id := student_id (student r);
           ar_semester := semester r;
           ar_exam_type := exam_type r;
           ar_simple_gpa := sg;
           ar_weighted_gpa := wg;
           ar_grade_level := label gl;
           ar_total_subjects := Z.of_nat (length (subjects r));
           ar_created_at := created_at r |}
        (insert_all (student_id (student r)) (record_id r) (subjects r)
           (replace_student (student_row_of r) (working c))).
Proof.
  unfold save_record, save_record_try, db_bind, db_lift, commit.
  destruct (execute _ 0 _ c) as [[u0|e0] c0] eqn:E0; [|done].
  apply execute_ok_inv in E0. subst c0.
  destruct (insert_subjects _ _ _ _ _) as [[u1|e1] c1] eqn:E1; [|done].
  apply insert_subjects_ok_inv in E1. destruct E1 as [Hc1 Hw1]. simpl in Hc1, Hw1.
  destruct (simple_gpa r) as [sg|]; [|done].
  destruct (weighted_gpa r) as [wg|]; [|done].
  destruct (grade_level r) as [gl|]; [|done].
  destruct (execute _ _ _ c1) as [[u2|e2] c2] eqn:E2; [|done].
  apply execute_ok_inv in E2. subst c2.
  case_bool_decide; [done|]. intros Heq. simplify_eq.
  exists sg, wg, gl. simpl. by rewrite Hw1.
Qed.

(** A failed [save_record] commits nothing itself. *)
Lemma save_record_failure_committed (fault : option nat) (r : AcademicRecord)
    (c c' : Connection) :
  save_record fault r c = (false, c') → committed c' = committed c.
Proof.
  unfold save_record, save_record_try, db_bind, db_lift, commit.
  destruct (execute _ 0 _ c) as [[u0|e0] c0] eqn:E0.
  2:{ apply execute_raise_inv in E0. by intros; simplify_eq. }
  apply execute_ok_inv in E0. subst c0.
  destruct (insert_subjects _ _ _ _ _) as [[u1|e1] c1] eqn:E1;
    apply insert_subjects_committed in E1; simpl in E1.
  2:{ by intros; simplify_eq. }
  destruct (simple_gpa r) as [sg|]; [|by intros; simplify_eq].
  destruct (weighted_gpa r) as [wg|]; [|by intros; simplify_eq].
  destruct (grade_level r) as [gl|]; [|by intros; simplify_eq].
  destruct (execute _ _ _ c1) as [[u2|e2] c2] eqn:E2.
  2:{ apply execute_raise_inv in E2. by intros; simplify_eq. }
  apply execute_ok_inv in E2. subst c2.
  case_bool_decide; [|done]. by intros; simplify_eq.
Qed.

(** *** Loading *)

Lemma build_subjects_rows (rid : string) (subjs : list SubjectInfo) (rows : list subjects_row) :
  Forall valid_subject subjs → Forall2 (row_of_subject rid) subjs rows →
  build_subjects rows = Ok subjs ∧
  List.filter (fun sj => bool_decide (sj_record_id sj = rid)) rows = rows.
Proof.
  intros Hv H. induction H as [|s row l rows Hrow _ IH]; [done|].
  apply Forall_cons in Hv as [Hs Hl]. destruct (IH Hl) as [IHb IHf].
  destruct Hrow as (Hrid & Hn & Hsc & Hw & Hcat & Hnotes).
  split.
  - simpl. rewrite Hn, Hsc, Hw, Hcat, Hnotes.
    replace {| name := name s; score := score s; weight := weight s;
               category := category s; notes := notes s |} with s by by destruct s.
    apply post_init_valid in Hs. rewrite Hs. unfold mbind, result_bind.
    by rewrite IHb.
  - simpl. rewrite bool_decide_eq_true_2 by done. by rewrite IHf.
Qed.

Lemma filter_no_rows (rid : string) (rows : list subjects_row) :
  Forall (fun row => sj_record_id row ≠ rid) rows →
  List.filter (fun sj => bool_decide (sj_record_id sj = rid)) rows = [].
Proof.
  induction 1 as [|row rows Hrow _ IH]; [done|].
  simpl. by rewrite bool_decide_eq_false_2.
Qed.

(** C9 (amended).  When [save_record] succeeds for a validated record and
    the store held no subject row tagged with its [record_id] before the
    call, [load_record_by_id] on the same connection returns that very
    record: the same subject entries in the same order, the same student
    metadata, semester, exam type and [created_at]. *)
Theorem save_then_load_fresh_record (fault : option nat) (r : AcademicRecord)
    (c c' : Connection) :
  valid_record r →
  Forall (fun row => sj_record_id row ≠ record_id r) (subjects_tbl (working c)) →
  save_record fault r c = (true, c') →
  load_record_by_id c' (record_id r) = Some r.
Proof.
  intros [Hid Hv] Hfresh Hsave.
  apply save_record_ok_inv in Hsave as (sg & wg & gl & _ & _ & _ & _ & Hw).
  destruct (insert_all_spec (student_id (student r)) (record_id r) (subjects r)
              (replace_student (student_row_of r) (working c)))
    as (Hst & _ & rows & Hrows & Hall).
  destruct (build_subjects_rows _ _ _ Hv Hall) as [Hbuild Hfilter].
  unfold load_record_by_id, load_record_try. rewrite Hw. simpl.
  rewrite lookup_insert_eq. simpl.
  rewrite Hst. simpl. rewrite lookup_insert_eq. simpl.
  unfold StudentInfo_post_init. simpl. rewrite Hid. simpl.
  rewrite Hrows. simpl. rewrite List.filter_app, (filter_no_rows _ _ Hfresh), Hfilter. simpl.
  rewrite Hbuild. simpl. f_equal. destruct r as [[] ? ? ? ? ?]; reflexivity.
Qed.

Lemma save_then_load_fresh_record_witness :
  load_record_by_id
    (snd (save_record None (sample_record "a3f09c1b77e2" three_subjects) initialize_database))
    "a3f09c1b77e2"
  = Some (sample_record "a3f09c1b77e2" three_subjects).
Proof.
  apply (save_then_load_fresh_record None (sample_record "a3f09c1b77e2" three_subjects)
           initialize_database).
  - split; [reflexivity|]. apply all_accepted_valid. reflexivity.
  - constructor.
  - reflexivity.
Defined.

(** C9 as stated fails: saving a record whose [record_id] already tags
    subject rows (here: the same record saved twice) succeeds, and the
    record loaded afterwards lists every subject twice. *)
Lemma roundtrip_fails_on_resave :
  ¬ (∀ (r : AcademicRecord) (c c' : Connection),
       valid_record r →
       save_record None r c = (true, c') →
       load_record_by_id c' (record_id r) = Some r).
Proof.
  intros H.
  pose (r := sample_record "a3f09c1b77e2" art_only).
  pose (c1 := snd (save_record None r initialize_database)).
  specialize (H r c1 (snd (save_record None r c1))).
  assert (valid_record r) as Hv.
  { split; [reflexivity|]. apply all_accepted_valid. reflexivity. }
  specialize (H Hv eq_refl).
  vm_compute in H. discriminate H.
Qed.

Example resave_duplicates_subjects :
  let r := sample_record "a3f09c1b77e2" art_only in
  let c1 := snd (save_record None r initialize_database) in
  let c2 := snd (save_record None r c1) in
  fst (save_record None r c1) = true ∧
  subjects <$> load_record_by_id c2 "a3f09c1b77e2" = Some (art_only ++ art_only)%list.
Proof. split; reflexivity. Qed.

(** C2 (the code departs from it).  The student upsert and the first
    subject insert of a call succeed, the second subject insert raises:
    [save_record] returns [False] without rolling back.  The two writes
    stay visible through the connection, and the next successful
    [save_record] commits them: the store then holds a subject row of the
    failed call and no summary row for it.  Saving the failed record again
    leaves its first subject stored twice. *)
Theorem save_record_failure_not_atomic :
  let failed := sample_record "a3f09c1b77e2" three_subjects in
  let other := sample_record "b41d22e09f10" art_only in
  let c0 := initialize_database in
  let c1 := snd (save_record (Some 2%nat) failed c0) in
  let c2 := snd (save_record None other c1) in
  let c3 := snd (save_record None failed c1) in
  fst (save_record (Some 2%nat) failed c0) = false ∧
  committed c1 = committed c0 ∧
  students_tbl (working c1) !! "HS2024001" = Some (student_row_of failed) ∧
  map sj_subject_name (subjects_tbl (working c1)) = ["Math"] ∧
  fst (save_record None other c1) = true ∧
  map (fun row => (sj_record_id row, sj_subject_name row)) (subjects_tbl (committed c2))
    = [("a3f09c1b77e2", "Math"); ("b41d22e09f10", "Art")] ∧
  academic_records_tbl (committed c2) !! "a3f09c1b77e2" = None ∧
  fst (save_record None failed c1) = true ∧
  map name <$> (subjects <$> load_record_by_id c3 "a3f09c1b77e2")
    = Some ["Math"; "Math"; "Lit"; "Eng"].
Proof. by vm_compute. Qed.

(** ** Further properties of the grade point averages *)

Lemma Qsum_bounds (lo hi : Q) (xs : list Q) :
  Forall (fun x => (lo <= x)%Q ∧ (x <= hi)%Q) xs →
  (py_len xs * lo <= Qsum xs)%Q ∧ (Qsum xs <= py_len xs * hi)%Q.
Proof.
  unfold py_len. induction 1 as [|x xs [Hl Hh] _ [IH1 IH2]]; simpl length; simpl Qsum.
  - split; apply Qle_lteq; right; ring.
  - rewrite Nat2Z.inj_succ. unfold Z.succ. rewrite inject_Z_plus.
    change (inject_Z 1) with 1%Q. split.
    + assert ((inject_Z (Z.of_nat (length xs)) + 1) * lo
              == inject_Z (Z.of_nat (length xs)) * lo + lo)%Q as -> by ring. lra.
    + assert ((inject_Z (Z.of_nat (length xs)) + 1) * hi
              == inject_Z (Z.of_nat (length xs)) * hi + hi)%Q as -> by ring. lra.
Qed.

(** The mean of values between [lo] and [hi] lies between [lo] and [hi]. *)
Lemma mean_bounds (lo hi : Q) (xs : list Q) :
  xs ≠ [] → Forall (fun x => (lo <= x)%Q ∧ (x <= hi)%Q) xs →
  (lo <= Qsum xs / py_len xs)%Q ∧ (Qsum xs / py_len xs <= hi)%Q.
Proof.
  intros Hne Hall. pose proof (py_len_pos xs Hne) as Hlen.
  destruct (Qsum_bounds lo hi xs Hall) as [H1 H2]. split.
  - apply Qle_shift_div_l; [done|]. lra.
  - apply Qle_shift_div_r; [done|]. lra.
Qed.

Lemma weighted_sum_bounds (subjs : list SubjectInfo) :
  Forall valid_subject subjs →
  (0 <= Qsum (map weighted_score subjs))%Q ∧
  (Qsum (map weighted_score subjs) <= 10 * Qsum (map (fun s => inject_Z (weight s)) subjs))%Q.
Proof.
  induction 1 as [|s l Hs _ [IH1 IH2]]; simpl.
  - split; discriminate.
  - pose proof (weight_ge_1 s Hs) as Hw. destruct Hs as (H0 & H10 & _).
    unfold weighted_score at 1 3.
    assert (0 <= score s * inject_Z (weight s))%Q by (apply Qmult_le_0_compat; lra).
    assert (score s * inject_Z (weight s) <= 10 * inject_Z (weight s))%Q
      by (apply Qmult_le_compat_r; lra).
    split; lra.
Qed.

Lemma round2_between (x : Q) : (0 <= x)%Q → (x <= 10)%Q → (0 <= round2 x)%Q ∧ (round2 x <= 10)%Q.
Proof.
  intros H0 H10. split; [|by apply round2_le_10].
  apply round2_mono in H0. assert (round2 0 == 0)%Q as E by by vm_compute. lra.
Qed.

Lemma gpa_bounds (r : AcademicRecord) :
  Forall valid_subject (subjects r) →
  ∃ g gw : Q,
    simple_gpa r = Ok g ∧ weighted_gpa r = Ok gw ∧
    (0 <= g)%Q ∧ (g <= 10)%Q ∧ (0 <= gw)%Q ∧ (gw <= 10)%Q.
Proof.
  intros Hv. destruct (subjects r) as [|s l] eqn:E.
  - exists 0%Q, 0%Q. unfold simple_gpa, weighted_gpa. rewrite E. by split_and!.
  - assert (subjects r ≠ []) as Hne by by rewrite E.
    rewrite <- E in Hv.
    rewrite simple_gpa_nonempty, weighted_gpa_nonempty by done.
    do 2 eexists. split; [done|]. split; [done|].
    assert (Forall (fun x => (0 <= x)%Q ∧ (x <= 10)%Q) (map score (subjects r))) as Hs.
    { rewrite Forall_map. eapply Forall_impl; [exact Hv|]. by intros x (? & ? & _). }
    destruct (mean_bounds 0 10 (map score (subjects r))) as [Hm0 Hm10]; [by rewrite E|done|].
    assert (py_len (map score (subjects r)) = py_len (subjects r)) as Hlen
      by (unfold py_len; by rewrite length_map).
    rewrite Hlen in Hm0, Hm10. rewrite <- py_sum_Qsum in Hm0, Hm10.
    destruct (round2_between _ Hm0 Hm10) as [? ?].
    pose proof (total_weights_pos (subjects r) Hne Hv) as Hw.
    destruct (weighted_sum_bounds (subjects r) Hv) as [Hw0 Hw10].
    pose proof (py_sum_Qsum (map weighted_score (subjects r))) as Ea.
    pose proof (py_sum_Qsum (map (fun s => inject_Z (weight s)) (subjects r))) as Eb.
    assert (0 <= py_sum (map weighted_score (subjects r))
                 / py_sum (map (fun s => inject_Z (weight s)) (subjects r)))%Q as Hq0
      by (apply Qle_shift_div_l; lra).
    assert (py_sum (map weighted_score (subjects r))
            / py_sum (map (fun s => inject_Z (weight s)) (subjects r)) <= 10)%Q as Hq10
      by (apply Qle_shift_div_r; lra).
    destruct (round2_between _ Hq0 Hq10) as [? ?].
    by split_and!.
Qed.

(** X3.  For validated subject entries both grade point averages are
    computed without raising and lie on the scale from 0 to 10. *)
Theorem gpa_within_scale (r : AcademicRecord) :
  Forall valid_subject (subjects r) →
  ∃ g gw : Q,
    simple_gpa r = Ok g ∧ weighted_gpa r = Ok gw ∧
    (0 <= g)%Q ∧ (g <= 10)%Q ∧ (0 <= gw)%Q ∧ (gw <= 10)%Q.
Proof. apply gpa_bounds. Qed.

Lemma gpa_within_scale_witness :
  ∃ g gw : Q,
    simple_gpa (sample_record "a3f09c1b77e2" tied_subjects) = Ok g ∧
    weighted_gpa (sample_record "a3f09c1b77e2" tied_subjects) = Ok gw ∧
    (0 <= g)%Q ∧ (g <= 10)%Q ∧ (0 <= gw)%Q ∧ (gw <= 10)%Q.
Proof.
  apply (gpa_within_scale (sample_record "a3f09c1b77e2" tied_subjects)).
  apply all_accepted_valid. reflexivity.
Defined.

Lemma level_of_cases (x : Q) :
  (level_of x = OUTSTANDING ↔ (9 <= x)%Q) ∧
  (level_of x = EXCELLENT ↔ (8 <= x)%Q ∧ (x < 9)%Q) ∧
  (level_of x = GOOD ↔ (65 # 10 <= x)%Q ∧ (x < 8)%Q) ∧
  (level_of x = AVERAGE ↔ (5 <= x)%Q ∧ (x < 65 # 10)%Q) ∧
  (level_of x = WEAK ↔ (35 # 10 <= x)%Q ∧ (x < 5)%Q) ∧
  (level_of x = POOR ↔ (x < 35 # 10)%Q).
Proof.
  unfold level_of, GradeLevel_members. simpl List.find. unfold min_score.
  destruct (Qle_bool 9 x) eqn:E9;
    [apply Qle_bool_iff in E9; split_and!; split; try done; intros; exfalso; lra|].
  destruct (Qle_bool 8 x) eqn:E8;
    [apply Qle_bool_iff in E8; apply Qle_bool_false in E9;
     split_and!; split; try done; intros; exfalso; lra|].
  destruct (Qle_bool (65 # 10) x) eqn:E65;
    [apply Qle_bool_iff in E65; apply Qle_bool_false in E8;
     split_and!; split; try done; intros; exfalso; lra|].
  destruct (Qle_bool 5 x) eqn:E5;
    [apply Qle_bool_iff in E5; apply Qle_bool_false in E65;
     split_and!; split; try done; intros; exfalso; lra|].
  destruct (Qle_bool (35 # 10) x) eqn:E35;
    [apply Qle_bool_iff in E35; apply Qle_bool_false in E5;
     split_and!; split; try done; intros; exfalso; lra|].
  apply Qle_bool_false in E35.
  destruct (Qle_bool 0 x); split_and!; split; try done; intros; exfalso; lra.
Qed.

(** X4.  The grade level of a number is decided by the bands
    [9, ∞), [8, 9), [6.5, 8), [5, 6.5), [3.5, 5) and (−∞, 3.5): the 0.0
    threshold of POOR plays no role, anything below 3.5 (also below 0,
    where the loop falls through) is POOR. *)
Theorem level_of_bands (x : Q) :
  (level_of x = OUTSTANDING ↔ (9 <= x)%Q) ∧
  (level_of x = EXCELLENT ↔ (8 <= x)%Q ∧ (x < 9)%Q) ∧
  (level_of x = GOOD ↔ (65 # 10 <= x)%Q ∧ (x < 8)%Q) ∧
  (level_of x = AVERAGE ↔ (5 <= x)%Q ∧ (x < 65 # 10)%Q) ∧
  (level_of x = WEAK ↔ (35 # 10 <= x)%Q ∧ (x < 5)%Q) ∧
  (level_of x = POOR ↔ (x < 35 # 10)%Q).
Proof. apply level_of_cases. Qed.

(** ** Further properties of the statistics engine *)

Lemma count_if_cons (p : Q → bool) (x : Q) (xs : list Q) :
  (count_if p (x :: xs) == (if p x then 1 else 0) + count_if p xs)%Q.
Proof.
  unfold count_if. rewrite !py_sum_Qsum. simpl. destruct (p x); simpl; lra.
Qed.



Section StatisticsDictionary.

Variable py_sqrt : Q → Q.

(** The whole dictionary returned for a non-empty subject list. *)
Lemma calculate_statistics_dict (subjs : list SubjectInfo) :
  subjs ≠ [] →
  ∃ (median variance std_dev spread : Q) (lo hi : SubjectInfo),
    statistics_median (map score subjs) = Ok median ∧
    first_lowest subjs lo ∧ first_highest subjs hi ∧
    (spread = 0%Q ∨
     ((0 < py_sum (map score subjs) / py_len (map score subjs))%Q ∧
      spread = (py_sqrt variance / (py_sum (map score subjs) / py_len (map score subjs))
                * 100)%Q)) ∧
    calculate_statistics py_sqrt subjs = Ok (list_to_map [
      ("count", PyNum (py_len (map score subjs)));
      ("mean", PyNum (py_sum (map score subjs) / py_len (map score subjs))%Q);
      ("median", PyNum median);
      ("variance", PyNum variance);
      ("std_dev", PyNum std_dev);
      ("min", PyNum (score lo));
      ("max", PyNum (score hi));
      ("range", PyNum (score hi - score lo)%Q);
      ("min_subject", PyStr (name lo));
      ("max_subject", PyStr (name hi));
      ("excellent_count", PyNum (count_if (fun s => Qle_bool 9 s) (map score subjs)));
      ("good_count",
        PyNum (count_if (fun s => Qle_bool 8 s && Qlt_bool s 9) (map score subjs)));
      ("average_count",
        PyNum (count_if (fun s => Qle_bool 5 s && Qlt_bool s 8) (map score subjs)));
      ("poor_count", PyNum (count_if (fun s => Qlt_bool s 5) (map score subjs)));
      ("excellence_rate",
        PyNum (count_if (fun s => Qle_bool 8 s) (map score subjs)
               / py_len (map score subjs) * 100)%Q);
      ("pass_rate",
        PyNum (count_if (fun s => Qle_bool 5 s) (map score subjs)
               / py_len (map score subjs) * 100)%Q);
      ("consistency_score", PyNum (100 - spread)%Q)
    ]).
Proof.
  intros Hne. destruct subjs as [|s0 rest]; [done|].
  assert (map score (s0 :: rest) ≠ []) as Hne' by done.
  pose proof (py_len_pos _ Hne') as Hlen.
  destruct (statistics_median_ok _ Hne') as [median Hmed].
  unfold calculate_statistics.
  rewrite !statistics_mean_ok, Hmed by done.
  rewrite !py_div_ok by lra.
  rewrite py_min_map, py_max_map, py_min_cons, py_max_cons.
  pose proof (py_min_first_lowest s0 rest) as Hlo.
  pose proof (py_max_first_highest s0 rest) as Hhi.
  destruct (1 <? length (map score (s0 :: rest)))%nat eqn:En.
  - apply Nat.ltb_lt in En.
    destruct (statistics_variance_ok _ En) as (v & Hv & Hvs).
    rewrite (statistics_stdev_ok py_sqrt _ _ Hv), Hv.
    unfold mbind, result_bind.
    destruct (Qlt_bool 0 _) eqn:Em.
    + apply Qlt_bool_true in Em. rewrite py_div_ok by lra.
      exists median, v, (py_sqrt v). eexists. exists (min_from score s0 rest), (max_from score s0 rest).
      split_and!; [done..| |reflexivity]. right. by split.
    + exists median, v, (py_sqrt v), 0%Q, (min_from score s0 rest), (max_from score s0 rest).
      split_and!; [done..| |reflexivity]. by left.
  - unfold mbind, result_bind.
    exists median, 0%Q, 0%Q, 0%Q, (min_from score s0 rest), (max_from score s0 rest).
    split_and!; [done..| |reflexivity]. by left.
Qed.

End StatisticsDictionary.









(** ** Further properties of the insight generator *)

Section InsightFacts.

Variable py_sqrt : Q → Q.

(** On the statistics of a non-empty validated record no rule raises, and
    the five rules contribute independently, in order. *)
Lemma generate_insights_on_statistics (r : AcademicRecord) :
  subjects r ≠ [] → Forall valid_subject (subjects r) →
  ∃ (stats : gmap string pyval) (g c e : Q) (lo hi : SubjectInfo),
    calculate_statistics py_sqrt (subjects r) = Ok stats ∧
    weighted_gpa r = Ok g ∧
    stats !! "consistency_score" = Some (PyNum c) ∧
    stats !! "excellence_rate" = Some (PyNum e) ∧
    first_lowest (subjects r) lo ∧ first_highest (subjects r) hi ∧
    generate_insights stats r = Ok (insights_by_rule g c e lo hi).
Proof.
  intros Hne Hv.
  destruct (calculate_statistics_dict py_sqrt (subjects r) Hne)
    as (median & variance & std_dev & spread & lo & hi & _ & Hlo & Hhi & _ & Hcalc).
  destruct (weighted_gpa_total r Hv) as (g & Hg & _).
  do 6 eexists. split; [exact Hcalc|].
  split_and!; [exact Hg|reflexivity|reflexivity|exact Hlo|exact Hhi|].
  unfold generate_insights. rewrite Hg. unfold mbind, result_bind.
  match goal with |- context [dict_get "consistency_score" _ ?d] =>
    change (dict_get "consistency_score" (PyNum 0) d) with (PyNum (100 - spread)%Q);
    change (dict_get "max" PyNone d) with (PyNum (score hi));
    change (dict_get "max_subject" PyNone d) with (PyStr (name hi));
    change (dict_get "min" PyNone d) with (PyNum (score lo));
    change (dict_get "min_subject" PyNone d) with (PyStr (name lo))
  end.
  match goal with |- context [dict_get "excellence_rate" _ ?d] =>
    set (e := dict_get "excellence_rate" (PyNum 0) d);
    change e with (PyNum (count_if (fun s => Qle_bool 8 s) (map score (subjects r))
                          / py_len (map score (subjects r)) * 100)%Q); clear e
  end.
  unfold insights_by_rule, py_ge, py_lt, py_num, py_eq_num, mbind, result_bind, list_append.
  set (e := (count_if (fun s => Qle_bool 8 s) (map score (subjects r))
              / py_len (map score (subjects r)) * 100)%Q).
  destruct (Qle_bool 9 g), (Qle_bool 8 g), (Qle_bool (65 # 10) g),
    (Qle_bool 90 (100 - spread)), (Qlt_bool (100 - spread) 70),
    (Qeq_bool (score hi) 10), (Qlt_bool (score lo) 5), (Qle_bool 70 e);
    reflexivity.
Qed.

End InsightFacts.

(** Deciding whether a remark occurs in a list of remarks given by cases. *)
Ltac remark_in H :=
  repeat (apply elem_of_cons in H as [H|H]);
  try (by apply elem_of_nil in H);
  unfold remark_outstanding, remark_good, remark_fair, remark_needs_improvement,
    remark_even, remark_uneven, remark_perfect, remark_weak, remark_excellence in H;
  simplify_eq.

(** X7.  For a validated record with at least one subject,
    [generate_insights] on the record's own statistics returns between one
    and five remarks; the first is the GPA remark, and it follows the
    record's grade level: OUTSTANDING, EXCELLENT and GOOD have their own
    remark, every lower level gets the "needs improvement" remark. *)
Theorem insights_begin_with_gpa_remark (py_sqrt : Q → Q) (r : AcademicRecord) :
  subjects r ≠ [] → Forall valid_subject (subjects r) →
  ∃ (stats : gmap string pyval) (tier : fstring) (rest : list fstring) (lvl : GradeLevel),
    calculate_statistics py_sqrt (subjects r) = Ok stats ∧
    generate_insights stats r = Ok (tier :: rest) ∧
    (length rest <= 4)%nat ∧
    grade_level r = Ok lvl ∧
    ((tier = remark_outstanding ∧ lvl = OUTSTANDING) ∨
     (tier = remark_good ∧ lvl = EXCELLENT) ∨
     (tier = remark_fair ∧ lvl = GOOD) ∨
     (tier = remark_needs_improvement ∧ (lvl = AVERAGE ∨ lvl = WEAK ∨ lvl = POOR))).
Proof.
  intros Hne Hv.
  destruct (generate_insights_on_statistics py_sqrt r Hne Hv)
    as (stats & g & c & e & lo & hi & Hcalc & Hg & _ & _ & _ & _ & Hins).
  unfold insights_by_rule in Hins. simpl app in Hins.
  eexists stats, _, _, (level_of g). split; [exact Hcalc|]. split; [exact Hins|].
  split.
  { destruct (Qle_bool 90 c), (Qlt_bool c 70), (Qeq_bool (score hi) 10),
      (Qlt_bool (score lo) 5), (Qle_bool 70 e); simpl; lia. }
  split; [by unfold grade_level; rewrite Hg|].
  destruct (level_of_cases g) as (H9 & H8 & H65 & H5 & H35 & H0).
  destruct (Qle_bool 9 g) eqn:E9.
  { left. split; [done|]. apply H9. by apply Qle_bool_iff. }
  apply Qle_bool_false in E9.
  destruct (Qle_bool 8 g) eqn:E8.
  { right; left. split; [done|]. apply H8. apply Qle_bool_iff in E8. by split. }
  apply Qle_bool_false in E8.
  destruct (Qle_bool (65 # 10) g) eqn:E65.
  { right; right; left. split; [done|]. apply H65. apply Qle_bool_iff in E65. by split. }
  apply Qle_bool_false in E65.
  right; right; right. split; [done|].
  destruct (Qlt_le_dec g 5) as [L5|L5]; [|left; apply H5; by split].
  destruct (Qlt_le_dec g (35 # 10)) as [L35|L35]; [right; right; by apply H0|].
  right; left. apply H35. by split.
Qed.

Lemma insights_begin_with_gpa_remark_witness :
  ∃ (stats : gmap string pyval) (tier : fstring) (rest : list fstring) (lvl : GradeLevel),
    calculate_statistics sqrt_thousandths
      (subjects (sample_record "a3f09c1b77e2" three_subjects)) = Ok stats ∧
    generate_insights stats (sample_record "a3f09c1b77e2" three_subjects) = Ok (tier :: rest) ∧
    (length rest <= 4)%nat ∧
    grade_level (sample_record "a3f09c1b77e2" three_subjects) = Ok lvl ∧
    ((tier = remark_outstanding ∧ lvl = OUTSTANDING) ∨
     (tier = remark_good ∧ lvl = EXCELLENT) ∨
     (tier = remark_fair ∧ lvl = GOOD) ∨
     (tier = remark_needs_improvement ∧ (lvl = AVERAGE ∨ lvl = WEAK ∨ lvl = POOR))).
Proof.
  apply (insights_begin_with_gpa_remark sqrt_thousandths
           (sample_record "a3f09c1b77e2" three_subjects)).
  - discriminate.
  - apply all_accepted_valid. reflexivity.
Defined.

(** X8.  On the record's own statistics the perfect-score remark appears
    exactly when the highest score is 10, and then names the first subject
    with that score; the "prioritise" remark appears exactly when the
    lowest score is below 5, and then names the first subject with the
    lowest score. *)
Theorem perfect_and_weak_remarks (py_sqrt : Q → Q) (r : AcademicRecord) :
  subjects r ≠ [] → Forall valid_subject (subjects r) →
  ∃ (stats : gmap string pyval) (insights : list fstring) (lo hi : SubjectInfo),
    calculate_statistics py_sqrt (subjects r) = Ok stats ∧
    generate_insights stats r = Ok insights ∧
    first_lowest (subjects r) lo ∧ first_highest (subjects r) hi ∧
    (∀ v, remark_perfect v ∈ insights ↔ (score hi == 10)%Q ∧ v = PyStr (name hi)) ∧
    (∀ v, remark_weak v ∈ insights ↔ (score lo < 5)%Q ∧ v = PyStr (name lo)).
Proof.
  intros Hne Hv.
  destruct (generate_insights_on_statistics py_sqrt r Hne Hv)
    as (stats & g & c & e & lo & hi & Hcalc & Hg & _ & _ & Hlo & Hhi & Hins).
  exists stats, (insights_by_rule g c e lo hi), lo, hi.
  split_and!; [done..| |]; intros v; unfold insights_by_rule.
  - destruct (Qeq_bool (score hi) 10) eqn:Ehi.
    + apply Qeq_bool_iff in Ehi.
      split; [|intros [_ ->]; rewrite !elem_of_app; right; right; left; apply list_elem_of_here].
      intros H. split; [done|].
      destruct (Qle_bool 9 g), (Qle_bool 8 g), (Qle_bool (65 # 10) g), (Qle_bool 90 c),
        (Qlt_bool c 70), (Qlt_bool (score lo) 5), (Qle_bool 70 e);
        simpl in H; remark_in H; done.
    + apply Qeq_bool_neq in Ehi. split; [|by intros [? _]].
      intros H. exfalso.
      destruct (Qle_bool 9 g), (Qle_bool 8 g), (Qle_bool (65 # 10) g), (Qle_bool 90 c),
        (Qlt_bool c 70), (Qlt_bool (score lo) 5), (Qle_bool 70 e);
        simpl in H; remark_in H.
  - destruct (Qlt_bool (score lo) 5) eqn:Elo.
    + apply Qlt_bool_true in Elo.
      split; [|intros [_ ->]; rewrite !elem_of_app; right; right; right; left;
               apply list_elem_of_here].
      intros H. split; [done|].
      destruct (Qle_bool 9 g), (Qle_bool 8 g), (Qle_bool (65 # 10) g), (Qle_bool 90 c),
        (Qlt_bool c 70), (Qeq_bool (score hi) 10), (Qle_bool 70 e);
        simpl in H; remark_in H; done.
    + apply Qlt_bool_false in Elo. split; [|intros [? _]; exfalso; lra].
      intros H. exfalso.
      destruct (Qle_bool 9 g), (Qle_bool 8 g), (Qle_bool (65 # 10) g), (Qle_bool 90 c),
        (Qlt_bool c 70), (Qeq_bool (score hi) 10), (Qle_bool 70 e);
        simpl in H; remark_in H.
Qed.

Lemma perfect_and_weak_remarks_witness :
  ∃ (stats : gmap string pyval) (insights : list fstring) (lo hi : SubjectInfo),
    calculate_statistics sqrt_thousandths
      (subjects (sample_record "a3f09c1b77e2" three_subjects)) = Ok stats ∧
    generate_insights stats (sample_record "a3f09c1b77e2" three_subjects) = Ok insights ∧
    first_lowest (subjects (sample_record "a3f09c1b77e2" three_subjects)) lo ∧
    first_highest (subjects (sample_record "a3f09c1b77e2" three_subjects)) hi ∧
    (∀ v, remark_perfect v ∈ insights ↔ (score hi == 10)%Q ∧ v = PyStr (name hi)) ∧
    (∀ v, remark_weak v ∈ insights ↔ (score lo < 5)%Q ∧ v = PyStr (name lo)).
Proof.
  apply (perfect_and_weak_remarks sqrt_thousandths
           (sample_record "a3f09c1b77e2" three_subjects)).
  - discriminate.
  - apply all_accepted_valid. reflexivity.
Defined.

(** ** Further properties of the performance projector *)

(** X9.  The recommendation follows the grade level: 'Duy trì' exactly
    for OUTSTANDING and EXCELLENT records, 'Cải thiện' for every other
    level. *)
Theorem recommendation_follows_grade_level (py_sqrt : Q → Q) (r : AcademicRecord) :
  Forall valid_subject (subjects r) →
  ∃ (d : gmap string pyval) (lvl : GradeLevel) (advice : string),
    predict_performance py_sqrt r = Ok d ∧
    grade_level r = Ok lvl ∧
    d !! "recommendation" = Some (PyStr advice) ∧
    (advice = "Duy trì" ∨ advice = "Cải thiện") ∧
    (advice = "Duy trì" ↔ lvl = OUTSTANDING ∨ lvl = EXCELLENT).
Proof.
  intros Hv.
  destruct (calculate_statistics_total py_sqrt (subjects r)) as (stats & c & Hstats & Hc & _).
  destruct (weighted_gpa_total r Hv) as (g & Hg & _).
  destruct (predict_performance_ok py_sqrt r stats g c Hstats Hg Hc)
    as (d & Hd & _ & _ & _ & _ & Hrec & _).
  exists d, (level_of g). eexists.
  split; [exact Hd|]. split; [by unfold grade_level; rewrite Hg|]. split; [exact Hrec|].
  destruct (level_of_cases g) as (H9 & H8 & _).
  destruct (Qle_bool 8 g) eqn:E8.
  - apply Qle_bool_iff in E8. split; [by left|]. split; [intros _|done].
    destruct (Qlt_le_dec g 9); [right; apply H8; by split|left; by apply H9].
  - apply Qle_bool_false in E8. split; [by right|]. split; [done|].
    intros [Hl|Hl]; exfalso; [apply H9 in Hl|apply H8 in Hl]; lra.
Qed.

Lemma recommendation_follows_grade_level_witness :
  ∃ (d : gmap string pyval) (lvl : GradeLevel) (advice : string),
    predict_performance sqrt_thousandths (sample_record "a3f09c1b77e2" art_only) = Ok d ∧
    grade_level (sample_record "a3f09c1b77e2" art_only) = Ok lvl ∧
    d !! "recommendation" = Some (PyStr advice) ∧
    (advice = "Duy trì" ∨ advice = "Cải thiện") ∧
    (advice = "Duy trì" ↔ lvl = OUTSTANDING ∨ lvl = EXCELLENT).
Proof.
  apply (recommendation_follows_grade_level sqrt_thousandths
           (sample_record "a3f09c1b77e2" art_only)).
  apply all_accepted_valid. reflexivity.
Defined.

Lemma sqrt_thousandths_nonneg (q : Q) : (0 <= sqrt_thousandths q)%Q.
Proof.
  unfold sqrt_thousandths. apply Qle_shift_div_l; [done|].
  assert (0 <= Z.sqrt (Qfloor (q * 1000000)))%Z as H by apply Z.sqrt_nonneg.
  rewrite Zle_Qle in H. change (inject_Z 0) with 0%Q in H. lra.
Qed.

(** X10.  With a square root that is never negative, the consistency score
    of a validated record is at most 100 and the reported improvement
    potential is at most 3. *)
Theorem improvement_potential_at_most_3 (py_sqrt : Q → Q) (r : AcademicRecord) :
  (∀ x, (0 <= py_sqrt x)%Q) →
  Forall valid_subject (subjects r) →
  ∃ (d stats : gmap string pyval) (c potential : Q),
    predict_performance py_sqrt r = Ok d ∧
    calculate_statistics py_sqrt (subjects r) = Ok stats ∧
    dict_get "consistency_score" (PyNum 0) stats = PyNum c ∧
    d !! "improvement_potential" = Some (PyNum potential) ∧
    (c <= 100)%Q ∧ (potential <= 3)%Q.
Proof.
  intros Hsqrt Hv.
  destruct (gpa_bounds r Hv) as (g0 & g & _ & Hg & _ & _ & Hg0 & Hg10).
  assert (∃ (stats : gmap string pyval) (c : Q),
            calculate_statistics py_sqrt (subjects r) = Ok stats ∧
            dict_get "consistency_score" (PyNum 0) stats = PyNum c ∧ (c <= 100)%Q)
    as (stats & c & Hstats & Hc & Hc100).
  { destruct (subjects r) as [|s l] eqn:E.
    - exists ∅, 0%Q. by split_and!.
    - destruct (calculate_statistics_dict py_sqrt (s :: l))
        as (median & variance & std_dev & spread & lo & hi & _ & _ & _ & Hspread & Hcalc);
        [done|].
      eexists _, (100 - spread)%Q. split; [exact Hcalc|]. split; [reflexivity|].
      destruct Hspread as [-> | [Hmean ->]]; [lra|].
      assert (0 <= py_sqrt variance
                   / (py_sum (map score (s :: l)) / py_len (map score (s :: l))))%Q
        by (apply Qle_shift_div_l; [done|]; specialize (Hsqrt variance); lra).
      lra. }
  destruct (predict_performance_ok py_sqrt r stats g c Hstats Hg Hc)
    as (d & Hd & _ & Himp & _).
  exists d, stats, c. eexists. split_and!; [done..|].
  assert ((10 - g) * (c / 100) * (3 # 10) <= 3)%Q as Hle.
  { assert (0 <= (10 - g) * (1 - c / 100))%Q as Hp
      by (apply Qmult_le_0_compat; [lra|lra_hundredths]).
    assert ((10 - g) * (c / 100) == (10 - g) - (10 - g) * (1 - c / 100))%Q as E by ring.
    rewrite E. lra. }
  apply round2_mono in Hle. assert (round2 3 == 3)%Q as E3 by by vm_compute. lra.
Qed.

Lemma improvement_potential_at_most_3_witness :
  ∃ (d stats : gmap string pyval) (c potential : Q),
    predict_performance sqrt_thousandths (sample_record "a3f09c1b77e2" three_subjects) = Ok d ∧
    calculate_statistics sqrt_thousandths
      (subjects (sample_record "a3f09c1b77e2" three_subjects)) = Ok stats ∧
    dict_get "consistency_score" (PyNum 0) stats = PyNum c ∧
    d !! "improvement_potential" = Some (PyNum potential) ∧
    (c <= 100)%Q ∧ (potential <= 3)%Q.
Proof.
  apply (improvement_potential_at_most_3 sqrt_thousandths
           (sample_record "a3f09c1b77e2" three_subjects)).
  - apply sqrt_thousandths_nonneg.
  - apply all_accepted_valid. reflexivity.
Defined.

(** ** Further properties of the record store *)

Lemma insert_subjects_effect (fault : option nat) (r : AcademicRecord)
    (subjs : list SubjectInfo) (k : nat) (c c' : Connection) (res : result unit) :
  insert_subjects fault k r subjs c = (res, c') →
  ∃ done_ : list SubjectInfo,
    working c' = insert_all (student_id (student r)) (record_id r) done_ (working c).
Proof.
  revert k c. induction subjs as [|s l IH]; intros k c H; simpl in H.
  - unfold db_ret in H. exists []. by simplify_eq.
  - unfold db_bind in H.
    destruct (execute _ _ _ c) as [[u1|e] c1] eqn:E.
    + apply execute_ok_inv in E. subst c1.
      apply IH in H as [l' Hl']. exists (s :: l'). by rewrite Hl'.
    + apply execute_raise_inv in E. exists []. by simplify_eq.
Qed.

(** The content seen through the connection after [save_record], whatever
    its outcome: nothing written, the student row and some of the subject
    rows, or all three writes. *)
Lemma save_record_cases (fault : option nat) (r : AcademicRecord) (c c' : Connection) (b : bool) :
  save_record fault r c = (b, c') →
  working c' = working c ∨
  (∃ done_ : list SubjectInfo,
     working c' = insert_all (student_id (student r)) (record_id r) done_
                    (replace_student (student_row_of r) (working c))) ∨
  (∃ row : records_row,
     ar_record_id row = record_id r ∧ ar_student_id row = student_id (student r) ∧
     working c' = replace_record row
                    (insert_all (student_id (student r)) (record_id r) (subjects r)
                       (replace_student (student_row_of r) (working c)))).
Proof.
  unfold save_record, save_record_try, db_bind, db_lift, commit.
  destruct (execute _ 0 _ c) as [[u0|e0] c0] eqn:E0.
  2:{ apply execute_raise_inv in E0. intros; simplify_eq. by left. }
  apply execute_ok_inv in E0. subst c0.
  destruct (insert_subjects _ _ _ _ _) as [[u1|e1] c1] eqn:E1.
  2:{ apply insert_subjects_effect in E1 as [l' Hl']. intros; simplify_eq.
      right; left. by exists l'. }
  apply insert_subjects_ok_inv in E1 as [_ Hw1]. simpl in Hw1.
  assert (∃ done_ : list SubjectInfo,
            working c1 = insert_all (student_id (student r)) (record_id r) done_
                           (replace_student (student_row_of r) (working c))) as Hpart
    by by exists (subjects r).
  destruct (simple_gpa r) as [sg|]; [|intros; simplify_eq; by right; left].
  destruct (weighted_gpa r) as [wg|]; [|intros; simplify_eq; by right; left].
  destruct (grade_level r) as [gl|]; [|intros; simplify_eq; by right; left].
  destruct (execute _ _ _ c1) as [[u2|e2] c2] eqn:E2.
  2:{ apply execute_raise_inv in E2. intros; simplify_eq. by right; left. }
  apply execute_ok_inv in E2. subst c2.
  case_bool_decide; intros; simplify_eq; right; right; simpl; rewrite Hw1;
    (eexists; split; [|split; [|reflexivity]]; reflexivity).
Qed.

Lemma insert_all_rows_tagged (sid rid : string) (subjs : list SubjectInfo) (db : Database) :
  students_tbl (insert_all sid rid subjs db) = students_tbl db ∧
  academic_records_tbl (insert_all sid rid subjs db) = academic_records_tbl db ∧
  ∃ rows, subjects_tbl (insert_all sid rid subjs db) = (subjects_tbl db ++ rows)%list ∧
          Forall (fun row => sj_record_id row = rid) rows ∧
          length rows = length subjs.
Proof.
  destruct (insert_all_spec sid rid subjs db) as (Hst & Har & rows & Hrows & Hall).
  split_and!; [done..|]. exists rows. split_and!; [done| |].
  - clear Hrows Hst Har. induction Hall as [|s row l rows' Hrow _ IH]; [constructor|].
    constructor; [by destruct Hrow|done].
  - symmetry. by eapply Forall2_length.
Qed.

Lemma filter_other_rows (rid rid' : string) (rows : list subjects_row) :
  rid' ≠ rid → Forall (fun row => sj_record_id row = rid) rows →
  List.filter (fun sj => bool_decide (sj_record_id sj = rid')) rows = [].
Proof.
  intros Hne Hall. apply filter_no_rows.
  eapply Forall_impl; [exact Hall|]. intros row Hrow. simpl in Hrow. congruence.
Qed.

(** [load_record_by_id] only looks at the summary row, the row of its
    student and the subject rows tagged with the record id. *)
Lemma load_record_by_id_ext (c c' : Connection) (rid : string) :
  academic_records_tbl (working c') !! rid = academic_records_tbl (working c) !! rid →
  (∀ ar, academic_records_tbl (working c) !! rid = Some ar →
         students_tbl (working c') !! ar_student_id ar
         = students_tbl (working c) !! ar_student_id ar) →
  List.filter (fun sj => bool_decide (sj_record_id sj = rid)) (subjects_tbl (working c'))
  = List.filter (fun sj => bool_decide (sj_record_id sj = rid)) (subjects_tbl (working c)) →
  load_record_by_id c' rid = load_record_by_id c rid.
Proof.
  intros Har Hst Hsj. unfold load_record_by_id, load_record_try. rewrite Har.
  destruct (academic_records_tbl (working c) !! rid) as [ar|] eqn:E; [|done].
  rewrite (Hst ar eq_refl). destruct (students_tbl (working c) !! ar_student_id ar); [|done].
  by rewrite Hsj.
Qed.

(** X11.  Whatever its outcome, [save_record] leaves every other record
    of every other student as [load_record_by_id] returned it before the
    call (in particular a record that could not be loaded still cannot). *)
Theorem save_record_leaves_other_records (fault : option nat) (r : AcademicRecord)
    (c c' : Connection) (b : bool) (rid : string) :
  rid ≠ record_id r →
  (∀ ar, academic_records_tbl (working c) !! rid = Some ar →
         ar_student_id ar ≠ student_id (student r)) →
  save_record fault r c = (b, c') →
  load_record_by_id c' rid = load_record_by_id c rid.
Proof.
  intros Hrid Hsid Hsave.
  apply save_record_cases in Hsave as [Hw|[[l' Hw]|(row & Hrow & _ & Hw)]].
  - unfold load_record_by_id, load_record_try. by rewrite Hw.
  - destruct (insert_all_rows_tagged (student_id (student r)) (record_id r) l'
                (replace_student (student_row_of r) (working c)))
      as (Hst & Har & rows & Hrows & Htag & _).
    apply load_record_by_id_ext; rewrite Hw.
    + by rewrite Har.
    + intros ar Har'. rewrite Hst. simpl. apply lookup_insert_ne.
      intros Heq. by apply (Hsid ar Har').
    + rewrite Hrows. simpl. rewrite List.filter_app, (filter_other_rows _ _ _ Hrid Htag).
      by rewrite app_nil_r.
  - destruct (insert_all_rows_tagged (student_id (student r)) (record_id r) (subjects r)
                (replace_student (student_row_of r) (working c)))
      as (Hst & Har & rows & Hrows & Htag & _).
    apply load_record_by_id_ext; rewrite Hw; simpl.
    + rewrite Har. simpl. rewrite Hrow. by apply lookup_insert_ne.
    + intros ar Har'. rewrite Hst. simpl. apply lookup_insert_ne.
      intros Heq. by apply (Hsid ar Har').
    + rewrite Hrows. simpl. rewrite List.filter_app, (filter_other_rows _ _ _ Hrid Htag).
      by rewrite app_nil_r.
Qed.

Lemma save_record_leaves_other_records_witness :
  load_record_by_id
    (snd (save_record (Some 2%nat) (sample_record "a3f09c1b77e2" three_subjects)
            (snd (save_record None (other_record "b41d22e09f10" art_only)
                    initialize_database))))
    "b41d22e09f10"
  = load_record_by_id
      (snd (save_record None (other_record "b41d22e09f10" art_only) initialize_database))
      "b41d22e09f10".
Proof.
  apply (save_record_leaves_other_records (Some 2%nat)
           (sample_record "a3f09c1b77e2" three_subjects)
           (snd (save_record None (other_record "b41d22e09f10" art_only) initialize_database))
           _ false "b41d22e09f10").
  - discriminate.
  - intros ar Har. vm_compute in Har. injection Har as <-. discriminate.
  - reflexivity.
Defined.

(** X12.  [save_record] changes the durable content only when it returns
    [True], and then the durable content is exactly what the connection
    sees; a call that returns [False] commits nothing. *)
Theorem save_record_commit_discipline (fault : option nat) (r : AcademicRecord)
    (c c' : Connection) (b : bool) :
  save_record fault r c = (b, c') →
  (b = true → committed c' = working c') ∧ (b = false → committed c' = committed c).
Proof.
  intros Hsave. split; intros ->.
  - by apply save_record_ok_inv in Hsave as (_ & _ & _ & _ & _ & _ & ? & _).
  - by apply save_record_failure_committed in Hsave.
Qed.

Lemma save_record_commit_discipline_witness :
  (false = true →
   committed (snd (save_record (Some 2%nat) (sample_record "a3f09c1b77e2" three_subjects)
                     initialize_database))
   = working (snd (save_record (Some 2%nat) (sample_record "a3f09c1b77e2" three_subjects)
                     initialize_database))) ∧
  (false = false →
   committed (snd (save_record (Some 2%nat) (sample_record "a3f09c1b77e2" three_subjects)
                     initialize_database))
   = committed initialize_database).
Proof.
  apply (save_record_commit_discipline (Some 2%nat)
           (sample_record "a3f09c1b77e2" three_subjects) initialize_database).
  reflexivity.
Defined.

Lemma execute_no_fault (k : nat) (stmt : Database → Database) (c : Connection) :
  execute None k stmt c = (Ok (), {| committed := committed c; working := stmt (working c) |}).
Proof. reflexivity. Qed.

Lemma insert_subjects_no_fault (r : AcademicRecord) (subjs : list SubjectInfo) (k : nat)
    (c : Connection) :
  ∃ c', insert_subjects None k r subjs c = (Ok (), c').
Proof.
  revert k c. induction subjs as [|s l IH]; intros k c; simpl.
  - by eexists.
  - unfold db_bind. rewrite execute_no_fault. apply IH.
Qed.

(** X13.  When no statement fails, [save_record] of a record with
    validated subject entries returns [True], whatever the store holds. *)
Theorem save_record_succeeds (r : AcademicRecord) (c : Connection) :
  Forall valid_subject (subjects r) →
  fst (save_record None r c) = true.
Proof.
  intros Hv. destruct (gpa_bounds r Hv) as (sg & wg & Hsg & Hwg & _).
  unfold save_record, save_record_try, db_bind, db_lift, commit.
  rewrite execute_no_fault.
  match goal with |- context [insert_subjects None 1 r (subjects r) ?c0] =>
    destruct (insert_subjects_no_fault r (subjects r) 1 c0) as [c1 ->] end.
  unfold grade_level. rewrite Hsg, Hwg. reflexivity.
Qed.

Lemma save_record_succeeds_witness :
  fst (save_record None (sample_record "a3f09c1b77e2" tied_subjects)
         (snd (save_record (Some 2%nat) (sample_record "a3f09c1b77e2" three_subjects)
                 initialize_database))) = true.
Proof.
  apply (save_record_succeeds (sample_record "a3f09c1b77e2" tied_subjects)).
  apply all_accepted_valid. reflexivity.
Defined.

(** X14.  After a successful [save_record], [get_student_info] for the
    record's student id returns the student metadata of that record,
    replacing whatever was stored for the id before. *)
Theorem get_student_info_after_save (fault : option nat) (r : AcademicRecord)
    (c c' : Connection) :
  student_id_matches (student_id (student r)) = true →
  save_record fault r c = (true, c') →
  get_student_info c' (student_id (student r)) = Some (student r).
Proof.
  intros Hid Hsave.
  apply save_record_ok_inv in Hsave as (sg & wg & gl & _ & _ & _ & _ & Hw).
  destruct (insert_all_spec (student_id (student r)) (record_id r) (subjects r)
              (replace_student (student_row_of r) (working c))) as (Hst & _).
  unfold get_student_info. rewrite Hw. simpl. rewrite Hst. simpl.
  rewrite lookup_insert_eq. unfold StudentInfo_post_init. simpl. rewrite Hid. simpl.
  f_equal. by destruct (student r).
Qed.

Lemma get_student_info_after_save_witness :
  get_student_info
    (snd (save_record None (sample_record "a3f09c1b77e2" three_subjects) initialize_database))
    "HS2024001"
  = Some sample_student.
Proof.
  apply (get_student_info_after_save None (sample_record "a3f09c1b77e2" three_subjects)
           initialize_database).
  - reflexivity.
  - reflexivity.
Defined.

Lemma build_subjects_valid (rows : list subjects_row) (subjs : list SubjectInfo) :
  build_subjects rows = Ok subjs → Forall valid_subject subjs.
Proof.
  revert subjs. induction rows as [|row rows IH]; intros subjs H; simpl in H.
  - by simplify_eq.
  - destruct (SubjectInfo_post_init _) as [s|] eqn:E; [|done]. simpl in H.
    destruct (build_subjects rows) as [ss|]; [|done]. simpl in H. simplify_eq.
    constructor; [|by apply IH].
    apply post_init_valid. rewrite <- E. f_equal. by apply post_init_ok_inv in E.
Qed.

(** X15.  Whatever the store holds, a record returned by
    [load_record_by_id] carries the requested id and is validated: its
    student id matches the id pattern and every subject has a score in
    [0,10] and a weight in {1,2,3}.  Without a summary row for the id the
    result is [None]. *)
Theorem loaded_record_is_valid (c : Connection) (rid : string) :
  (academic_records_tbl (working c) !! rid = None → load_record_by_id c rid = None) ∧
  (∀ r, load_record_by_id c rid = Some r → record_id r = rid ∧ valid_record r).
Proof.
  unfold load_record_by_id, load_record_try. split.
  - by intros ->.
  - intros r.
    destruct (academic_records_tbl (working c) !! rid) as [ar|]; [|done].
    destruct (students_tbl (working c) !! ar_student_id ar) as [row|]; [|done].
    unfold StudentInfo_post_init.
    destruct (student_id_matches _) eqn:Hid; [|done]. simpl.
    destruct (build_subjects _) as [subjs|] eqn:Hb; [|done]. simpl.
    intros [= <-]. split; [done|]. split; [done|]. by apply build_subjects_valid in Hb.
Qed.

Lemma loaded_record_is_valid_witness :
  (academic_records_tbl
     (working (snd (save_record None (sample_record "a3f09c1b77e2" art_only)
                      initialize_database))) !! "a3f09c1b77e2" = None →
   load_record_by_id
     (snd (save_record None (sample_record "a3f09c1b77e2" art_only) initialize_database))
     "a3f09c1b77e2" = None) ∧
  (∀ r,
     load_record_by_id
       (snd (save_record None (sample_record "a3f09c1b77e2" art_only) initialize_database))
       "a3f09c1b77e2" = Some r →
     record_id r = "a3f09c1b77e2" ∧ valid_record r).
Proof.
  apply (loaded_record_is_valid
           (snd (save_record None (sample_record "a3f09c1b77e2" art_only) initialize_database))
           "a3f09c1b77e2").
Defined.

(** *** Record summaries *)

Lemma insert_newest_first_perm (row : records_row) (rows : list records_row) :
  Permutation (insert_newest_first row rows) (row :: rows).
Proof.
  induction rows as [|r0 rest IH]; simpl; [done|].
  destruct (String.leb _ _); [done|]. rewrite IH. apply perm_swap.
Qed.

Lemma insert_newest_first_sorted (row : records_row) (rows : list records_row) :
  Sorted newer_or_equal rows → Sorted newer_or_equal (insert_newest_first row rows).
Proof.
  induction 1 as [|r0 rest Hs IH Hhd]; simpl.
  - repeat constructor.
  - destruct (String.leb (ar_created_at r0) (ar_created_at row)) eqn:E.
    + constructor; [by constructor|]. by constructor.
    + constructor; [done|].
      assert (newer_or_equal r0 row) as Hrow.
      { unfold newer_or_equal. destruct (String.leb_total (ar_created_at r0) (ar_created_at row));
          congruence. }
      destruct rest as [|r1 rest']; simpl; [by constructor|].
      destruct (String.leb (ar_created_at r1) (ar_created_at row)); constructor; [done|].
      by inversion Hhd.
Qed.

Lemma newest_first_perm (rows : list records_row) :
  Permutation (foldr insert_newest_first [] rows) rows.
Proof.
  induction rows as [|r0 rest IH]; simpl; [done|].
  rewrite insert_newest_first_perm. by constructor.
Qed.

Lemma newest_first_sorted (rows : list records_row) :
  Sorted newer_or_equal (foldr insert_newest_first [] rows).
Proof.
  induction rows as [|r0 rest IH]; simpl; [constructor|].
  by apply insert_newest_first_sorted.
Qed.

Lemma get_student_records_elem (c : Connection) (sid : string) (row : records_row) :
  row ∈ get_student_records c sid ↔
  (∃ rid, academic_records_tbl (working c) !! rid = Some row) ∧ ar_student_id row = sid.
Proof.
  unfold get_student_records. rewrite list_elem_of_In. split.
  - intros Hin. apply (Permutation_in _ (newest_first_perm _)) in Hin.
    apply filter_In in Hin as [Hin Hsid]. apply bool_decide_eq_true in Hsid.
    split; [|done]. apply in_map_iff in Hin as ([rid row'] & Heq & Hin). simpl in Heq. subst row'.
    exists rid. by apply list_elem_of_In, elem_of_map_to_list in Hin.
  - intros [[rid Hrid] Hsid].
    apply (Permutation_in _ (Permutation_sym (newest_first_perm _))).
    apply filter_In. split; [|by apply bool_decide_eq_true].
    apply in_map_iff. exists (rid, row). split; [done|].
    by apply list_elem_of_In, elem_of_map_to_list.
Qed.

(** X16.  [get_student_records] returns exactly the summary rows stored
    for the student, each row at least as new (by [created_at]) as the
    next one; after a successful [save_record] the list for the record's
    student contains the record's summary: its id, semester, exam type,
    both grade point averages, grade label, subject count and
    [created_at]. *)
Theorem get_student_records_after_save (fault : option nat) (r : AcademicRecord)
    (c c' : Connection) :
  save_record fault r c = (true, c') →
  (∃ row, row ∈ get_student_records c' (student_id (student r)) ∧ summary_of r row) ∧
  (∀ sid, Sorted newer_or_equal (get_student_records c' sid)) ∧
  (∀ sid row, row ∈ get_student_records c' sid ↔
     (∃ rid, academic_records_tbl (working c') !! rid = Some row) ∧ ar_student_id row = sid).
Proof.
  intros Hsave. split; [|split].
  - apply save_record_ok_inv in Hsave as (sg & wg & gl & Hsg & Hwg & Hgl & _ & Hw).
    exists {| ar_record_id := record_id r;
              ar_student_id := student_id (student r);
              ar_semester := semester r;
              ar_exam_type := exam_type r;
              ar_simple_gpa := sg;
              ar_weighted_gpa := wg;
              ar_grade_level := label gl;
              ar_total_subjects := Z.of_nat (length (subjects r));
              ar_created_at := created_at r |}.
    split.
    + apply get_student_records_elem. split; [|reflexivity].
      exists (record_id r). rewrite Hw. simpl. apply lookup_insert_eq.
    + unfold summary_of. simpl. split_and!; try done. by exists gl.
  - intros sid. apply newest_first_sorted.
  - intros sid row. apply get_student_records_elem.
Qed.

Lemma get_student_records_after_save_witness :
  (∃ row,
     row ∈ get_student_records
             (snd (save_record None (sample_record "a3f09c1b77e2" three_subjects)
                     initialize_database)) "HS2024001" ∧
     summary_of (sample_record "a3f09c1b77e2" three_subjects) row) ∧
  (∀ sid, Sorted newer_or_equal
            (get_student_records
               (snd (save_record None (sample_record "a3f09c1b77e2" three_subjects)
                       initialize_database)) sid)) ∧
  (∀ sid row,
     row ∈ get_student_records
             (snd (save_record None (sample_record "a3f09c1b77e2" three_subjects)
                     initialize_database)) sid ↔
     (∃ rid, academic_records_tbl
               (working (snd (save_record None (sample_record "a3f09c1b77e2" three_subjects)
                                initialize_database))) !! rid = Some row) ∧
     ar_student_id row = sid).
Proof.
  apply (get_student_records_after_save None (sample_record "a3f09c1b77e2" three_subjects)
           initialize_database).
  reflexivity.
Defined.

(** Two records of one student and one of another: the student's list is
    ordered newest first and leaves the other student's record out. *)
Example student_history :
  let c1 := snd (save_record None (sample_record "a3f09c1b77e2" three_subjects)
                   initialize_database) in
  let c2 := snd (save_record None (other_record "b41d22e09f10" art_only) c1) in
  let later := {| student := sample_student; semester := "Học kỳ II"; exam_type := "Cuối kỳ";
                  subjects := tied_subjects; created_at := "2025-05-30T10:00:00.000000";
                  record_id := "c90e13aa01b2" |} in
  let c3 := snd (save_record None later c2) in
  map ar_record_id (get_student_records c3 "HS2024001") = ["c90e13aa01b2"; "a3f09c1b77e2"].
Proof. reflexivity. Qed.

(** Saving on a store without subject rows for the record id, then
    loading, gives the record back. *)
Lemma fresh_save_then_load (fault : option nat) (r : AcademicRecord) (c c' : Connection) :
  valid_record r →
  Forall (fun row => sj_record_id row ≠ record_id r) (subjects_tbl (working c)) →
  save_record fault r c = (true, c') →
  load_record_by_id c' (record_id r) = Some r.
Proof.
  intros [Hid Hv] Hfresh Hsave.
  apply save_record_ok_inv in Hsave as (sg & wg & gl & _ & _ & _ & _ & Hw).
  destruct (insert_all_spec (student_id (student r)) (record_id r) (subjects r)
              (replace_student (student_row_of r) (working c)))
    as (Hst & _ & rows & Hrows & Hall).
  destruct (build_subjects_rows _ _ _ Hv Hall) as [Hbuild Hfilter].
  unfold load_record_by_id, load_record_try. rewrite Hw. simpl.
  rewrite lookup_insert_eq. simpl.
  rewrite Hst. simpl. rewrite lookup_insert_eq. simpl.
  unfold StudentInfo_post_init. simpl. rewrite Hid. simpl.
  rewrite Hrows. simpl. rewrite List.filter_app, (filter_no_rows _ _ Hfresh), Hfilter. simpl.
  rewrite Hbuild. simpl. f_equal. destruct r as [[] ? ? ? ? ?]; reflexivity.
Qed.

(** X17.  After a successful [save_record] of a validated record on a
    store without subject rows for its id, the stored summary agrees with
    what is recomputed from the loaded record: both grade point averages,
    the grade label and the subject count, which is also the number of
    subject rows stored for the id. *)
Theorem summary_agrees_with_loaded_record (fault : option nat) (r : AcademicRecord)
    (c c' : Connection) :
  valid_record r →
  Forall (fun row => sj_record_id row ≠ record_id r) (subjects_tbl (working c)) →
  save_record fault r c = (true, c') →
  ∃ (row : records_row) (loaded : AcademicRecord),
    academic_records_tbl (working c') !! record_id r = Some row ∧
    load_record_by_id c' (record_id r) = Some loaded ∧
    summary_of loaded row ∧
    ar_total_subjects row
    = Z.of_nat (length (List.filter (fun sj => bool_decide (sj_record_id sj = record_id r))
                          (subjects_tbl (working c')))).
Proof.
  intros Hvalid Hfresh Hsave.
  pose proof (fresh_save_then_load fault r c c' Hvalid Hfresh Hsave) as Hload.
  destruct Hvalid as [Hid Hv].
  apply save_record_ok_inv in Hsave as (sg & wg & gl & Hsg & Hwg & Hgl & _ & Hw).
  destruct (insert_all_spec (student_id (student r)) (record_id r) (subjects r)
              (replace_student (student_row_of r) (working c)))
    as (_ & _ & rows & Hrows & Hall).
  destruct (build_subjects_rows _ _ _ Hv Hall) as [_ Hfilter].
  eexists _, r. split_and!.
  - rewrite Hw. simpl. apply lookup_insert_eq.
  - exact Hload.
  - unfold summary_of. simpl. split_and!; try done. by exists gl.
  - rewrite Hw. simpl. rewrite Hrows. simpl.
    rewrite List.filter_app, (filter_no_rows _ _ Hfresh), Hfilter. simpl.
    f_equal. by eapply Forall2_length.
Qed.

Lemma summary_agrees_with_loaded_record_witness :
  ∃ (row : records_row) (loaded : AcademicRecord),
    academic_records_tbl
      (working (snd (save_record None (sample_record "a3f09c1b77e2" three_subjects)
                       initialize_database))) !! "a3f09c1b77e2" = Some row ∧
    load_record_by_id
      (snd (save_record None (sample_record "a3f09c1b77e2" three_subjects)
              initialize_database)) "a3f09c1b77e2" = Some loaded ∧
    summary_of loaded row ∧
    ar_total_subjects row
    = Z.of_nat (length (List.filter (fun sj => bool_decide (sj_record_id sj = "a3f09c1b77e2"))
                          (subjects_tbl
                             (working (snd (save_record None
                                              (sample_record "a3f09c1b77e2" three_subjects)
                                              initialize_database)))))).
Proof.
  apply (summary_agrees_with_loaded_record None
           (sample_record "a3f09c1b77e2" three_subjects) initialize_database).
  - split; [reflexivity|]. apply all_accepted_valid. reflexivity.
  - constructor.
  - reflexivity.
Defined.

(** *** Invariants of the store *)

Lemma StronglySorted_snoc (xs : list Z) (x : Z) :
  StronglySorted Z.lt xs → Forall (fun y => (y < x)%Z) xs → StronglySorted Z.lt (xs ++ [x]).
Proof.
  induction 1 as [|y ys Hs IH Hy]; intros Hall; simpl.
  - repeat constructor.
  - apply Forall_cons in Hall as [Hyx Hall]. constructor; [by apply IH|].
    rewrite Forall_app, Forall_singleton. by split.
Qed.

Lemma replace_student_consistent (row : students_row) (db : Database) :
  store_consistent db → store_consistent (replace_student row db).
Proof.
  intros (Hst & Har & Hsj & Hids). split; [|split; [|split]]; simpl.
  - intros sid row' Hl. apply lookup_insert_Some in Hl as [[<- <-]|[_ Hl]]; [done|by apply Hst].
  - intros rid row' Hl. destruct (Har rid row' Hl) as [? Hs]. split; [done|].
    apply lookup_insert_is_Some. destruct (decide (st_student_id row = ar_student_id row')); auto.
  - eapply Forall_impl; [exact Hsj|]. intros row' Hs. simpl in Hs.
    apply lookup_insert_is_Some. destruct (decide (st_student_id row = sj_student_id row')); auto.
  - exact Hids.
Qed.

Lemma insert_subject_consistent (sid rid : string) (s : SubjectInfo) (db : Database) :
  is_Some (students_tbl db !! sid) →
  store_consistent db → store_consistent (insert_subject sid rid s db).
Proof.
  intros Hsid (Hst & Har & Hsj & Hsorted & Hle).
  split; [|split; [|split; [|split]]]; simpl; [done|done| | |].
  - rewrite Forall_app, Forall_singleton. by split.
  - rewrite map_app. simpl. apply StronglySorted_snoc; [done|].
    rewrite Forall_map. eapply Forall_impl; [exact Hle|]. intros row Hrow. simpl in *. lia.
  - rewrite Forall_app, Forall_singleton. simpl. split; [|lia].
    eapply Forall_impl; [exact Hle|]. intros row Hrow. simpl in *. lia.
Qed.

Lemma insert_all_consistent (sid rid : string) (subjs : list SubjectInfo) (db : Database) :
  is_Some (students_tbl db !! sid) →
  store_consistent db → store_consistent (insert_all sid rid subjs db).
Proof.
  revert db. induction subjs as [|s l IH]; intros db Hsid Hc; simpl; [done|].
  apply IH; [done|by apply insert_subject_consistent].
Qed.

Lemma replace_record_consistent (row : records_row) (db : Database) :
  is_Some (students_tbl db !! ar_student_id row) →
  store_consistent db → store_consistent (replace_record row db).
Proof.
  intros Hsid (Hst & Har & Hsj & Hids). split; [|split; [|split]]; simpl; [done| |done|done].
  intros rid row' Hl. apply lookup_insert_Some in Hl as [[<- <-]|[_ Hl]]; [done|by apply Har].
Qed.

Lemma save_record_consistent (fault : option nat) (r : AcademicRecord) (c c' : Connection)
    (b : bool) :
  save_record fault r c = (b, c') →
  store_consistent (working c) → store_consistent (working c').
Proof.
  intros Hsave Hc.
  assert (store_consistent (replace_student (student_row_of r) (working c)) ∧
          is_Some (students_tbl (replace_student (student_row_of r) (working c))
                   !! student_id (student r))) as [Hc1 Hsid].
  { split; [by apply replace_student_consistent|]. simpl. rewrite lookup_insert_eq. by eexists. }
  apply save_record_cases in Hsave as [Hw|[[l' Hw]|(row & Hrow & Hrsid & Hw)]]; rewrite Hw.
  - done.
  - by apply insert_all_consistent.
  - apply replace_record_consistent; [|by apply insert_all_consistent].
    destruct (insert_all_spec (student_id (student r)) (record_id r) (subjects r)
                (replace_student (student_row_of r) (working c))) as (-> & _).
    by rewrite Hrsid.
Qed.

Lemma save_record_committed_cases (fault : option nat) (r : AcademicRecord) (c c' : Connection)
    (b : bool) :
  save_record fault r c = (b, c') → committed c' = committed c ∨ committed c' = working c'.
Proof.
  intros Hsave. destruct b.
  - right. by apply save_record_ok_inv in Hsave as (_ & _ & _ & _ & _ & _ & ? & _).
  - left. by apply save_record_failure_committed in Hsave.
Qed.

(** X18.  In every store reached from a new database by calls of
    [save_record], for any records and any failing statements, both the
    content seen through the connection and the durable content are
    consistent: rows sit under their own key, every summary row and every
    subject row refers to a stored student, and subject row ids are
    strictly increasing. *)
Theorem reachable_store_consistent (c : Connection) :
  reachable c → store_consistent (working c) ∧ store_consistent (committed c).
Proof.
  induction 1 as [|fault r c _ [IHw IHc]].
  - assert (store_consistent empty_database) as He.
    { split; [|split; [|split; [|split]]]; simpl; try done; constructor. }
    by split.
  - destruct (save_record fault r c) as [b c'] eqn:E. simpl.
    pose proof (save_record_consistent _ _ _ _ _ E IHw) as Hw'.
    split; [done|].
    destruct (save_record_committed_cases _ _ _ _ _ E) as [-> | ->]; done.
Qed.

(** X19.  Saving the same record a second time replaces its student row
    and its summary row by equal rows and appends its subject rows once
    more. *)
Theorem resave_appends_subject_rows (fault fault' : option nat) (r : AcademicRecord)
    (c c1 c2 : Connection) :
  save_record fault r c = (true, c1) →
  save_record fault' r c1 = (true, c2) →
  students_tbl (working c2) = students_tbl (working c1) ∧
  academic_records_tbl (working c2) = academic_records_tbl (working c1) ∧
  ∃ rows, subjects_tbl (working c2) = (subjects_tbl (working c1) ++ rows)%list ∧
          length rows = length (subjects r) ∧
          Forall (fun row => sj_record_id row = record_id r) rows.
Proof.
  intros H1 H2.
  apply save_record_ok_inv in H1 as (sg & wg & gl & Hsg & Hwg & Hgl & _ & Hw1).
  apply save_record_ok_inv in H2 as (sg' & wg' & gl' & Hsg' & Hwg' & Hgl' & _ & Hw2).
  assert (sg' = sg) as -> by congruence.
  assert (wg' = wg) as -> by congruence.
  assert (gl' = gl) as -> by congruence.
  destruct (insert_all_rows_tagged (student_id (student r)) (record_id r) (subjects r)
              (replace_student (student_row_of r) (working c)))
    as (Hst1 & Har1 & _).
  destruct (insert_all_rows_tagged (student_id (student r)) (record_id r) (subjects r)
              (replace_student (student_row_of r) (working c1)))
    as (Hst2 & Har2 & rows & Hrows & Htag & Hlen).
  rewrite Hw2. simpl. rewrite Hst2, Har2, Hrows. simpl.
  rewrite Hw1. simpl. rewrite Hst1, Har1. simpl.
  split_and!.
  - apply insert_insert_eq.
  - apply insert_insert_eq.
  - by exists rows.
Qed.

Lemma resave_appends_subject_rows_witness :
  let r := sample_record "a3f09c1b77e2" three_subjects in
  let c1 := snd (save_record None r initialize_database) in
  let c2 := snd (save_record None r c1) in
  students_tbl (working c2) = students_tbl (working c1) ∧
  academic_records_tbl (working c2) = academic_records_tbl (working c1) ∧
  ∃ rows, subjects_tbl (working c2) = (subjects_tbl (working c1) ++ rows)%list ∧
          length rows = length (subjects r) ∧
          Forall (fun row => sj_record_id row = record_id r) rows.
Proof.
  apply (resave_appends_subject_rows None None (sample_record "a3f09c1b77e2" three_subjects)
           initialize_database); reflexivity.
Defined.

(** ** The report colours *)

Lemma count_if_map_length {A} (p : Q → bool) (f : A → Q) (xs : list A) :
  (count_if p (map f xs) == inject_Z (Z.of_nat (length (List.filter (fun x => p (f x)) xs))))%Q.
Proof.
  induction xs as [|x xs IH]; [reflexivity|].
  change (map f (x :: xs)) with (f x :: map f xs). rewrite count_if_cons, IH. simpl.
  destruct (p (f x)); simpl length; [|lra].
  rewrite Nat2Z.inj_succ. unfold Z.succ. rewrite inject_Z_plus.
  change (inject_Z 1) with 1%Q. lra.
Qed.

Lemma filter_ext_bool {A} (p q : A → bool) (xs : list A) :
  (∀ x, p x = q x) → List.filter p xs = List.filter q xs.
Proof. intros H. induction xs as [|x xs IH]; simpl; [done|]. by rewrite H, IH. Qed.

Lemma score_color_bands (s : SubjectInfo) :
  bool_decide (score_color s = "#9c27b0") = Qle_bool 9 (score s) ∧
  bool_decide (score_color s = "#4caf50") = Qle_bool 8 (score s) && Qlt_bool (score s) 9 ∧
  bool_decide (score_color s = "#ff9800") = Qle_bool 5 (score s) && Qlt_bool (score s) 8 ∧
  bool_decide (score_color s = "#f44336") = Qlt_bool (score s) 5.
Proof.
  unfold score_color, Qlt_bool.
  destruct (Qle_bool 9 (score s)) eqn:E9, (Qle_bool 8 (score s)) eqn:E8,
    (Qle_bool 5 (score s)) eqn:E5; try (by split_and!);
    rewrite ?Qle_bool_iff in *; rewrite ?Qle_bool_false in *; exfalso; lra.
Qed.

(** X20.  The four cell colours of the HTML report follow the four bands
    of the statistics: for a non-empty subject list the number of subjects
    shown in each colour is the corresponding banded count. *)
Theorem score_colors_match_banded_counts (py_sqrt : Q → Q) (subjs : list SubjectInfo) :
  subjs ≠ [] →
  ∃ (stats : gmap string pyval) (e g a p : Q),
    calculate_statistics py_sqrt subjs = Ok stats ∧
    stats !! "excellent_count" = Some (PyNum e) ∧
    stats !! "good_count" = Some (PyNum g) ∧
    stats !! "average_count" = Some (PyNum a) ∧
    stats !! "poor_count" = Some (PyNum p) ∧
    let shown (color : string) : Q :=
      inject_Z (Z.of_nat (length (List.filter
        (fun s => bool_decide (score_color s = color)) subjs))) in
    (e == shown "#9c27b0")%Q ∧ (g == shown "#4caf50")%Q ∧
    (a == shown "#ff9800")%Q ∧ (p == shown "#f44336")%Q.
Proof.
  intros Hne.
  destruct (calculate_statistics_dict py_sqrt subjs Hne)
    as (median & variance & std_dev & spread & lo & hi & _ & _ & _ & _ & Hcalc).
  do 5 eexists. split; [exact Hcalc|]. do 4 (split; [reflexivity|]). cbv zeta.
  split_and!; rewrite count_if_map_length; do 2 f_equiv; f_equal; apply filter_ext_bool;
    intros s; destruct (score_color_bands s) as (H1 & H2 & H3 & H4); congruence.
Qed.

Lemma score_colors_match_banded_counts_witness :
  ∃ (stats : gmap string pyval) (e g a p : Q),
    calculate_statistics sqrt_thousandths tied_subjects = Ok stats ∧
    stats !! "excellent_count" = Some (PyNum e) ∧
    stats !! "good_count" = Some (PyNum g) ∧
    stats !! "average_count" = Some (PyNum a) ∧
    stats !! "poor_count" = Some (PyNum p) ∧
    let shown (color : string) : Q :=
      inject_Z (Z.of_nat (length (List.filter
        (fun s => bool_decide (score_color s = color)) tied_subjects))) in
    (e == shown "#9c27b0")%Q ∧ (g == shown "#4caf50")%Q ∧
    (a == shown "#ff9800")%Q ∧ (p == shown "#f44336")%Q.
Proof.
  apply (score_colors_match_banded_counts sqrt_thousandths tied_subjects). discriminate.
Defined.

Lemma reachable_store_consistent_witness :
  store_consistent
    (working (snd (save_record (Some 2%nat) (sample_record "a3f09c1b77e2" three_subjects)
                     initialize_database))) ∧
  store_consistent
    (committed (snd (save_record (Some 2%nat) (sample_record "a3f09c1b77e2" three_subjects)
                       initialize_database))).
Proof.
  apply (reachable_store_consistent
           (snd (save_record (Some 2%nat) (sample_record "a3f09c1b77e2" three_subjects)
                   initialize_database))).
  apply reachable_save, reachable_init.
Defined.


(** ** The grade entry dialog *)

Lemma subject_weights_valid (n : string) :
  (default 1 (SUBJECT_WEIGHTS !! n) = 1 ∨ default 1 (SUBJECT_WEIGHTS !! n) = 2)%Z.
Proof.
  destruct (SUBJECT_WEIGHTS !! n) as [w|] eqn:E; simpl; [|by left].
  assert (map_Forall (fun _ w => w = 1 ∨ w = 2)%Z SUBJECT_WEIGHTS) as Hall.
  { apply map_Forall_to_list. vm_compute.
    repeat (apply List.Forall_cons; [first [left; reflexivity|right; reflexivity]|]).
    apply List.Forall_nil. }
  exact (Hall n w E).
Qed.

Section InteractionFacts.

Variables py_strip py_lower py_title : string → string.
Variable py_float : string → option pyfloat.

Lemma input_number_spec (lo hi : Q) (keys : list keyboard) :
  match input_number py_float (Some lo) (Some hi) keys with
  | Returned None rest =>
    (length rest < length keys)%nat ∧ (∀ x, x ∈ rest → x ∈ keys)
  | Returned (Some num) rest =>
    (length rest < length keys)%nat ∧ (∀ x, x ∈ rest → x ∈ keys) ∧
    ((∃ q, num = Finite q ∧ (lo <= q)%Q ∧ (q <= hi)%Q) ∨
     (num = NaN ∧ ∃ s, Line s ∈ keys ∧ py_float s = Some NaN))
  | EndOfInput => True
  | _ => False
  end.
Proof.
  induction keys as [|k keys IH]; simpl; [done|].
  assert (∀ (o : outcome (option pyfloat)),
    match o with
    | Returned None rest =>
      (length rest < length keys)%nat ∧ (∀ x, x ∈ rest → x ∈ keys)
    | Returned (Some num) rest =>
      (length rest < length keys)%nat ∧ (∀ x, x ∈ rest → x ∈ keys) ∧
      ((∃ q, num = Finite q ∧ (lo <= q)%Q ∧ (q <= hi)%Q) ∨
       (num = NaN ∧ ∃ s, Line s ∈ keys ∧ py_float s = Some NaN))
    | EndOfInput => True
    | _ => False
    end →
    match o with
    | Returned None rest =>
      (length rest < S (length keys))%nat ∧ (∀ x, x ∈ rest → x ∈ k :: keys)
    | Returned (Some num) rest =>
      (length rest < S (length keys))%nat ∧ (∀ x, x ∈ rest → x ∈ k :: keys) ∧
      ((∃ q, num = Finite q ∧ (lo <= q)%Q ∧ (q <= hi)%Q) ∨
       (num = NaN ∧ ∃ s, Line s ∈ k :: keys ∧ py_float s = Some NaN))
    | EndOfInput => True
    | _ => False
    end) as Hstep.
  { intros [[num|] rest| | | | |]; try done.
    - intros (Hlen & Hsub & Hnum). split_and!; [lia|by intros x Hx; right; apply Hsub|].
      destruct Hnum as [?|[-> (s & Hs & Hf)]]; [by left|right]. split; [done|].
      exists s. split; [by right|done].
    - intros (Hlen & Hsub). split; [lia|by intros x Hx; right; apply Hsub]. }
  destruct k as [s|].
  - destruct (py_float s) as [num|] eqn:Ef; [|by apply Hstep].
    destruct (float_lt num lo) eqn:Elt; [by apply Hstep|].
    destruct (float_gt num hi) eqn:Egt; [by apply Hstep|].
    split_and!; [lia|by intros x Hx; right|].
    destruct num as [q| | |]; simpl in *; try done.
    + left. exists q. apply Qlt_bool_false in Elt, Egt. by split_and!.
    + right. split; [done|]. exists s. split; [by left|done].
  - split; [lia|by intros x Hx; right].
Qed.

Lemma new_subject_ok (n : string) (q : Q) :
  (0 <= q)%Q → (q <= 10)%Q →
  new_subject n (Finite q) (default 1%Z (SUBJECT_WEIGHTS !! n)) (category_of n)
  = Ok (entered_subject n q) ∧
  valid_subject (entered_subject n q).
Proof.
  intros H0 H10.
  assert (valid_subject (entered_subject n q)) as Hv.
  { unfold valid_subject, entered_subject. cbn [score weight]. split_and!; [done|done|].
    destruct (subject_weights_valid n) as [-> | ->]; auto. }
  split; [|exact Hv]. unfold new_subject. by apply post_init_valid.
Qed.

Lemma new_subject_raises (n : string) (num : pyfloat) (w : Z) (cat : option string) (e : exn) :
  new_subject n num w cat = Raise e → e = ValueError.
Proof.
  unfold new_subject, SubjectInfo_post_init.
  destruct num; repeat case_match; congruence.
Qed.

(** What one call of the loop guarantees, for every state that satisfies
    the invariant and every bound that exceeds the input still to read. *)
Lemma input_grades_loop_spec (fuel num : nat) (subjs : list SubjectInfo)
    (names : gset string) (keys : list keyboard) :
  grades_invariant num subjs names → (length keys < fuel)%nat →
  match input_grades_loop py_strip py_lower py_title py_float fuel num subjs names keys with
  | Returned result rest =>
    length result = num ∧ NoDup (map name result) ∧ Forall valid_subject result ∧
    Forall (fun s => s = entered_subject (name s) (score s)) result
  | EndOfInput => True
  | Propagated e => e = ValueError ∧ ∃ s, Line s ∈ keys ∧ py_float s = Some NaN
  | MissingKey => False
  | Overflow => False
  | OutOfFuel => False
  end.
Proof.
  revert subjs names keys.
  induction fuel as [|fuel IH]; intros subjs names keys Hinv Hfuel; [lia|].
  assert (∀ subjs' names' rest,
    grades_invariant num subjs' names' →
    (length rest < length keys)%nat → (∀ x, x ∈ rest → x ∈ keys) →
    match input_grades_loop py_strip py_lower py_title py_float fuel num subjs' names' rest with
    | Returned result rest =>
      length result = num ∧ NoDup (map name result) ∧ Forall valid_subject result ∧
      Forall (fun s => s = entered_subject (name s) (score s)) result
    | EndOfInput => True
    | Propagated e => e = ValueError ∧ ∃ s, Line s ∈ keys ∧ py_float s = Some NaN
    | MissingKey => False
    | Overflow => False
    | OutOfFuel => False
    end) as Hnext.
  { intros subjs' names' rest Hinv' Hrest Hsub.
    assert (length rest < fuel)%nat as Hfuel' by lia.
    pose proof (IH subjs' names' rest Hinv' Hfuel') as Hrec.
    destruct (input_grades_loop _ _ _ _ fuel num subjs' names' rest); try done.
    destruct Hrec as [-> (s & Hs & Hf)]. split; [done|]. exists s. auto. }
  clear IH. cbn [input_grades_loop].
  pose proof Hinv as (Hnames & Hnodup & Hvalid & Htable & Hlen).
  destruct (length subjs <? num)%nat eqn:Elt.
  2:{ apply Nat.ltb_ge in Elt. split_and!; [lia|done|done|done]. }
  apply Nat.ltb_lt in Elt.
  destruct keys as [|k keys]; cbn [input_text]; [done|].
  assert (∀ x, x ∈ keys → x ∈ k :: keys) as Hsub by (intros x Hx; by right).
  assert (length keys < length (k :: keys))%nat as Hshort by (simpl; lia).
  destruct k as [line|]; [|by apply Hnext].
  case_bool_decide; [by apply Hnext|].
  case_bool_decide; [by apply Hnext|].
  case_bool_decide; [by apply Hnext|].
  case_bool_decide.
  - (* undo *)
    destruct (reverse subjs) as [|removed earlier] eqn:Erev; [by apply Hnext|].
    assert (subjs = (reverse earlier ++ [removed])%list) as Hsubjs.
    { rewrite <- (reverse_involutive subjs), Erev. by rewrite reverse_cons. }
    subst subjs. rewrite map_app in Hnodup, Hnames. simpl in Hnodup, Hnames.
    apply NoDup_app in Hnodup as (Hnd & Hdisj & _).
    apply Forall_app in Hvalid as [Hv _].
    apply Forall_app in Htable as [Ht _].
    rewrite length_app in Hlen. simpl in Hlen.
    case_bool_decide as Hin.
    2:{ apply Hin. rewrite Hnames, list_to_set_app, elem_of_union. right.
        apply elem_of_list_to_set. by left. }
    apply Hnext; [|done|done]. split_and!; [|done|done|done|lia].
    rewrite Hnames. apply set_eq. intros x.
    rewrite elem_of_difference, list_to_set_app, elem_of_union, !elem_of_list_to_set,
      elem_of_singleton, list_elem_of_singleton.
    split; [intros [[?|?] ?]; [done|contradiction]|].
    intros Hx. split; [by left|]. intros ->. apply (Hdisj (name removed) Hx). by left.
  - (* a subject name *)
    set (subject_name := py_title (py_strip (py_strip line))).
    case_bool_decide as Hdup; [by apply Hnext|].
    pose proof (input_number_spec 0 10 keys) as Hnum.
    destruct (input_number py_float (Some 0%Q) (Some 10%Q) keys) as [[score|] rest| | | | |];
      try done.
    + destruct Hnum as (Hrest & Hrsub & Hscore).
      destruct Hscore as [(q & -> & Hq0 & Hq10)|[-> (s & Hs & Hf)]].
      * destruct (new_subject_ok subject_name q Hq0 Hq10) as (-> & Hs).
        apply Hnext; [|simpl; lia|by auto].
        split_and!.
        -- rewrite map_app, list_to_set_app_L, Hnames.
           cbn [map list_to_set name entered_subject]. by rewrite union_empty_r_L.
        -- rewrite map_app. cbn [map name entered_subject].
           apply NoDup_app. split_and!; [done| |].
           ++ intros x Hx ->%list_elem_of_singleton.
              apply Hdup. rewrite Hnames. by apply elem_of_list_to_set.
           ++ apply NoDup_singleton.
        -- apply Forall_app. split; [done|]. by constructor.
        -- apply Forall_app. split; [done|]. by constructor.
        -- rewrite length_app. simpl. lia.
      * simpl. split; [done|]. exists s. split; [by right|done].
    + destruct Hnum as (Hrest & Hrsub).
      apply Hnext; [done|simpl; lia|by auto].
Qed.

End InteractionFacts.

(** ** Properties of the grade entry dialog *)

Section GradeEntryFacts.

Variables py_strip py_lower py_title : string → string.
Variable py_float : string → option pyfloat.
Variable py_sqrt : Q → Q.

Lemma grades_invariant_empty (num : nat) : grades_invariant num [] ∅.
Proof. split_and!; [done|constructor|constructor|constructor|simpl; lia]. Qed.

(** A bound that suffices can be replaced by any larger one. *)
Lemma input_grades_loop_fuel (fuel fuel' num : nat) (subjs : list SubjectInfo)
    (names : gset string) (keys : list keyboard) :
  (fuel <= fuel')%nat →
  input_grades_loop py_strip py_lower py_title py_float fuel num subjs names keys ≠ OutOfFuel →
  input_grades_loop py_strip py_lower py_title py_float fuel' num subjs names keys
  = input_grades_loop py_strip py_lower py_title py_float fuel num subjs names keys.
Proof.
  revert fuel' subjs names keys.
  induction fuel as [|fuel IH]; intros fuel' subjs names keys Hle Hne; [done|].
  destruct fuel' as [|fuel']; [lia|].
  assert (fuel <= fuel')%nat as Hle' by lia.
  cbn [input_grades_loop] in *.
  destruct (length subjs <? num)%nat; [|done].
  destruct (input_text py_strip None keys) as [[subject_name|] rest| | | | |]; try done;
    [|by apply IH].
  repeat (case_bool_decide; [by apply IH|]).
  case_bool_decide.
  - destruct (reverse subjs) as [|removed earlier]; [by apply IH|].
    case_bool_decide; [by apply IH|done].
  - case_bool_decide; [by apply IH|].
    destruct (input_number py_float (Some 0%Q) (Some 10%Q) rest) as [[score|] rest'| | | | |];
      try done; [|by apply IH].
    destruct (new_subject _ score _ _); [by apply IH|done].
Qed.

(** The dialog from a state that satisfies the invariant does not depend
    on the bound, once it exceeds the number of lines to read. *)
Lemma input_grades_loop_enough (fuel fuel' num : nat) (subjs : list SubjectInfo)
    (names : gset string) (keys : list keyboard) :
  grades_invariant num subjs names →
  (length keys < fuel)%nat → (length keys < fuel')%nat →
  input_grades_loop py_strip py_lower py_title py_float fuel num subjs names keys
  = input_grades_loop py_strip py_lower py_title py_float fuel' num subjs names keys.
Proof.
  intros Hinv Hf Hf'.
  assert (∀ f, (length keys < f)%nat →
    input_grades_loop py_strip py_lower py_title py_float f num subjs names keys ≠ OutOfFuel)
    as Hne.
  { intros f Hlt E. pose proof (input_grades_loop_spec py_strip py_lower py_title py_float f num subjs names keys Hinv Hlt) as H.
    by rewrite E in H. }
  destruct (Nat.le_ge_cases fuel fuel').
  - symmetry. apply input_grades_loop_fuel; [done|by apply Hne].
  - apply input_grades_loop_fuel; [done|by apply Hne].
Qed.

(** One round that takes an acceptable entry. *)
Lemma input_grades_loop_entry (fuel num : nat) (subjs : list SubjectInfo)
    (names : gset string) (e : string * string * Q) (rest : list keyboard) :
  (length subjs < num)%nat →
  acceptable py_strip py_lower py_float e →
  kept_name py_strip py_title e.1.1 ∉ names →
  input_grades_loop py_strip py_lower py_title py_float (S fuel) num subjs names
    (Line e.1.1 :: Line e.1.2 :: rest)
  = input_grades_loop py_strip py_lower py_title py_float fuel num
      (subjs ++ [entered_subject (kept_name py_strip py_title e.1.1) e.2])%list
      (names ∪ {[kept_name py_strip py_title e.1.1]}) rest.
Proof.
  intros Hlen (Hne & Hhelp & Hlist & Hundo & Hf & H0 & H10) Hfresh.
  unfold kept_name in *.
  cbn [input_grades_loop input_text].
  apply Nat.ltb_lt in Hlen. rewrite Hlen.
  rewrite !bool_decide_eq_false_2 by done.
  cbn [input_number]. rewrite Hf. cbn [float_lt float_gt].
  assert (Qlt_bool e.2 0 = false) as ->.
  { unfold Qlt_bool. apply negb_false_iff. by apply Qle_bool_iff. }
  assert (Qlt_bool 10 e.2 = false) as ->.
  { unfold Qlt_bool. apply negb_false_iff. by apply Qle_bool_iff. }
  destruct (new_subject_ok (py_title (py_strip (py_strip e.1.1))) e.2 H0 H10) as (Hs & _).
  by rewrite Hs.
Qed.

(** X21.  Whatever is typed, a list returned by [input_grades] has
    exactly [num_subjects] entries, their names are pairwise distinct,
    every entry passes the validation of [SubjectInfo] (a score between 0
    and 10), and every entry carries the weight that [SUBJECT_WEIGHTS]
    gives its name (1 when it is not listed), the first category of
    [SUBJECT_CATEGORIES] that lists it, and no notes. *)
Theorem input_grades_result_well_formed (num_subjects : nat) (keys rest : list keyboard)
    (result : list SubjectInfo) :
  input_grades py_strip py_lower py_title py_float num_subjects keys = Returned result rest →
  length result = num_subjects ∧ NoDup (map name result) ∧ Forall valid_subject result ∧
  Forall (fun s => s = entered_subject (name s) (score s)) result.
Proof.
  intros E. unfold input_grades in E.
  pose proof (input_grades_loop_spec py_strip py_lower py_title py_float (S (length keys)) num_subjects [] ∅ keys
                (grades_invariant_empty num_subjects) (Nat.lt_succ_diag_r _)) as H.
  rewrite E in H. exact H.
Qed.

(** X22.  [input_grades] stops after at most one round per typed line,
    and ['undo'] never fails on removing a name that the set of names
    does not hold (no [KeyError]). *)
Theorem input_grades_stops (num_subjects : nat) (keys : list keyboard) :
  input_grades py_strip py_lower py_title py_float num_subjects keys ≠ OutOfFuel ∧
  input_grades py_strip py_lower py_title py_float num_subjects keys ≠ MissingKey ∧
  ∀ fuel, (length keys < fuel)%nat →
    input_grades_loop py_strip py_lower py_title py_float fuel num_subjects [] ∅ keys
    = input_grades py_strip py_lower py_title py_float num_subjects keys.
Proof.
  pose proof (input_grades_loop_spec py_strip py_lower py_title py_float (S (length keys)) num_subjects [] ∅ keys
                (grades_invariant_empty num_subjects) (Nat.lt_succ_diag_r _)) as H.
  unfold input_grades. split_and!.
  - intros E. by rewrite E in H.
  - intros E. by rewrite E in H.
  - intros fuel Hfuel. apply input_grades_loop_enough;
      [apply grades_invariant_empty|done|lia].
Qed.

(** X23.  The only exception that escapes from [input_grades] (apart from
    the end of the input) is the [ValueError] of [SubjectInfo], and it
    escapes only when one of the typed lines reads as nan. *)
Theorem input_grades_raises_only_on_nan (num_subjects : nat) (keys : list keyboard) (e : exn) :
  input_grades py_strip py_lower py_title py_float num_subjects keys = Propagated e →
  e = ValueError ∧ ∃ s, Line s ∈ keys ∧ py_float s = Some NaN.
Proof.
  intros E. unfold input_grades in E.
  pose proof (input_grades_loop_spec py_strip py_lower py_title py_float (S (length keys)) num_subjects [] ∅ keys
                (grades_invariant_empty num_subjects) (Nat.lt_succ_diag_r _)) as H.
  rewrite E in H. exact H.
Qed.

(** X24.  A score that reads as nan passes the range check of
    [input_number] and makes [SubjectInfo] raise: when the first entry is
    a subject name followed by such a score, [input_grades] ends with
    [ValueError] and nothing that was typed is returned. *)
Theorem nan_score_aborts_entry (num_subjects : nat) (typed_name typed_score : string)
    (rest : list keyboard) :
  (0 < num_subjects)%nat →
  py_strip typed_name ≠ "" →
  py_lower (py_strip typed_name) ≠ "help" →
  py_lower (py_strip typed_name) ≠ "list" →
  py_lower (py_strip typed_name) ≠ "undo" →
  py_float typed_score = Some NaN →
  input_grades py_strip py_lower py_title py_float num_subjects
    (Line typed_name :: Line typed_score :: rest) = Propagated ValueError.
Proof.
  intros Hnum Hne Hhelp Hlist Hundo Hf.
  unfold input_grades. cbn [input_grades_loop input_text length].
  assert ((0 <? num_subjects)%nat = true) as -> by by apply Nat.ltb_lt.
  rewrite !bool_decide_eq_false_2 by done.
  cbn [input_number]. rewrite Hf. reflexivity.
Qed.


Lemma typed_lines_length (entries : list (string * string * Q)) (rest : list keyboard) :
  (length entries <= length (typed_lines entries ++ rest)%list)%nat.
Proof. induction entries as [|e es IH]; simpl in *; lia. Qed.

(** The rounds that take a list of acceptable entries, one after the
    other, up to the requested number. *)
Lemma input_grades_loop_entries (entries : list (string * string * Q)) :
  ∀ (fuel num : nat) (subjs : list SubjectInfo) (names : gset string) (rest : list keyboard),
  Forall (acceptable py_strip py_lower py_float) entries →
  NoDup (map (fun e => kept_name py_strip py_title e.1.1) entries) →
  (∀ e, e ∈ entries → kept_name py_strip py_title e.1.1 ∉ names) →
  (length subjs + length entries = num)%nat →
  (length entries < fuel)%nat →
  input_grades_loop py_strip py_lower py_title py_float fuel num subjs names
    (typed_lines entries ++ rest)%list
  = Returned
      (subjs ++ map (fun e => entered_subject (kept_name py_strip py_title e.1.1) e.2)
                 entries)%list
      rest.
Proof.
  induction entries as [|e es IH]; intros fuel num subjs names rest Hacc Hnd Hfresh Hlen Hfuel.
  - destruct fuel as [|fuel]; [simpl in Hfuel; lia|].
    cbn [input_grades_loop typed_lines flat_map app map].
    assert ((length subjs <? num)%nat = false) as ->.
    { apply Nat.ltb_ge. simpl in Hlen. lia. }
    by rewrite app_nil_r.
  - destruct fuel as [|fuel]; [simpl in Hfuel; lia|].
    apply Forall_cons in Hacc as [He Hes].
    cbn [map] in Hnd. apply NoDup_cons in Hnd as [Hhead Htail].
    simpl in Hlen, Hfuel.
    change (typed_lines (e :: es) ++ rest)%list
      with (Line e.1.1 :: Line e.1.2 :: (typed_lines es ++ rest))%list.
    rewrite input_grades_loop_entry; [|lia|done|apply Hfresh; by left].
    rewrite IH; [|done|done| |rewrite length_app; simpl; lia|lia].
    + cbn [map]. by rewrite <- app_assoc.
    + intros e' He'. rewrite elem_of_union, elem_of_singleton.
      intros [Hin|Heq].
      * apply (Hfresh e'); [by right|done].
      * apply Hhead. rewrite <- Heq.
        apply (list_elem_of_fmap_2 (fun e => kept_name py_strip py_title e.1.1)), He'.
Qed.

(** X25.  When the user types, for each of [num_subjects] subjects, a
    name that is neither empty nor a command and differs from the names
    before it, followed by a score between 0 and 10, [input_grades]
    returns these subjects in the order typed, each with the score as
    typed and the weight and category of the tables, and leaves the rest of
    the input unread. *)
Theorem input_grades_accepts_entries (entries : list (string * string * Q))
    (rest : list keyboard) :
  Forall (acceptable py_strip py_lower py_float) entries →
  NoDup (map (fun e => kept_name py_strip py_title e.1.1) entries) →
  input_grades py_strip py_lower py_title py_float (length entries)
    (typed_lines entries ++ rest)%list
  = Returned (map (fun e => entered_subject (kept_name py_strip py_title e.1.1) e.2) entries)
      rest.
Proof.
  intros Hacc Hnd. unfold input_grades.
  rewrite (input_grades_loop_entries entries _ (length entries) [] ∅ rest); try done.
  pose proof (typed_lines_length entries rest). lia.
Qed.

(** X26.  ['undo'] typed right after an entry cancels it: from every
    state the loop can be in, with room for at least two more subjects,
    the dialog continues as if neither the entry nor ['undo'] had been
    typed. *)
Theorem undo_cancels_entry (fuel num_subjects : nat) (subjs : list SubjectInfo)
    (subject_names : gset string) (e : string * string * Q) (typed_undo : string)
    (rest : list keyboard) :
  grades_invariant num_subjects subjs subject_names →
  (S (length subjs) < num_subjects)%nat →
  acceptable py_strip py_lower py_float e →
  kept_name py_strip py_title e.1.1 ∉ subject_names →
  py_strip typed_undo ≠ "" →
  py_lower (py_strip typed_undo) = "undo" →
  (length (Line e.1.1 :: Line e.1.2 :: Line typed_undo :: rest) < fuel)%nat →
  input_grades_loop py_strip py_lower py_title py_float fuel num_subjects subjs subject_names
    (Line e.1.1 :: Line e.1.2 :: Line typed_undo :: rest)
  = input_grades_loop py_strip py_lower py_title py_float fuel num_subjects subjs subject_names
      rest.
Proof.
  intros Hinv Hroom Hacc Hfresh Hne Hundo Hfuel.
  destruct fuel as [|[|fuel]]; [simpl in Hfuel; lia|simpl in Hfuel; lia|].
  simpl in Hfuel.
  rewrite (input_grades_loop_enough (S (S fuel)) fuel num_subjects subjs subject_names rest)
    by (done || lia).
  rewrite input_grades_loop_entry; [|lia|done|done].
  cbn [input_grades_loop input_text].
  assert ((length (subjs ++ [entered_subject (kept_name py_strip py_title e.1.1) e.2])%list <?
           num_subjects)%nat = true) as ->.
  { apply Nat.ltb_lt. rewrite length_app. simpl. lia. }
  rewrite Hundo.
  rewrite (bool_decide_eq_false_2 _ Hne).
  rewrite (bool_decide_eq_false_2 ("undo" = "help")) by done.
  rewrite (bool_decide_eq_false_2 ("undo" = "list")) by done.
  rewrite (bool_decide_eq_true_2 ("undo" = "undo")) by done.
  rewrite reverse_snoc.
  rewrite bool_decide_eq_true_2.
  2:{ rewrite elem_of_union, elem_of_singleton. by right. }
  rewrite reverse_involutive.
  assert ((subject_names ∪ {[kept_name py_strip py_title e.1.1]})
            ∖ {[name (entered_subject (kept_name py_strip py_title e.1.1) e.2)]}
          = subject_names) as ->.
  { apply set_eq. intros x.
    rewrite elem_of_difference, elem_of_union, !elem_of_singleton.
    cbn [name entered_subject].
    split; [by intros [[?|?] ?]|]. intros Hx. split; [by left|]. by intros ->. }
  reflexivity.
Qed.

(** X27.  Grades entered through [input_grades] for at least one subject
    form a record that the rest of [create_new_record] handles without an
    exception: the statistics, the remarks and the projection of
    [display_report] are all computed, and [save_record] returns [True]
    when no statement fails. *)
Theorem entered_grades_reported_and_saved (num_subjects : nat) (keys rest : list keyboard)
    (result : list SubjectInfo) (r : AcademicRecord) (c : Connection) :
  (0 < num_subjects)%nat →
  input_grades py_strip py_lower py_title py_float num_subjects keys = Returned result rest →
  subjects r = result →
  (∃ (stats : gmap string pyval) (insights : list fstring) (prediction : gmap string pyval),
     calculate_statistics py_sqrt (subjects r) = Ok stats ∧
     generate_insights stats r = Ok insights ∧
     predict_performance py_sqrt r = Ok prediction) ∧
  fst (save_record None r c) = true.
Proof.
  intros Hnum E Hr. unfold input_grades in E.
  pose proof (input_grades_loop_spec py_strip py_lower py_title py_float
                (S (length keys)) num_subjects [] ∅ keys
                (grades_invariant_empty num_subjects) (Nat.lt_succ_diag_r _)) as H.
  rewrite E in H. destruct H as (Hlen & _ & Hv & _). rewrite <- Hr in Hlen, Hv.
  assert (subjects r ≠ []) as Hne.
  { intros Hnil. rewrite Hnil in Hlen. simpl in Hlen. lia. }
  split.
  - destruct (generate_insights_on_statistics py_sqrt r Hne Hv)
      as (stats & g & cs & ex & lo & hi & Hstats & Hg & Hcs & _ & _ & _ & Hins).
    assert (dict_get "consistency_score" (PyNum 0) stats = PyNum cs) as Hget.
    { unfold dict_get. by rewrite Hcs. }
    destruct (predict_performance_ok py_sqrt r stats g cs Hstats Hg Hget) as (d & Hd & _).
    by exists stats, (insights_by_rule g cs ex lo hi), d.
  - destruct (gpa_bounds r Hv) as (sg & wg & Hsg & Hwg & _).
    unfold save_record, save_record_try, db_bind, db_lift, commit.
    rewrite execute_no_fault.
    match goal with |- context [insert_subjects None 1 r (subjects r) ?c0] =>
      destruct (insert_subjects_no_fault r (subjects r) 1 c0) as [c1 ->] end.
    unfold grade_level. rewrite Hsg, Hwg. reflexivity.
Qed.

(** What [menu] returns. *)
Lemma menu_cases (options : list string) (keys : list keyboard) :
  match menu py_float options keys with
  | Returned (Some v) rest =>
    (0 <= v <= Z.of_nat (length options))%Z
  | Returned None rest => True
  | EndOfInput => True
  | _ => False
  end.
Proof.
  pose proof (input_number_spec py_float 0 (py_len options) keys) as H.
  unfold menu.
  destruct (input_number py_float (Some 0%Q) (Some (py_len options)) keys)
    as [[choice|] rest| | | | |]; try done.
  destruct H as (_ & _ & [(q & -> & Hq0 & Hqn)|[-> _]]); [|done].
  cbn [py_truthy float_gt].
  destruct (negb (Qeq_bool q 0) && Qlt_bool 0 q); [|done].
  destruct q as [a b]. unfold py_len, Qle in *. simpl in *.
  assert (0 <= a)%Z as Ha by lia.
  rewrite Z.quot_div_nonneg by lia. split.
  - apply Z.div_pos; lia.
  - apply Z.div_le_upper_bound; lia.
Qed.

(** X28.  A choice returned by [menu] is a whole number between 0 and the
    number of options; unless it is 0 (which the callers treat as
    cancelling), [options[choice - 1]] exists. *)
Theorem menu_choice_in_range (options : list string) (keys rest : list keyboard) (v : Z) :
  menu py_float options keys = Returned (Some v) rest →
  (0 <= v <= Z.of_nat (length options))%Z ∧
  (v ≠ 0%Z → is_Some (options !! Z.to_nat (v - 1))).
Proof.
  intros E. pose proof (menu_cases options keys) as H. rewrite E in H.
  split; [done|]. intros Hv. apply lookup_lt_is_Some. lia.
Qed.

(** X29.  [menu] raises nothing of its own: whatever is typed, it returns
    or the input ends; [int] is never applied to nan or to an infinity. *)
Theorem menu_never_raises (options : list string) (keys : list keyboard) :
  (∃ choice rest, menu py_float options keys = Returned choice rest) ∨
  menu py_float options keys = EndOfInput.
Proof.
  pose proof (menu_cases options keys) as H.
  destruct (menu py_float options keys) as [choice rest| | | | |]; try done.
  - left. by exists choice, rest.
  - by right.
Qed.

End GradeEntryFacts.

Lemma input_grades_result_well_formed_witness :
  let result := [entered_subject "Văn" 7; entered_subject "Anh" (925 # 100)] in
  length result = 2%nat ∧ NoDup (map name result) ∧ Forall valid_subject result ∧
  Forall (fun s => s = entered_subject (name s) (score s)) result.
Proof.
  apply (input_grades_result_well_formed id id id read_decimal 2
           [Line "Toán"; Line "8.5"; Line "undo"; Line "Văn"; Line "abc"; Line "12";
            Line "7"; Line "Văn"; Line "Anh"; Line "9.25"; Line "y"]
           [Line "y"]).
  vm_compute. reflexivity.
Defined.

Lemma input_grades_raises_only_on_nan_witness :
  ValueError = ValueError ∧
  ∃ s, Line s ∈ [Line "Toán"; Line "8"; Line "Văn"; Line "nan"] ∧ read_decimal s = Some NaN.
Proof.
  apply (input_grades_raises_only_on_nan id id id read_decimal 2
           [Line "Toán"; Line "8"; Line "Văn"; Line "nan"] ValueError).
  vm_compute. reflexivity.
Defined.

Lemma nan_score_aborts_entry_witness :
  input_grades id id id read_decimal 3 [Line "Toán"; Line "nan"; Line "Văn"; Line "7"]
  = Propagated ValueError.
Proof.
  apply (nan_score_aborts_entry id id id read_decimal 3 "Toán" "nan" [Line "Văn"; Line "7"]);
    [lia|done|done|done|done|].
  vm_compute. reflexivity.
Defined.

Lemma input_grades_accepts_entries_witness :
  input_grades id id id read_decimal 2
    [Line "Toán"; Line "8.5"; Line "Hát"; Line "7"; Line "y"]
  = Returned [entered_subject "Toán" (85 # 10); entered_subject "Hát" 7] [Line "y"].
Proof.
  apply (input_grades_accepts_entries id id id read_decimal
           [("Toán", "8.5", (85 # 10)%Q); ("Hát", "7", 7%Q)] [Line "y"]).
  - repeat (apply List.Forall_cons;
      [unfold acceptable; cbn [fst snd id]; split_and!; try done; by vm_compute|]).
    apply List.Forall_nil.
  - cbn [map fst snd]. unfold kept_name, id.
    apply NoDup_cons. split; [by rewrite list_elem_of_singleton|apply NoDup_singleton].
Defined.

Lemma undo_cancels_entry_witness :
  input_grades_loop id id id read_decimal 8 3 [entered_subject "Văn" 7] {["Văn"]}
    [Line "Toán"; Line "8.5"; Line "undo"; Line "Anh"; Line "9"; Line "Toán"; Line "6"]
  = input_grades_loop id id id read_decimal 8 3 [entered_subject "Văn" 7] {["Văn"]}
      [Line "Anh"; Line "9"; Line "Toán"; Line "6"].
Proof.
  apply (undo_cancels_entry id id id read_decimal 8 3 [entered_subject "Văn" 7] {["Văn"]}
           ("Toán", "8.5", (85 # 10)%Q) "undo").
  - unfold grades_invariant. split; [|split; [|split; [|split]]].
    + cbn [map list_to_set name entered_subject]. by rewrite union_empty_r_L.
    + apply NoDup_singleton.
    + apply all_accepted_valid. vm_compute. reflexivity.
    + by repeat constructor.
    + simpl. lia.
  - simpl. lia.
  - unfold acceptable; cbn [fst snd id]; split_and!; try done; by vm_compute.
  - cbn [fst snd]. unfold kept_name, id. rewrite elem_of_singleton. done.
  - done.
  - done.
  - simpl. lia.
Defined.

Lemma entered_grades_reported_and_saved_witness :
  let r := sample_record "a3f09c1b77e2"
             [entered_subject "Văn" 7; entered_subject "Anh" (925 # 100)] in
  (∃ (stats : gmap string pyval) (insights : list fstring) (prediction : gmap string pyval),
     calculate_statistics sqrt_thousandths (subjects r) = Ok stats ∧
     generate_insights stats r = Ok insights ∧
     predict_performance sqrt_thousandths r = Ok prediction) ∧
  fst (save_record None r initialize_database) = true.
Proof.
  apply (entered_grades_reported_and_saved id id id read_decimal sqrt_thousandths 2
           [Line "Toán"; Line "8.5"; Line "undo"; Line "Văn"; Line "abc"; Line "12";
            Line "7"; Line "Văn"; Line "Anh"; Line "9.25"; Line "y"]
           [Line "y"]
           [entered_subject "Văn" 7; entered_subject "Anh" (925 # 100)]).
  - lia.
  - vm_compute. reflexivity.
  - reflexivity.
Defined.

Lemma menu_choice_in_range_witness :
  (0 <= 0 <= Z.of_nat (length ["Học kỳ I"; "Học kỳ II"]))%Z ∧
  (0%Z ≠ 0%Z → is_Some (["Học kỳ I"; "Học kỳ II"] !! Z.to_nat (0 - 1))).
Proof.
  apply (menu_choice_in_range read_decimal ["Học kỳ I"; "Học kỳ II"]
           [Line "5"; Line "x"; Line "0.5"; Line "2"] [Line "2"] 0).
  vm_compute. reflexivity.
Defined.

(** ** Double precision: the rounding *)

Lemma pow2_pos (e : Z) : (0 < 2 ^ e)%Q.
Proof. by apply Qpower_0_lt. Qed.

Lemma pow2_inject (e : Z) : (0 <= e)%Z → (2 ^ e == inject_Z (2 ^ e))%Q.
Proof. intros H. by rewrite Zpower_Qpower. Qed.

Lemma Qdiv_le_cross (a b c d : Z) :
  (0 < b)%Z → (0 < d)%Z → (a * d <= c * b)%Z →
  (inject_Z a / inject_Z b <= inject_Z c / inject_Z d)%Q.
Proof.
  intros Hb Hd H.
  assert (0 < inject_Z b)%Q as Hb' by (change 0%Q with (inject_Z 0); by rewrite <- Zlt_Qlt).
  assert (0 < inject_Z d)%Q as Hd' by (change 0%Q with (inject_Z 0); by rewrite <- Zlt_Qlt).
  apply Qle_shift_div_r; [done|].
  assert (inject_Z c / inject_Z d * inject_Z b == inject_Z c * inject_Z b / inject_Z d)%Q
    as -> by (field; lra).
  apply Qle_shift_div_l; [done|].
  rewrite <- !inject_Z_mult, <- Zle_Qle. done.
Qed.

(** The binade of a positive number starts below it. *)
Lemma binade_le (q : Q) : (0 < q)%Q → (2 ^ binade q <= q)%Q.
Proof.
  intros Hq. unfold binade.
  destruct q as [n d]. cbn [Qnum Qden].
  assert (0 < n)%Z as Hn by (unfold Qlt in Hq; simpl in Hq; lia).
  set (a := Z.log2 n). set (b := Z.log2 (Z.pos d)).
  destruct (Qle_bool (2 ^ (a - b)) (n # d)) eqn:E; [by apply Qle_bool_iff|].
  pose proof (Z.log2_spec n Hn) as [Ha _]. fold a in Ha.
  assert (0 < Z.pos d)%Z as Hd by lia.
  pose proof (Z.log2_spec (Z.pos d) Hd) as [_ Hb]. fold b in Hb.
  assert (0 <= a)%Z as Ha0 by apply Z.log2_nonneg.
  assert (0 <= b)%Z as Hb0 by apply Z.log2_nonneg.
  replace (a - b - 1)%Z with (a - (b + 1))%Z by lia.
  rewrite Qpower_minus by done.
  rewrite !pow2_inject by lia. rewrite (Qmake_Qdiv n d).
  apply Qdiv_le_cross; [lia|lia|]. nia.
Qed.

Lemma rnd64_zero (q : Q) : (q == 0)%Q → (rnd64 q == 0)%Q.
Proof.
  intros H. unfold rnd64. generalize (ulp_exponent q). intros E.
  assert (round_half_even (q / 2 ^ E) = 0%Z) as ->.
  { rewrite <- (round_half_even_inject 0). apply round_half_even_comp.
    rewrite H. unfold Qdiv. ring. }
  ring.
Qed.

Lemma tiniest_spec : (2 ^ (-1074) * (1 # 2) == tiniest)%Q.
Proof. by vm_compute. Qed.

Lemma unit_roundoff_spec (b : Z) : (2 ^ (b - 52) * (1 # 2) == 2 ^ b * unit_roundoff)%Q.
Proof.
  rewrite Qpower_minus by done.
  assert (2 ^ 52 == inject_Z (2 ^ 52))%Q as -> by by vm_compute.
  unfold unit_roundoff. pose proof (pow2_pos b).
  assert (1 # 2 ^ 53 == / inject_Z (2 ^ 53))%Q as -> by by vm_compute.
  assert (inject_Z (2 ^ 53) == 2 * inject_Z (2 ^ 52))%Q as -> by by vm_compute.
  assert (0 < inject_Z (2 ^ 52))%Q as H52 by by vm_compute.
  field. lra.
Qed.

(** A double nearest to [q] lies within half a unit in the last place:
    a relative error of 2^-53, or 2^-1075 in the subnormal range. *)
Lemma rnd64_err (q : Q) :
  (Qabs (rnd64 q - q) <= unit_roundoff * Qabs q + tiniest)%Q.
Proof.
  assert (0 <= unit_roundoff * Qabs q)%Q as Hrel.
  { apply Qmult_le_0_compat; [by vm_compute|apply Qabs_nonneg]. }
  assert (0 <= tiniest)%Q as Htiny by by vm_compute.
  destruct (Qeq_dec q 0) as [Hz|Hnz].
  { pose proof (rnd64_zero q Hz) as Hr. generalize dependent (rnd64 q). intros r Hr.
    rewrite Hr, Hz. by vm_compute. }
  unfold rnd64. set (E := ulp_exponent q).
  pose proof (pow2_pos E) as Hp.
  pose proof (round_half_even_near (q / 2 ^ E)) as Hnear.
  set (r := inject_Z (round_half_even (q / 2 ^ E))) in *.
  assert (r * 2 ^ E - q == (r - q / 2 ^ E) * 2 ^ E)%Q as Heq by (field; lra).
  rewrite (Qabs_wd _ _ Heq), Qabs_Qmult, (Qabs_pos (2 ^ E)) by lra.
  assert (Qabs (r - q / 2 ^ E) * 2 ^ E <= (1 # 2) * 2 ^ E)%Q as Hhalf.
  { apply Qmult_le_compat_r; [done|lra]. }
  apply (Qle_trans _ _ _ Hhalf).
  unfold E, ulp_exponent.
  destruct (Z.max_spec (binade (Qabs q) - 52) (-1074)) as [[_ ->]|[_ ->]].
  - rewrite Qmult_comm, tiniest_spec. lra.
  - rewrite Qmult_comm, unit_roundoff_spec.
    assert (0 < Qabs q)%Q as Hpos.
    { destruct (Qle_lt_or_eq _ _ (Qabs_nonneg q)) as [H|H]; [done|].
      exfalso. apply Hnz.
      assert (Qabs q <= 0)%Q as Hle by (rewrite <- H; apply Qle_refl).
      apply Qabs_Qle_condition in Hle. lra. }
    pose proof (binade_le (Qabs q) Hpos) as Hb.
    apply Qle_trans with (unit_roundoff * Qabs q)%Q; [|lra].
    rewrite (Qmult_comm _ unit_roundoff). apply Qmult_le_l; [by vm_compute|done].
Qed.

Lemma rnd64_nonneg (q : Q) : (0 <= q)%Q → (0 <= rnd64 q)%Q.
Proof.
  intros H. unfold rnd64. generalize (ulp_exponent q). intros E.
  pose proof (pow2_pos E) as Hp.
  apply Qmult_le_0_compat; [|lra].
  change 0%Q with (inject_Z 0). rewrite <- Zle_Qle.
  rewrite <- (round_half_even_inject 0). apply round_half_even_mono.
  apply Qle_shift_div_l; [done|]. change (inject_Z 0) with 0%Q. lra.
Qed.

(** Whole numbers below 2^53 are doubles. *)
Lemma rnd64_int (z : Z) : (0 <= z < 2 ^ 53)%Z → (rnd64 (inject_Z z) == inject_Z z)%Q.
Proof.
  intros [H0 H53].
  destruct (Z.eq_dec z 0%Z) as [->|Hnz]; [by vm_compute|].
  assert (0 < z)%Z as Hpos by lia.
  pose proof (Z.log2_spec z Hpos) as [Hlo _].
  assert (Z.log2 z < 53)%Z as Hlog by (apply Z.log2_lt_pow2; lia).
  pose proof (Z.log2_nonneg z) as Hlog0.
  assert (ulp_exponent (inject_Z z) = (Z.log2 z - 52)%Z) as HE.
  { unfold ulp_exponent, binade.
    assert (Qabs (inject_Z z) = inject_Z z) as ->.
    { unfold inject_Z, Qabs. by rewrite Z.abs_eq. }
    cbn [Qnum Qden inject_Z]. change (Z.log2 1) with 0%Z. rewrite Z.sub_0_r.
    assert (Qle_bool (2 ^ Z.log2 z) (inject_Z z) = true) as ->.
    { apply Qle_bool_iff. rewrite pow2_inject by done. by rewrite <- Zle_Qle. }
    lia. }
  unfold rnd64. rewrite HE.
  set (k := (52 - Z.log2 z)%Z).
  assert (2 ^ (Z.log2 z - 52) == / inject_Z (2 ^ k))%Q as Hp.
  { replace (Z.log2 z - 52)%Z with (- k)%Z by (unfold k; lia).
    rewrite Qpower_opp, pow2_inject by (unfold k; lia). reflexivity. }
  assert (0 < inject_Z (2 ^ k))%Q as Hk.
  { change 0%Q with (inject_Z 0). rewrite <- Zlt_Qlt. apply Z.pow_pos_nonneg; unfold k; lia. }
  assert (round_half_even (inject_Z z / 2 ^ (Z.log2 z - 52)) = (z * 2 ^ k)%Z) as ->.
  { rewrite <- (round_half_even_inject (z * 2 ^ k)). apply round_half_even_comp.
    rewrite Hp, inject_Z_mult. field. lra. }
  rewrite Hp, inject_Z_mult. field. lra.
Qed.

(** The whole number within less than a half of [x] is its rounding. *)
Lemma round_half_even_unique (x : Q) (k : Z) :
  (Qabs (x - inject_Z k) < 1 # 2)%Q → round_half_even x = k.
Proof.
  intros H. pose proof (round_half_even_near x) as Hn.
  apply Qabs_Qle_condition in Hn. destruct Hn as [Hn1 Hn2].
  apply Qabs_Qlt_condition in H. destruct H as [H1 H2].
  assert (inject_Z (round_half_even x) - inject_Z k < 1)%Q as Hu by lra.
  assert (inject_Z k - inject_Z (round_half_even x) < 1)%Q as Hl by lra.
  assert (inject_Z (round_half_even x) < inject_Z (k + 1))%Q as Hu'
    by (rewrite inject_Z_plus; change (inject_Z 1) with 1%Q; lra).
  assert (inject_Z k < inject_Z (round_half_even x + 1))%Q as Hl'
    by (rewrite inject_Z_plus; change (inject_Z 1) with 1%Q; lra).
  rewrite <- Zlt_Qlt in Hu', Hl'. lia.
Qed.

Lemma qn_S (n : nat) : (qn (S n) == qn n + 1)%Q.
Proof.
  unfold qn. rewrite Nat2Z.inj_succ, <- Z.add_1_r, inject_Z_plus. reflexivity.
Qed.

Lemma qn_nonneg (n : nat) : (0 <= qn n)%Q.
Proof. unfold qn. change 0%Q with (inject_Z 0). rewrite <- Zle_Qle. lia. Qed.

Lemma qn_add (n m : nat) : (qn (n + m) == qn n + qn m)%Q.
Proof. unfold qn. rewrite Nat2Z.inj_add, inject_Z_plus. reflexivity. Qed.

(** ** Double precision: sums *)

(** Adding non-negative doubles of at most [B] from the left, at most [N]
    of them: every addition adds at most [c] to the error. *)
Lemma float_sum_from (B N c : Q) (xs : list Q) :
  (0 <= B)%Q → (0 <= N)%Q → (2 * B * N * unit_roundoff + tiniest <= c)%Q → (c <= B)%Q →
  ∀ (acc exact : Q) (k : nat),
  Forall (fun x => (0 <= x)%Q ∧ (x <= B)%Q) xs →
  (qn (k + length xs) <= N)%Q →
  (0 <= exact)%Q → (exact <= B * qn k)%Q →
  (Qabs (acc - exact) <= qn k * c)%Q →
  (Qabs (fold_left float_add xs acc - (exact + Qsum xs)) <= qn (k + length xs) * c)%Q.
Proof.
  intros HB HN0 Hc HcB.
  assert (0 <= c)%Q as Hc0.
  { assert (0 <= 2 * B * N * unit_roundoff)%Q as H1.
    { repeat apply Qmult_le_0_compat; try done; by vm_compute. }
    assert (0 <= tiniest)%Q as H2 by by vm_compute. lra. }
  induction xs as [|x xs IH]; intros acc exact k Hxs HN He0 HeB Hacc.
  - cbn [fold_left Qsum foldr length]. rewrite Nat.add_0_r.
    rewrite (Qabs_wd (acc - (exact + 0)) (acc - exact)) by ring. done.
  - apply Forall_cons in Hxs as [[Hx0 HxB] Hxs].
    cbn [fold_left Qsum foldr length] in *.
    replace (k + S (length xs))%nat with (S k + length xs)%nat in * by lia.
    assert (exact + (x + Qsum xs) == (exact + x) + Qsum xs)%Q as -> by ring.
    apply IH; [done|done|lra|rewrite qn_S; lra|].
    pose proof (qn_nonneg k) as HK0. pose proof (qn_nonneg (length xs)) as HL0.
    assert (qn k + 1 <= N)%Q as HKN.
    { rewrite qn_add, qn_S in HN. lra. }
    rewrite qn_S. set (K := qn k) in *.
    unfold float_add.
    pose proof (rnd64_err (acc + x)) as Herr.
    apply Qabs_Qle_condition in Hacc. destruct Hacc as [Hacc1 Hacc2].
    assert (K * c <= N * c)%Q as P1 by (apply Qmult_le_compat_r; lra).
    assert (B * (K + 1) <= B * N)%Q as P2.
    { rewrite !(Qmult_comm B). apply Qmult_le_compat_r; lra. }
    assert (N * c <= N * B)%Q as P3.
    { rewrite !(Qmult_comm N). apply Qmult_le_compat_r; lra. }
    assert (Qabs (acc + x) <= 2 * B * N)%Q as HA.
    { apply Qabs_Qle_condition. split; lra. }
    assert (unit_roundoff * Qabs (acc + x) <= unit_roundoff * (2 * B * N))%Q as P4.
    { rewrite !(Qmult_comm unit_roundoff). apply Qmult_le_compat_r; [done|by vm_compute]. }
    apply Qabs_Qle_condition in Herr. destruct Herr as [Herr1 Herr2].
    apply Qabs_Qle_condition. split; lra.
Qed.

(** ** Double precision: the two averages *)

Lemma tiniest_le_roundoff : (tiniest <= unit_roundoff)%Q.
Proof. by vm_compute. Qed.

Lemma unit_roundoff_pos : (0 < unit_roundoff)%Q.
Proof. by vm_compute. Qed.

Lemma rounding_slack_spec (n : nat) :
  (rounding_slack n == 128 * (qn n + 1) * unit_roundoff)%Q.
Proof.
  unfold rounding_slack. fold (qn (S n)). rewrite qn_S.
  assert (1 # 2 ^ 46 == 128 * unit_roundoff)%Q as -> by by vm_compute. ring.
Qed.

(** Subject counts up to 2^40 are far from the precision of a double. *)
Lemma count_roundoff (n : nat) :
  (Z.of_nat n <= 2 ^ 40)%Z → (qn n * unit_roundoff <= 1 # 8192)%Q.
Proof.
  intros H. unfold qn. rewrite Zle_Qle in H.
  apply Qle_trans with (inject_Z (2 ^ 40) * unit_roundoff)%Q; [|by vm_compute].
  apply Qmult_le_compat_r; [done|by vm_compute].
Qed.

(** Dividing a computed sum [shat] by an exact count [w]: the quotient is
    as close to the exact quotient as the sum was to the exact sum, per
    unit of [w], up to one more rounding. *)
Lemma float_div_err (shat s c : Q) (w : Z) :
  (0 < w < 2 ^ 53)%Z →
  (Qabs (shat - s) <= inject_Z w * c)%Q →
  (0 <= s / inject_Z w)%Q → (s / inject_Z w <= 10)%Q → (0 <= c)%Q → (c <= 1)%Q →
  ∃ m : Q, float_div shat (float_of_int w) = Ok m ∧
    (Qabs (m - s / inject_Z w) <= c + 11 * unit_roundoff + tiniest)%Q.
Proof.
  intros Hw Hs Hm0 Hm10 Hc0 Hc1.
  assert (0 < inject_Z w)%Q as HW by (change 0%Q with (inject_Z 0); rewrite <- Zlt_Qlt; lia).
  pose proof (rnd64_int w) as Hint. fold (float_of_int w) in Hint.
  assert (float_of_int w == inject_Z w)%Q as Hwhat by (apply Hint; lia).
  unfold float_div.
  assert (Qeq_bool (float_of_int w) 0 = false) as ->.
  { apply not_true_iff_false. intros E. apply Qeq_bool_iff in E. lra. }
  eexists. split; [reflexivity|].
  pose proof (rnd64_err (shat / float_of_int w)) as Herr.
  set (m := rnd64 (shat / float_of_int w)) in *.
  assert (shat / float_of_int w == shat / inject_Z w)%Q as Hq by by rewrite Hwhat.
  assert (Qabs (shat / inject_Z w - s / inject_Z w) <= c)%Q as Hquot.
  { assert (shat / inject_Z w - s / inject_Z w == (shat - s) * / inject_Z w)%Q as ->
      by (field; lra).
    rewrite Qabs_Qmult, (Qabs_pos (/ inject_Z w)) by (apply Qlt_le_weak, Qinv_lt_0_compat, HW).
    apply Qle_shift_div_r; [done|]. by rewrite Qmult_comm. }
  rewrite (Qabs_wd _ _ Hq) in Herr.
  rewrite Hq in Herr.
  apply Qabs_Qle_condition in Hquot. destruct Hquot as [Hq1 Hq2].
  assert (Qabs (shat / inject_Z w) <= 11)%Q as Hbig by (apply Qabs_Qle_condition; split; lra).
  assert (unit_roundoff * Qabs (shat / inject_Z w) <= unit_roundoff * 11)%Q as Hrel.
  { rewrite !(Qmult_comm unit_roundoff). apply Qmult_le_compat_r; [done|by vm_compute]. }
  apply Qabs_Qle_condition in Herr. destruct Herr as [He1 He2].
  apply Qabs_Qle_condition. split; lra.
Qed.

(** [round(m, 2)] of a double within [d] of [x]: a hundredth within
    [1/200 + d] of [x], and the rounding of [x] itself when [x] is
    farther than [d] from every middle between two hundredths. *)
Lemma float_round2_err (m x d : Q) :
  (Qabs (m - x) <= d)%Q →
  ∃ k : Z, float_round2 m = rnd64 (inject_Z k / 100) ∧
    (Qabs (inject_Z k / 100 - x) <= (1 # 200) + d)%Q ∧
    ((Qabs (x * 100 - inject_Z (round_half_even (x * 100))) < (1 # 2) - 100 * d)%Q →
     float_round2 m = rnd64 (round2 x)).
Proof.
  intros Hd. exists (round_half_even (m * 100)). split; [reflexivity|].
  pose proof (round_half_even_near (m * 100)) as Hn.
  apply Qabs_Qle_condition in Hn. destruct Hn as [Hn1 Hn2].
  apply Qabs_Qle_condition in Hd. destruct Hd as [Hd1 Hd2].
  split.
  - apply Qabs_Qle_condition. split; lra_hundredths.
  - intros Hclear. unfold float_round2, round2.
    rewrite (round_half_even_unique (m * 100) (round_half_even (x * 100))); [done|].
    apply Qabs_Qlt_condition in Hclear. destruct Hclear as [Hc1 Hc2].
    apply Qabs_Qlt_condition. split; lra.
Qed.

Lemma valid_scores (subjs : list SubjectInfo) :
  Forall valid_subject subjs →
  Forall (fun x => (0 <= x)%Q ∧ (x <= 10)%Q) (map score subjs).
Proof.
  intros Hv. rewrite Forall_map. eapply Forall_impl; [exact Hv|].
  by intros s (H0 & H10 & _).
Qed.

(** The mean of the scores as [simple_gpa] computes it, before
    [round(…, 2)]. *)
Lemma float_simple_mean_err (subjs : list SubjectInfo) :
  subjs ≠ [] → Forall valid_subject subjs → (Z.of_nat (length subjs) <= 2 ^ 40)%Z →
  ∃ m : Q,
    float_div (float_sum (map score subjs)) (float_of_int (Z.of_nat (length subjs))) = Ok m ∧
    (Qabs (m - arithmetic_mean (map score subjs)) <= rounding_slack (length subjs))%Q.
Proof.
  intros Hne Hv Hlen.
  pose proof (valid_scores subjs Hv) as Hsc.
  pose proof (count_roundoff _ Hlen) as Hcount.
  pose proof (qn_nonneg (length subjs)) as HN0.
  pose proof tiniest_le_roundoff as Htiny. pose proof unit_roundoff_pos as Hu.
  assert (unit_roundoff <= 1 # 8192)%Q as Hu' by by vm_compute.
  assert (0 <= tiniest)%Q as Ht0 by by vm_compute.
  set (N := qn (length subjs)) in *.
  assert (0 <= N * unit_roundoff)%Q as HNu by (apply Qmult_le_0_compat; lra).
  set (c := (20 * N * unit_roundoff + tiniest)%Q).
  assert (0 < length subjs)%nat as Hpos by (destruct subjs; [done|simpl; lia]).
  pose proof (float_sum_from 10 N c (map score subjs)) as Hsum.
  specialize (Hsum ltac:(lra) HN0 ltac:(unfold c; lra) ltac:(unfold c; lra) 0%Q 0%Q 0%nat Hsc).
  rewrite length_map in Hsum. cbn [Nat.add] in Hsum. fold N in Hsum.
  specialize (Hsum ltac:(lra) ltac:(lra)).
  assert (Qabs (0 - 0) <= qn 0 * c)%Q as Hzero by by vm_compute.
  assert (10 * qn 0 == 0)%Q as Hz10 by by vm_compute.
  specialize (Hsum ltac:(lra) Hzero).
  fold (float_sum (map score subjs)) in Hsum.
  rewrite (Qabs_wd _ (float_sum (map score subjs) - Qsum (map score subjs))) in Hsum by ring.
  assert (map score subjs ≠ []) as Hne' by (destruct subjs; done).
  destruct (mean_bounds 0 10 (map score subjs) Hne' Hsc) as [Hm0 Hm10].
  unfold py_len in Hm0, Hm10. rewrite length_map in Hm0, Hm10.
  destruct (float_div_err (float_sum (map score subjs)) (Qsum (map score subjs)) c
              (Z.of_nat (length subjs))) as (m & Hdiv & Hm);
    [lia|done|done|done|unfold c; lra|unfold c; lra|].
  exists m. split; [done|].
  unfold arithmetic_mean. rewrite length_map.
  rewrite rounding_slack_spec. fold N.
  apply (Qle_trans _ _ _ Hm). unfold c. lra.
Qed.

Lemma float_weighted_score_err (s : SubjectInfo) :
  valid_subject s →
  (0 <= float_weighted_score s)%Q ∧ (float_weighted_score s <= 31)%Q ∧
  (Qabs (float_weighted_score s - weighted_score s) <= 30 * unit_roundoff + tiniest)%Q.
Proof.
  intros (H0 & H10 & Hw).
  assert (float_of_int (weight s) == inject_Z (weight s))%Q as Hwhat.
  { apply rnd64_int. destruct Hw as [-> | [-> | ->]]; lia. }
  assert (1 <= inject_Z (weight s))%Q as Hw1 by (destruct Hw as [-> | [-> | ->]]; by vm_compute).
  assert (inject_Z (weight s) <= 3)%Q as Hw3 by (destruct Hw as [-> | [-> | ->]]; by vm_compute).
  unfold float_weighted_score, float_mul, weighted_score.
  pose proof (rnd64_err (score s * float_of_int (weight s))) as Herr.
  pose proof (rnd64_nonneg (score s * float_of_int (weight s))) as Hnn.
  set (t := rnd64 (score s * float_of_int (weight s))) in *.
  assert (score s * float_of_int (weight s) == score s * inject_Z (weight s))%Q as Hp
    by by rewrite Hwhat.
  rewrite (Qabs_wd _ _ Hp) in Herr. rewrite Hp in Herr, Hnn.
  assert (0 <= score s * inject_Z (weight s))%Q as Hp0 by (apply Qmult_le_0_compat; lra).
  assert (score s * inject_Z (weight s) <= 10 * 3)%Q as Hp30.
  { apply Qle_trans with (10 * inject_Z (weight s))%Q.
    - apply Qmult_le_compat_r; lra.
    - rewrite !(Qmult_comm 10). apply Qmult_le_compat_r; lra. }
  rewrite (Qabs_pos _ Hp0) in Herr.
  assert (unit_roundoff * (score s * inject_Z (weight s)) <= unit_roundoff * 30)%Q as Hrel.
  { rewrite !(Qmult_comm unit_roundoff). apply Qmult_le_compat_r; [lra|by vm_compute]. }
  pose proof tiniest_le_roundoff as Htiny.
  assert (unit_roundoff <= 1 # 8192)%Q as Hu' by by vm_compute.
  assert (0 <= tiniest)%Q as Ht0 by by vm_compute.
  pose proof Herr as Herr'.
  apply Qabs_Qle_condition in Herr'. destruct Herr' as [He1 He2].
  split; [by apply Hnn|]. split; [lra|].
  apply (Qle_trans _ _ _ Herr). lra.
Qed.

Lemma Qsum_close {A} (f g : A → Q) (d : Q) (l : list A) :
  Forall (fun a => (Qabs (f a - g a) <= d)%Q) l →
  (Qabs (Qsum (map f l) - Qsum (map g l)) <= qn (length l) * d)%Q.
Proof.
  induction 1 as [|a l Ha _ IH]; simpl map; simpl length; simpl Qsum.
  - by vm_compute.
  - rewrite qn_S.
    apply Qabs_Qle_condition in Ha, IH. destruct Ha as [Ha1 Ha2], IH as [IH1 IH2].
    apply Qabs_Qle_condition. split; lra.
Qed.

Lemma fold_left_Zadd (l : list Z) (a : Z) :
  (inject_Z (fold_left Z.add l a) == inject_Z a + Qsum (map inject_Z l))%Q.
Proof.
  revert a. induction l as [|z l IH]; intros a; simpl.
  - ring.
  - rewrite IH, inject_Z_plus. ring.
Qed.

(** The sum of the weights of [n] validated subjects: a whole number
    between [n] and [3n]. *)
Lemma total_weights_range (subjs : list SubjectInfo) :
  Forall valid_subject subjs →
  (Z.of_nat (length subjs) <= fold_left Z.add (map weight subjs) 0
   <= 3 * Z.of_nat (length subjs))%Z.
Proof.
  intros Hv.
  assert (∀ a, fold_left Z.add (map weight subjs) a - a >= Z.of_nat (length subjs) ∧
               fold_left Z.add (map weight subjs) a - a <= 3 * Z.of_nat (length subjs))%Z as H.
  { induction Hv as [|s l (_ & _ & Hw) _ IH]; intros a; cbn [map fold_left length]; [lia|].
    specialize (IH (a + weight s)%Z). rewrite Nat2Z.inj_succ.
    destruct Hw as [Hw | [Hw | Hw]]; rewrite Hw in *; lia. }
  specialize (H 0%Z). lia.
Qed.

(** The weighted mean as [weighted_gpa] computes it, before [round(…, 2)]. *)
Lemma float_weighted_mean_err (subjs : list SubjectInfo) :
  subjs ≠ [] → Forall valid_subject subjs → (Z.of_nat (length subjs) <= 2 ^ 40)%Z →
  ∃ m : Q,
    float_div (float_sum (map float_weighted_score subjs))
      (float_of_int (fold_left Z.add (map weight subjs) 0%Z)) = Ok m ∧
    (Qabs (m - weighted_mean (map (fun s => (score s, weight s)) subjs))
     <= rounding_slack (length subjs))%Q.
Proof.
  intros Hne Hv Hlen.
  pose proof (count_roundoff _ Hlen) as Hcount.
  pose proof (qn_nonneg (length subjs)) as HN0.
  pose proof tiniest_le_roundoff as Htiny. pose proof unit_roundoff_pos as Hu.
  assert (unit_roundoff <= 1 # 8192)%Q as Hu' by by vm_compute.
  assert (0 <= tiniest)%Q as Ht0 by by vm_compute.
  assert (0 < length subjs)%nat as Hpos by (destruct subjs; [done|simpl; lia]).
  pose proof (total_weights_range subjs Hv) as HW.
  set (zW := fold_left Z.add (map weight subjs) 0%Z) in *.
  assert (inject_Z zW == Qsum (map (fun s => inject_Z (weight s)) subjs))%Q as HzW.
  { unfold zW. rewrite fold_left_Zadd, map_map. change (inject_Z 0) with 0%Q. ring. }
  assert (qn (length subjs) <= inject_Z zW)%Q as HNW by (unfold qn; rewrite <- Zle_Qle; lia).
  set (N := qn (length subjs)) in *.
  assert (0 <= N * unit_roundoff)%Q as HNu by (apply Qmult_le_0_compat; lra).
  set (c := (62 * N * unit_roundoff + tiniest)%Q).
  set (d := (30 * unit_roundoff + tiniest)%Q).
  assert (Forall (fun x => (0 <= x)%Q ∧ (x <= 31)%Q) (map float_weighted_score subjs)) as Hterms.
  { rewrite Forall_map. eapply Forall_impl; [exact Hv|].
    intros s Hs. destruct (float_weighted_score_err s Hs) as (H0 & H31 & _). done. }
  pose proof (float_sum_from 31 N c (map float_weighted_score subjs)) as Hsum.
  specialize (Hsum ltac:(lra) HN0 ltac:(unfold c; lra) ltac:(unfold c; lra) 0%Q 0%Q 0%nat Hterms).
  rewrite length_map in Hsum. cbn [Nat.add] in Hsum. fold N in Hsum.
  specialize (Hsum ltac:(lra) ltac:(lra)).
  assert (Qabs (0 - 0) <= qn 0 * c)%Q as Hzero by by vm_compute.
  assert (31 * qn 0 == 0)%Q as Hz31 by by vm_compute.
  specialize (Hsum ltac:(lra) Hzero).
  fold (float_sum (map float_weighted_score subjs)) in Hsum.
  set (shat := float_sum (map float_weighted_score subjs)) in *.
  rewrite (Qabs_wd _ (shat - Qsum (map float_weighted_score subjs))) in Hsum by ring.
  assert (Qabs (Qsum (map float_weighted_score subjs) - Qsum (map weighted_score subjs))
          <= N * d)%Q as Hclose.
  { apply Qsum_close. eapply Forall_impl; [exact Hv|].
    intros s Hs. by destruct (float_weighted_score_err s Hs) as (_ & _ & H). }
  assert (0 <= c + d)%Q as Hcd0 by (unfold c, d; lra).
  assert (N * (c + d) <= inject_Z zW * (c + d))%Q as Hscale
    by (apply Qmult_le_compat_r; done).
  assert (Qabs (shat - Qsum (map weighted_score subjs)) <= inject_Z zW * (c + d))%Q as Htotal.
  { apply Qabs_Qle_condition in Hsum, Hclose.
    destruct Hsum as [Hs1 Hs2], Hclose as [Hc1 Hc2].
    apply Qabs_Qle_condition. split; lra. }
  destruct (weighted_sum_bounds subjs Hv) as [Hsw0 Hsw10].
  rewrite <- HzW in Hsw10.
  assert (0 < inject_Z zW)%Q as HWpos.
  { change 0%Q with (inject_Z 0). rewrite <- Zlt_Qlt. lia. }
  destruct (float_div_err shat (Qsum (map weighted_score subjs)) (c + d) zW)
    as (m & Hdiv & Hm); [lia|done| | |done|unfold c, d; lra|].
  { apply Qle_shift_div_l; [done|]. lra. }
  { apply Qle_shift_div_r; [done|]. lra. }
  exists m. split; [done|].
  unfold weighted_mean. rewrite !map_map. cbn [fst snd].
  fold weighted_score. rewrite <- HzW.
  change (map (fun x : SubjectInfo => score x * inject_Z (weight x))%Q subjs)
    with (map weighted_score subjs).
  rewrite rounding_slack_spec. fold N.
  apply (Qle_trans _ _ _ Hm). unfold c, d. lra.
Qed.

(** C3.  In double precision, with between one and 2^40 subject entries,
    scores in [0,10] and weights in {1,2,3}: [simple_gpa] is the double
    nearest to a hundredth that lies within 0.005 plus the rounding slack
    of the arithmetic mean of the scores, [weighted_gpa] likewise for
    (Σ s·w)/(Σ w); and each is the double nearest to the mean rounded to
    two decimals whenever that mean is clear of the middle between two
    hundredths by more than the slack. *)
Theorem gpa_is_float_rounded_mean (r : AcademicRecord) :
  subjects r ≠ [] → Forall valid_subject (subjects r) →
  (Z.of_nat (length (subjects r)) <= 2 ^ 40)%Z →
  ∃ k kw : Z,
    float_simple_gpa r = Ok (rnd64 (inject_Z k / 100)) ∧
    float_weighted_gpa r = Ok (rnd64 (inject_Z kw / 100)) ∧
    (Qabs (inject_Z k / 100 - arithmetic_mean (map score (subjects r)))
     <= (1 # 200) + rounding_slack (length (subjects r)))%Q ∧
    (Qabs (inject_Z kw / 100
           - weighted_mean (map (fun s => (score s, weight s)) (subjects r)))
     <= (1 # 200) + rounding_slack (length (subjects r)))%Q ∧
    (clear_of_ties (arithmetic_mean (map score (subjects r))) (length (subjects r)) →
     float_simple_gpa r = Ok (rnd64 (round2 (arithmetic_mean (map score (subjects r)))))) ∧
    (clear_of_ties (weighted_mean (map (fun s => (score s, weight s)) (subjects r)))
       (length (subjects r)) →
     float_weighted_gpa r
     = Ok (rnd64 (round2 (weighted_mean (map (fun s => (score s, weight s)) (subjects r)))))).
Proof.
  intros Hne Hv Hlen.
  destruct (float_simple_mean_err (subjects r) Hne Hv Hlen) as (m & Hm & Hmerr).
  destruct (float_weighted_mean_err (subjects r) Hne Hv Hlen) as (mw & Hmw & Hmwerr).
  destruct (float_round2_err m _ _ Hmerr) as (k & Hk & Hkerr & Hkclear).
  destruct (float_round2_err mw _ _ Hmwerr) as (kw & Hkw & Hkwerr & Hkwclear).
  assert (float_simple_gpa r = Ok (float_round2 m)) as Hs.
  { unfold float_simple_gpa. destruct (subjects r) as [|s l] eqn:E; [done|].
    rewrite Hm. reflexivity. }
  assert (float_weighted_gpa r = Ok (float_round2 mw)) as Hw.
  { unfold float_weighted_gpa. destruct (subjects r) as [|s l] eqn:E; [done|].
    cbv zeta. rewrite Hmw. reflexivity. }
  exists k, kw. rewrite Hs, Hw. split_and!.
  - by rewrite Hk.
  - by rewrite Hkw.
  - done.
  - done.
  - intros Hclear. f_equal. by apply Hkclear.
  - intros Hclear. f_equal. by apply Hkwclear.
Qed.

Lemma gpa_is_float_rounded_mean_witness :
  ∃ k kw : Z,
    float_simple_gpa (sample_record "a3f09c1b77e2" typed_subjects)
    = Ok (rnd64 (inject_Z k / 100)) ∧
    float_weighted_gpa (sample_record "a3f09c1b77e2" typed_subjects)
    = Ok (rnd64 (inject_Z kw / 100)) ∧
    (Qabs (inject_Z k / 100 - arithmetic_mean (map score typed_subjects))
     <= (1 # 200) + rounding_slack 3)%Q ∧
    (Qabs (inject_Z kw / 100
           - weighted_mean (map (fun s => (score s, weight s)) typed_subjects))
     <= (1 # 200) + rounding_slack 3)%Q ∧
    (clear_of_ties (arithmetic_mean (map score typed_subjects)) 3 →
     float_simple_gpa (sample_record "a3f09c1b77e2" typed_subjects)
     = Ok (rnd64 (round2 (arithmetic_mean (map score typed_subjects))))) ∧
    (clear_of_ties (weighted_mean (map (fun s => (score s, weight s)) typed_subjects)) 3 →
     float_weighted_gpa (sample_record "a3f09c1b77e2" typed_subjects)
     = Ok (rnd64 (round2 (weighted_mean (map (fun s => (score s, weight s))
                                             typed_subjects))))).
Proof.
  apply (gpa_is_float_rounded_mean (sample_record "a3f09c1b77e2" typed_subjects)).
  - discriminate.
  - apply all_accepted_valid. by vm_compute.
  - by vm_compute.
Defined.

(** C3 as stated fails in double precision: not every record with
    validated subjects has the rounded means as its averages. *)
Lemma gpa_not_always_rounded_mean :
  ¬ (∀ r : AcademicRecord,
       subjects r ≠ [] → Forall valid_subject (subjects r) →
       ∃ g gw : Q,
         float_simple_gpa r = Ok g ∧ float_weighted_gpa r = Ok gw ∧
         (g == rnd64 (round2 (arithmetic_mean (map score (subjects r)))))%Q ∧
         (gw == rnd64 (round2 (weighted_mean (map (fun s => (score s, weight s))
                                                 (subjects r)))))%Q).
Proof.
  intros H.
  destruct (H (sample_record "a3f09c1b77e2" near_tie_subjects))
    as (g & gw & Hg & _ & Heq & _).
  - discriminate.
  - apply all_accepted_valid. by vm_compute.
  - vm_compute in Hg. injection Hg as <-. vm_compute in Heq. discriminate Heq.
Qed.

(** The two averages are not always the rounded means.  Of the doubles 6.0
    and 7.05 the mean lies below 6.525 and rounds to 6.52, yet
    [simple_gpa] returns 6.53: the sum of the two doubles is rounded up
    first.  Of the doubles 0.39, 2.74, 2.05 and 7.7 with weights 2, 1, 1
    and 2 the weighted mean lies above 3.495 and rounds to 3.50, yet
    [weighted_gpa] returns 3.49, and with it the grade level one band
    lower. *)
Example float_gpa_off_rounded_mean :
  (Forall valid_subject near_tie_subjects ∧
   Forall (fun s => is_double (score s)) near_tie_subjects ∧
   float_simple_gpa (sample_record "a3f09c1b77e2" near_tie_subjects) = Ok (rnd64 (653 # 100)) ∧
   (arithmetic_mean (map score near_tie_subjects) < 6525 # 1000)%Q ∧
   (round2 (arithmetic_mean (map score near_tie_subjects)) == 652 # 100)%Q ∧
   ¬ (rnd64 (653 # 100) == rnd64 (652 # 100))%Q) ∧
  (Forall valid_subject boundary_subjects ∧
   Forall (fun s => is_double (score s)) boundary_subjects ∧
   float_weighted_gpa (sample_record "a3f09c1b77e2" boundary_subjects)
   = Ok (rnd64 (349 # 100)) ∧
   (3495 # 1000 < weighted_mean (map (fun s => (score s, weight s)) boundary_subjects))%Q ∧
   (round2 (weighted_mean (map (fun s => (score s, weight s)) boundary_subjects))
    == 350 # 100)%Q ∧
   ¬ (rnd64 (349 # 100) == rnd64 (350 # 100))%Q ∧
   float_grade_level (sample_record "a3f09c1b77e2" boundary_subjects) = Ok POOR ∧
   level_of (rnd64 (350 # 100)) = WEAK).
Proof.
  split.
  - split; [apply all_accepted_valid; by vm_compute|].
    split; [by repeat (apply List.Forall_cons; [by vm_compute|]); apply List.Forall_nil|].
    split; [by vm_compute|]. split; [by vm_compute|]. split; [by vm_compute|].
    by vm_compute.
  - split; [apply all_accepted_valid; by vm_compute|].
    split; [by repeat (apply List.Forall_cons; [by vm_compute|]); apply List.Forall_nil|].
    split; [by vm_compute|]. split; [by vm_compute|]. split; [by vm_compute|].
    split; [by vm_compute|]. split; by vm_compute.
Qed.
